(** * keygen-go: response classification and license validation

    A shallow embedding of the parts of the SDK that turn a completed
    HTTP exchange into a typed result:

    - [Response.tldr] and [Client.send], from the request it builds to
      the classification of the response (client source, package
      [keygen]);
    - [License.Validate] and [License.Verify], in the two revisions of
      the license source that the repository carries;
    - the other methods of [License]: [SetRelationships], [Activate],
      [Deactivate], [Machine], [Machines], [Entitlements] and
      [Checkout].

    Go strings and byte slices are sequences of bytes; they are modelled
    by [string] (a sequence of 8-bit [ascii]).  Go [int] is taken at its
    64-bit size and modelled by [Z]. *)

From Stdlib Require Import ZArith String Ascii DecimalString DecimalPos Sorted Lia.
From stdpp Require Import gmap strings list.

Open Scope Z_scope.

(** ** Go standard library functions used by the client *)

(** The line feed byte, Go's ['\n']. *)
Definition LF : ascii := "010"%char.

(** Go's ["\n"]: a one-byte string. *)
Definition newline : string := String LF EmptyString.

(** Go's ["\\n"]: a backslash followed by the letter n. *)
Definition escaped_newline : string := String "\" (String "n" EmptyString).

(** [c] occurs in [s]. *)
Fixpoint contains_byte (c : ascii) (s : string) : bool :=
  match s with
  | EmptyString => false
  | String a s' => if Ascii.eqb a c then true else contains_byte c s'
  end.

(** [s[0:n]] for [n <= len(s)]. *)
Definition slice_to (n : nat) (s : string) : string := String.substring 0 n s.

(** [strings.Replace(s, old, new, n)] for a non-empty [old]: the first
    [n] non-overlapping occurrences of [old], scanning from the left, are
    replaced by [new]; every occurrence when [n < 0].  [skip] counts the
    bytes of a matched occurrence that are still to be dropped, [budget]
    is the number of replacements left ([None]: unlimited). *)
Fixpoint replace_from (old new : string) (budget : option nat) (skip : nat)
    (s : string) : string :=
  match s with
  | EmptyString => EmptyString
  | String c s' =>
      match skip with
      | S k => replace_from old new budget k s'
      | O =>
          match budget with
          | Some O => s
          | _ =>
              if String.prefix old s
              then new +:+ replace_from old new (pred <$> budget)
                             (Nat.pred (String.length old)) s'
              else String c (replace_from old new budget O s')
          end
      end
  end.

Definition strings_Replace (s old new : string) (n : Z) : string :=
  replace_from old new (if n <? 0 then None else Some (Z.to_nat n)) O s.

(** *** strconv *)

Definition is_digit (c : ascii) : bool :=
  (48 <=? nat_of_ascii c)%nat && (nat_of_ascii c <=? 57)%nat.

Definition digit_value (c : ascii) : Z := Z.of_nat (nat_of_ascii c) - 48.

(** Value of a run of decimal digits, most significant first; [None] when
    a byte is not a digit ([strconv]'s syntax error). *)
Fixpoint parse_digits (acc : Z) (s : string) : option Z :=
  match s with
  | EmptyString => Some acc
  | String c s' =>
      if is_digit c then parse_digits (10 * acc + digit_value c) s' else None
  end.

(** [strconv.ParseUint(s, 10, 64)] without its range check, which
    [ParseInt] redoes on the signed range: the empty string is a syntax
    error. *)
Definition parse_magnitude (s : string) : option Z :=
  match s with
  | EmptyString => None
  | _ => parse_digits 0 s
  end.

(** [strconv.ParseInt(s, 10, bitSize)]: an optional sign, then at least
    one decimal digit, the value within the signed [bitSize]-bit range.
    [None] stands for a non-nil error (syntax or range); the callers only
    test [e == nil]. *)
Definition ParseInt (s : string) (bitSize : Z) : option Z :=
  match s with
  | EmptyString => None
  | String c rest =>
      let neg := Ascii.eqb c "-" in
      let digits := if Ascii.eqb c "+" || neg then rest else s in
      match parse_magnitude digits with
      | None => None
      | Some un =>
          let cutoff := 2 ^ (bitSize - 1) in
          if negb neg && (cutoff <=? un) then None
          else if neg && (cutoff <? un) then None
          else Some (if neg then - un else un)
      end
  end.

(** Size of Go's [int]. *)
Definition intSize : Z := 64.

(** [strconv.Atoi(s)], which is [ParseInt(s, 10, 0)] narrowed to [int]. *)
Definition Atoi (s : string) : option Z := ParseInt s intSize.

(** The [%d] verb of [fmt] on an [int]. *)
Definition format_int (z : Z) : string := NilZero.string_of_int (Z.to_int z).

(** *** net/textproto and net/http headers *)

Definition is_lower (c : ascii) : bool :=
  (97 <=? nat_of_ascii c)%nat && (nat_of_ascii c <=? 122)%nat.

Definition is_upper (c : ascii) : bool :=
  (65 <=? nat_of_ascii c)%nat && (nat_of_ascii c <=? 90)%nat.

Definition to_upper (c : ascii) : ascii :=
  if is_lower c then ascii_of_nat (nat_of_ascii c - 32) else c.

Definition to_lower (c : ascii) : ascii :=
  if is_upper c then ascii_of_nat (nat_of_ascii c + 32) else c.

(** [validHeaderFieldByte]: the token bytes of RFC 7230. *)
Definition validHeaderFieldByte (c : ascii) : bool :=
  is_digit c || is_lower c || is_upper c
  || contains_byte c "!#$%&'*+-.^_`|~".

Fixpoint all_bytes (p : ascii -> bool) (s : string) : bool :=
  match s with
  | EmptyString => true
  | String c s' => p c && all_bytes p s'
  end.

(** The rewriting loop of [canonicalMIMEHeaderKey]: the first letter and
    every letter after a hyphen in upper case, the others in lower case. *)
Fixpoint canonical_case (upper : bool) (s : string) : string :=
  match s with
  | EmptyString => EmptyString
  | String c s' =>
      String (if upper then to_upper c else to_lower c)
             (canonical_case (Ascii.eqb c "-") s')
  end.

(** [textproto.CanonicalMIMEHeaderKey]: a key with a byte that is not a
    token byte is returned unchanged. *)
Definition CanonicalMIMEHeaderKey (s : string) : string :=
  if all_bytes validHeaderFieldByte s then canonical_case true s else s.

(** [http.Header], a [map[string][]string]. *)
Abbreviation Header := (gmap string (list string)).

(** [Header.Get]: the first value stored under the canonical form of
    [key], the empty string when there is none. *)
Definition Header_Get (h : Header) (key : string) : string :=
  match h !! CanonicalMIMEHeaderKey key with
  | Some (v :: _) => v
  | _ => EmptyString
  end.

(** [Header.Add]: append [value] to the values of the canonical key. *)
Definition Header_Add (h : Header) (key value : string) : Header :=
  <[CanonicalMIMEHeaderKey key := default [] (h !! CanonicalMIMEHeaderKey key) ++ [value]]> h.

(** ** Data model of the client *)

(** [time.Time]: the zero value, or an instant built by [time.Unix]. *)
Inductive Time : Type :=
| Time_zero
| Time_Unix (sec nsec : Z).

(** [http.Request], as far as [send] fills it in. *)
Record http_Request : Type := {
  Method : string;
  URL : string;
  Request_Header : Header;
  Request_Body : string
}.

(** One entry of [jsonapi.Document.Errors]. *)
Record ErrorObject : Type := {
  EO_Title : string;
  EO_Detail : string;
  EO_Code : string;
  EO_Source_Pointer : string
}.

(** [jsonapi.Document]; [send] reads its [Errors] only. *)
Record jsonapi_Document : Type := {
  Errors : list ErrorObject
}.

Record Response : Type := {
  Request : http_Request;
  ID : string;
  Headers : Header;
  Document : option jsonapi_Document;
  Size : Z;
  Body : string;
  Status : Z
}.

Definition with_Document (r : Response) (doc : jsonapi_Document) : Response :=
  {| Request := Request r; ID := ID r; Headers := Headers r;
     Document := Some doc; Size := Size r; Body := Body r; Status := Status r |}.

(** The [Error] struct: [&Error{response, title, detail, code, source}]. *)
Record Error : Type := {
  Err_Response : Response;
  Title : string;
  Detail : string;
  Code : string;
  Source : string
}.

Record RateLimit : Type := {
  Window : string;
  Count : Z;
  Limit : Z;
  Remaining : Z;
  Reset : Time;
  RetryAfter : Z;
  Err : Error
}.

(** Go [error] values seen by the callers of the SDK.  [ErrorString] is
    the value of [fmt.Errorf]; [External] stands for an error made by a
    collaborator (transport, codec, verifier) and is told apart by its
    message only. *)
Inductive error : Type :=
| RateLimitError (info : RateLimit)
| ErrorString (msg : string)
| NotAuthorizedError (e : Error)
| LicenseTokenError (e : Error)
| LicenseKeyError (e : Error)
| NotFoundError (e : Error)
| GenericError (e : Error)
| ErrHeartbeatDead
| ErrMachineAlreadyActivated
| ErrMachineLimitExceeded
| ErrProcessLimitExceeded
| ErrLicenseNotSigned
| ErrLicenseInvalid
| ErrLicenseNotActivated
| ErrLicenseExpired
| ErrLicenseSuspended
| ErrLicenseTooManyMachines
| ErrLicenseTooManyCores
| ErrLicenseTooManyProcesses
| ErrValidationFingerprintMissing
| ErrValidationProductMissing
| ErrHeartbeatRequired
| External (msg : string).

Record Client : Type := {
  Account : string;
  LicenseKey : string;
  Token : string;
  PublicKey : string;
  UserAgent : string
}.

(** The [ErrorCode] constants that [send] compares with; they are
    declared outside the files at hand. *)
Record ErrorCodes : Type := {
  ErrorCodeMachineHeartbeatDead : string;
  ErrorCodeProcessHeartbeatDead : string;
  ErrorCodeFingerprintTaken : string;
  ErrorCodeMachineLimitExceeded : string;
  ErrorCodeProcessLimitExceeded : string;
  ErrorCodeTokenInvalid : string;
  ErrorCodeLicenseInvalid : string;
  ErrorCodeNotFound : string
}.

(** Package-level configuration read by [send]. *)
Record Config : Type := {
  APIURL : string;
  APIPrefix : string;
  APIVersion : string;
  userAgent : string;
  ContentType : string
}.

Definition StatusNoContent : Z := 204.
Definition StatusForbidden : Z := 403.
Definition StatusTooManyRequests : Z := 429.
Definition StatusInternalServerError : Z := 500.

(** ** Response.tldr *)

Definition tldr (r : Response) : string :=
  let tldr := Body r in
  let tldr :=
    if (500 <? String.length tldr)%nat then slice_to 500 tldr +:+ "..." else tldr in
  strings_Replace tldr newline escaped_newline (-1).

(** The preview in the words of the specification, to be compared with
    [tldr].  [single_line] writes every line feed as a backslash and
    the letter n and keeps every other byte. *)
Fixpoint single_line (s : string) : string :=
  match s with
  | EmptyString => EmptyString
  | String c s' =>
      if Ascii.eqb c LF then String "\" (String "n" (single_line s'))
      else String c (single_line s')
  end.

(** [preview] is the first 500 bytes of the body on a single line, with
    three dots after them when the body is longer than 500 bytes. *)
Definition preview (body : string) : string :=
  single_line (slice_to 500 body)
    +:+ (if (500 <? String.length body)%nat then "..." else "").

(** ** Calls to collaborators

    The package reaches outside itself through the codec
    ([jsonapi.Marshal], [jsonapi.Unmarshal], [query.Values]), the
    transport ([http.NewRequest], [client.Do], [ioutil.ReadAll]) and the
    verifier.  A computation is a tree of such calls over a signature
    [E]; what the collaborators answer is supplied by a handler when the
    tree is run.  Calls to [Logger] are left out: they build strings and
    return nothing. *)

Inductive Prog (E : Type -> Type) (A : Type) : Type :=
| Ret (a : A)
| Bind {X : Type} (c : E X) (k : X -> Prog E A).

Arguments Ret {E A} a.
Arguments Bind {E A X} c k.

Inductive AnyCall (E : Type -> Type) : Type :=
| called {X : Type} (c : E X).

Arguments called {E X} c.

Definition Handler (E : Type -> Type) : Type := forall X : Type, E X -> X.

(** Sequencing: [p] first, then [f] on its value. *)
Fixpoint bind {E : Type -> Type} {A B : Type} (p : Prog E A) (f : A -> Prog E B)
    : Prog E B :=
  match p with
  | Ret a => f a
  | Bind c k => Bind c (fun x => bind (k x) f)
  end.

(** Run a computation against a handler; the calls made are recorded in
    the order they are made. *)
Fixpoint run {E : Type -> Type} {A : Type} (h : Handler E) (p : Prog E A)
    : list (AnyCall E) * A :=
  match p with
  | Ret a => ([], a)
  | Bind c k => let '(t, a) := run h (k (h _ c)) in (called c :: t, a)
  end.

Definition trace {E : Type -> Type} {A : Type} (h : Handler E) (p : Prog E A)
    : list (AnyCall E) := fst (run h p).

Definition result {E : Type -> Type} {A : Type} (h : Handler E) (p : Prog E A)
    : A := snd (run h p).

(** A completed exchange as [client.Do] and [ioutil.ReadAll] deliver it:
    the read of the body may fail. *)
Record http_Response : Type := {
  StatusCode : Z;
  Response_Header : Header;
  Response_Request : http_Request;
  Response_Body : string + error
}.

(** The calls of [send]; [Params] and [Model] are what [params] and
    [model] point at ([interface{}] in the source). *)
Inductive Call (Params Model : Type) : Type -> Type :=
| Marshal (params : Params) : Call Params Model (string + error)
| QueryValues (params : Params) : Call Params Model (string + error)
| NewRequest (method url body : string) : Call Params Model (option error)
| ClientDo (req : http_Request) : Call Params Model (http_Response + error)
| VerifyResponse (publicKey : string) (response : Response)
    : Call Params Model (option error)
| Unmarshal (body : string) (model : Model)
    : Call Params Model (Model * (jsonapi_Document + error)).

Arguments Marshal {Params Model} params.
Arguments QueryValues {Params Model} params.
Arguments NewRequest {Params Model} method url body.
Arguments ClientDo {Params Model} req.
Arguments VerifyResponse {Params Model} publicKey response.
Arguments Unmarshal {Params Model} body model.

(** The arguments of a call to the response verifier. *)
Definition verified {Params Model : Type} (c : AnyCall (Call Params Model))
    : option (string * Response) :=
  match c with
  | called (VerifyResponse publicKey response) => Some (publicKey, response)
  | _ => None
  end.

Definition is_Unmarshal {Params Model : Type} (c : AnyCall (Call Params Model))
    : bool :=
  match c with called (Unmarshal _ _) => true | _ => false end.

(** A call that [send] makes before it holds a response: neither the
    verifier nor the decoder. *)
Definition before_response {Params Model : Type} (call : AnyCall (Call Params Model))
    : Prop :=
  verified call = None /\ is_Unmarshal call = false.

(** What [send] hands back: its two results and the state of the value
    [model] points at. *)
Record Outcome (Model : Type) : Type := {
  out_response : option Response;
  out_err : option error;
  out_model : Model
}.

Arguments out_response {Model} o.
Arguments out_err {Model} o.
Arguments out_model {Model} o.

Definition returns {E : Type -> Type} {Model : Type} (response : Response)
    (err : option error) (model : Model) : Prog E (Outcome Model) :=
  Ret {| out_response := Some response; out_err := err; out_model := model |}.

Definition fails {E : Type -> Type} {Model : Type} (err : error) (model : Model)
    : Prog E (Outcome Model) :=
  Ret {| out_response := None; out_err := Some err; out_model := model |}.

(** ** Client.send *)

Section Send.

Variables Params Model : Type.

(** The type assertion [params.(querystring)]. *)
Variable is_querystring : Params -> bool.

Variable cfg : Config.
Variable codes : ErrorCodes.

Local Abbreviation Computation := (Prog (Call Params Model) (Outcome Model)).

(** [if i, e := strconv.Atoi(...); e == nil { x = i }] over a variable
    that starts at zero. *)
Definition assigned_or_zero (parsed : option Z) : Z :=
  match parsed with
  | Some i => i
  | None => 0
  end.

(** The [RateLimitError] built in the first case of the status switch. *)
Definition rate_limit_error (response : Response) : error :=
  let err := {| Err_Response := response; Title := ""; Detail := "";
                Code := "TOO_MANY_REQUESTS"; Source := "" |} in
  let window := Header_Get (Headers response) "X-RateLimit-Window" in
  let retryAfter := assigned_or_zero (Atoi (Header_Get (Headers response) "Retry-After")) in
  let count := assigned_or_zero (Atoi (Header_Get (Headers response) "X-RateLimit-Count")) in
  let limit := assigned_or_zero (Atoi (Header_Get (Headers response) "X-RateLimit-Limit")) in
  let remaining :=
    assigned_or_zero (Atoi (Header_Get (Headers response) "X-RateLimit-Remaining")) in
  let reset :=
    match ParseInt (Header_Get (Headers response) "X-RateLimit-Reset") 64 with
    | Some i => Time_Unix i 0
    | None => Time_zero
    end in
  RateLimitError {| Window := window; Count := count; Limit := limit;
                    Remaining := remaining; Reset := reset;
                    RetryAfter := retryAfter; Err := err |}.

(** The prefix of the message of the second case, up to the body. *)
Definition server_error_prefix (response : Response) : string :=
  "an error occurred: id=" +:+ ID response
    +:+ " status=" +:+ format_int (Status response)
    +:+ " size=" +:+ format_int (Size response)
    +:+ " body=".

(** [fmt.Errorf("an error occurred: id=%s status=%d size=%d body=%s", ...)]. *)
Definition server_error (response : Response) : error :=
  ErrorString (server_error_prefix response +:+ tldr response).

(** The error for the first problem of a decoded document. *)
Definition problem_error (response : Response) (first : ErrorObject) : error :=
  let err := {| Err_Response := response; Title := EO_Title first;
                Detail := EO_Detail first; Code := EO_Code first;
                Source := EO_Source_Pointer first |} in
  if Status response =? StatusForbidden then NotAuthorizedError err
  else
    let code := EO_Code first in
    if String.eqb code (ErrorCodeMachineHeartbeatDead codes)
       || String.eqb code (ErrorCodeProcessHeartbeatDead codes)
    then ErrHeartbeatDead
    else if String.eqb code (ErrorCodeFingerprintTaken codes)
    then ErrMachineAlreadyActivated
    else if String.eqb code (ErrorCodeMachineLimitExceeded codes)
    then ErrMachineLimitExceeded
    else if String.eqb code (ErrorCodeProcessLimitExceeded codes)
    then ErrProcessLimitExceeded
    else if String.eqb code (ErrorCodeTokenInvalid codes)
    then LicenseTokenError err
    else if String.eqb code (ErrorCodeLicenseInvalid codes)
    then LicenseKeyError err
    else if String.eqb code (ErrorCodeNotFound codes)
    then NotFoundError err
    else GenericError err.

(** From the empty-body test to the end of [send]. *)
Definition send_decode (response : Response) (model : Model) : Computation :=
  if (Status response =? StatusNoContent) || (Size response =? 0)
  then returns response None model
  else
    Bind (Unmarshal (Body response) model) (fun '(model, decoded) =>
      match decoded with
      | inr err => returns response (Some err) model
      | inl doc =>
          let response := with_Document response doc in
          match Errors doc with
          | first :: _ => returns response (Some (problem_error response first)) model
          | [] => returns response None model
          end
      end).

(** [send] from the status switch on: what happens to a response once
    it has been read. *)
Definition send_classify (c : Client) (response : Response) (model : Model)
    : Computation :=
  if Status response =? StatusTooManyRequests
  then returns response (Some (rate_limit_error response)) model
  else if StatusInternalServerError <=? Status response
  then returns response (Some (server_error response)) model
  else if negb (String.eqb (PublicKey c) "")
  then
    Bind (VerifyResponse (PublicKey c) response) (fun verdict =>
      match verdict with
      | Some err => returns response (Some err) model
      | None => send_decode response model
      end)
  else send_decode response model.

(** The [Response] that [send] builds once the body is read; no
    document is attached yet. *)
Definition new_Response (res : http_Response) (requestID out : string) : Response :=
  {| Request := Response_Request res; ID := requestID;
     Status := StatusCode res; Headers := Response_Header res;
     Size := Z.of_nat (String.length out); Body := out;
     Document := None |}.

Definition sends_body (method : string) : bool :=
  String.eqb method "POST" || String.eqb method "PATCH" || String.eqb method "PUT".

(** The headers [send] adds to a fresh request. *)
Definition request_headers (c : Client) : Header :=
  let h : Header := ∅ in
  let h :=
    if negb (String.eqb (LicenseKey c) "")
    then Header_Add h "Authorization" ("License " +:+ LicenseKey c)
    else if negb (String.eqb (Token c) "")
    then Header_Add h "Authorization" ("Bearer " +:+ Token c)
    else h in
  let h := Header_Add h "Keygen-Version" (APIVersion cfg) in
  let h := Header_Add h "Content-Type" (ContentType cfg) in
  let h := Header_Add h "Accept" (ContentType cfg) in
  Header_Add h "User-Agent" (userAgent cfg +:+ " " +:+ UserAgent c).

Definition send (c : Client) (method path : string) (params : option Params)
    (model : Model) : Computation :=
  let url :=
    if String.eqb (APIURL cfg) "https://api.keygen.sh"
    then APIURL cfg +:+ "/" +:+ APIPrefix cfg +:+ "/accounts/" +:+ Account c +:+ "/" +:+ path
    else APIURL cfg +:+ "/" +:+ APIPrefix cfg +:+ "/" +:+ path in
  let with_body (k : string -> Computation) : Computation :=
    match params with
    | Some p =>
        if sends_body method
        then Bind (Marshal p) (fun r =>
               match r with
               | inl serialized => k serialized
               | inr err => fails err model
               end)
        else k ""
    | None => k ""
    end in
  let with_query (k : string -> Computation) : Computation :=
    match params with
    | Some p =>
        if is_querystring p
        then Bind (QueryValues p) (fun r =>
               match r with
               | inl enc => k (if String.eqb enc "" then url else url +:+ "?" +:+ enc)
               | inr err => fails err model
               end)
        else k url
    | None => k url
    end in
  with_body (fun body =>
  with_query (fun url =>
    Bind (NewRequest method url body) (fun failed =>
      match failed with
      | Some err => fails err model
      | None =>
          let req := {| Method := method; URL := url;
                        Request_Header := request_headers c;
                        Request_Body := body |} in
          Bind (ClientDo req) (fun done =>
            match done with
            | inr err => fails err model
            | inl res =>
                let requestID := Header_Get (Response_Header res) "x-request-id" in
                match Response_Body res with
                | inr err => fails err model
                | inl out => send_classify c (new_Response res requestID out) model
                end
            end)
      end))).

Definition Post (c : Client) := send c "POST".
Definition Get (c : Client) := send c "GET".
Definition Put (c : Client) := send c "PUT".
Definition Patch (c : Client) := send c "PATCH".
Definition Delete (c : Client) := send c "DELETE".

End Send.

(** ** License *)

(** The [ValidationCode] constants that [Validate] compares with; they
    are declared outside the files at hand. *)
Record ValidationCodes : Type := {
  ValidationCodeValid : string;
  ValidationCodeFingerprintScopeMismatch : string;
  ValidationCodeNoMachines : string;
  ValidationCodeNoMachine : string;
  ValidationCodeExpired : string;
  ValidationCodeSuspended : string;
  ValidationCodeTooManyMachines : string;
  ValidationCodeTooManyCores : string;
  ValidationCodeTooManyProcesses : string;
  ValidationCodeFingerprintScopeRequired : string;
  ValidationCodeFingerprintScopeEmpty : string;
  ValidationCodeHeartbeatNotStarted : string;
  ValidationCodeHeartbeatDead : string;
  ValidationCodeProductScopeRequired : string;
  ValidationCodeProductScopeEmpty : string
}.

(** The constants, in the order of the record. *)
Definition all_codes (v : ValidationCodes) : list string :=
  [ ValidationCodeValid v; ValidationCodeFingerprintScopeMismatch v;
    ValidationCodeNoMachines v; ValidationCodeNoMachine v;
    ValidationCodeExpired v; ValidationCodeSuspended v;
    ValidationCodeTooManyMachines v; ValidationCodeTooManyCores v;
    ValidationCodeTooManyProcesses v; ValidationCodeFingerprintScopeRequired v;
    ValidationCodeFingerprintScopeEmpty v; ValidationCodeHeartbeatNotStarted v;
    ValidationCodeHeartbeatDead v; ValidationCodeProductScopeRequired v;
    ValidationCodeProductScopeEmpty v ].

(** The call of [Verify]: [verifier.VerifyLicense(l)] on a verifier that
    holds [publicKey]; it answers a byte slice ([None]: nil) and an
    error. *)
Inductive VerifierCall (Lic : Type) : Type -> Type :=
| VerifyLicense (publicKey : string) (l : Lic)
    : VerifierCall Lic (option string * option error).

Arguments VerifyLicense {Lic} publicKey l.

Section License.

(** [params], [map[string]interface{}] and [ValidationResult], the
    last with its [Code] field. *)
Variables Params Metadata ValidationResult : Type.
Variable Result_Code : ValidationResult -> string.

(** Their zero values: the nil map and [ValidationResult{}]. *)
Variable nil_Metadata : Metadata.
Variable zero_ValidationResult : ValidationResult.

(** [&validate{fingerprints}]. *)
Variable validate_params : list string -> Params.

Variable is_querystring : Params -> bool.
Variable cfg : Config.
Variable codes : ErrorCodes.
Variable vcodes : ValidationCodes.

(** The client made from the package-level [Account], [LicenseKey],
    [Token], [PublicKey] and [UserAgent]. *)
Variable package_client : Client.

(** *** The license source *)

Record License : Type := {
  L_ID : string;
  L_Type : string;
  L_Name : string;
  L_Key : string;
  L_Expiry : option Time;
  L_Scheme : string;
  L_RequireHeartbeat : bool;
  L_LastValidated : option Time;
  L_Created : Time;
  L_Updated : Time;
  L_Metadata : Metadata;
  L_PolicyId : string;
  L_LastValidation : option ValidationResult
}.

Definition with_LastValidation (l : License) (r : option ValidationResult) : License :=
  {| L_ID := L_ID l; L_Type := L_Type l; L_Name := L_Name l; L_Key := L_Key l;
     L_Expiry := L_Expiry l; L_Scheme := L_Scheme l;
     L_RequireHeartbeat := L_RequireHeartbeat l;
     L_LastValidated := L_LastValidated l; L_Created := L_Created l;
     L_Updated := L_Updated l; L_Metadata := L_Metadata l;
     L_PolicyId := L_PolicyId l; L_LastValidation := r |}.

(** The target of the validation request. *)
Record validation : Type := {
  V_License : License;
  V_Result : ValidationResult
}.

(** [License{}] and [validation{}]. *)
Definition zero_License : License :=
  {| L_ID := ""; L_Type := ""; L_Name := ""; L_Key := ""; L_Expiry := None;
     L_Scheme := ""; L_RequireHeartbeat := false; L_LastValidated := None;
     L_Created := Time_zero; L_Updated := Time_zero; L_Metadata := nil_Metadata;
     L_PolicyId := ""; L_LastValidation := None |}.

Definition zero_validation : validation :=
  {| V_License := zero_License; V_Result := zero_ValidationResult |}.

(** The switch of [Validate], entered when the code is not the valid
    one. *)
Definition validation_switch (code : string) : error :=
  if String.eqb code (ValidationCodeFingerprintScopeMismatch vcodes)
     || String.eqb code (ValidationCodeNoMachines vcodes)
     || String.eqb code (ValidationCodeNoMachine vcodes)
  then ErrLicenseNotActivated
  else if String.eqb code (ValidationCodeExpired vcodes)
  then ErrLicenseExpired
  else if String.eqb code (ValidationCodeSuspended vcodes)
  then ErrLicenseSuspended
  else if String.eqb code (ValidationCodeTooManyMachines vcodes)
  then ErrLicenseTooManyMachines
  else if String.eqb code (ValidationCodeTooManyCores vcodes)
  then ErrLicenseTooManyCores
  else if String.eqb code (ValidationCodeTooManyProcesses vcodes)
  then ErrLicenseTooManyProcesses
  else if String.eqb code (ValidationCodeFingerprintScopeRequired vcodes)
          || String.eqb code (ValidationCodeFingerprintScopeEmpty vcodes)
  then ErrValidationFingerprintMissing
  else if String.eqb code (ValidationCodeHeartbeatNotStarted vcodes)
  then ErrHeartbeatRequired
  else if String.eqb code (ValidationCodeHeartbeatDead vcodes)
  then ErrHeartbeatDead
  else if String.eqb code (ValidationCodeProductScopeRequired vcodes)
          || String.eqb code (ValidationCodeProductScopeEmpty vcodes)
  then ErrValidationProductMissing
  else ErrLicenseInvalid.

(** [Validate] after [client.Post] has returned [posted]: the receiver
    as it is left, and the error returned. *)
Definition Validate_posted (l : License) (posted : Outcome validation)
    : License * option error :=
  match out_err posted with
  | Some err =>
      match err with
      | NotFoundError _ => (l, Some ErrLicenseInvalid)
      | _ => (l, Some err)
      end
  | None =>
      let validation := out_model posted in
      let l := V_License validation in
      let l := with_LastValidation l (Some (V_Result validation)) in
      if String.eqb (Result_Code (V_Result validation)) (ValidationCodeValid vcodes)
      then (l, None)
      else (l, Some (validation_switch (Result_Code (V_Result validation))))
  end.

Definition validate_path (id : string) : string :=
  "licenses/" +:+ id +:+ "/actions/validate".

(** The request of [Validate]. *)
Definition Validate_request (l : License) (fingerprints : list string)
    : Prog (Call Params validation) (Outcome validation) :=
  Post Params validation is_querystring cfg codes package_client
    (validate_path (L_ID l)) (Some (validate_params fingerprints)) zero_validation.

Definition Validate (l : License) (fingerprints : list string)
    : Prog (Call Params validation) (License * option error) :=
  bind (Validate_request l fingerprints)
       (fun posted => Ret (Validate_posted l posted)).

Definition Verify (l : License)
    : Prog (VerifierCall License) (option string * option error) :=
  if String.eqb (L_Scheme l) ""
  then Ret (None, Some ErrLicenseNotSigned)
  else Bind (VerifyLicense (PublicKey package_client) l) Ret.

(** *** The other revision of the license source

    The nameless revision has no [LastValidation] field and builds its
    client from the package-level variables in place. *)

Record License_000 : Type := {
  L0_ID : string;
  L0_Type : string;
  L0_Name : string;
  L0_Key : string;
  L0_Expiry : option Time;
  L0_Scheme : string;
  L0_RequireHeartbeat : bool;
  L0_LastValidated : option Time;
  L0_Created : Time;
  L0_Updated : Time;
  L0_Metadata : Metadata;
  L0_PolicyId : string
}.

Record validation_000 : Type := {
  V0_License : License_000;
  V0_Result : ValidationResult
}.

Definition zero_License_000 : License_000 :=
  {| L0_ID := ""; L0_Type := ""; L0_Name := ""; L0_Key := ""; L0_Expiry := None;
     L0_Scheme := ""; L0_RequireHeartbeat := false; L0_LastValidated := None;
     L0_Created := Time_zero; L0_Updated := Time_zero; L0_Metadata := nil_Metadata;
     L0_PolicyId := "" |}.

Definition zero_validation_000 : validation_000 :=
  {| V0_License := zero_License_000; V0_Result := zero_ValidationResult |}.

Definition validation_switch_000 (code : string) : error :=
  if String.eqb code (ValidationCodeFingerprintScopeMismatch vcodes)
     || String.eqb code (ValidationCodeNoMachines vcodes)
     || String.eqb code (ValidationCodeNoMachine vcodes)
  then ErrLicenseNotActivated
  else if String.eqb code (ValidationCodeExpired vcodes)
  then ErrLicenseExpired
  else if String.eqb code (ValidationCodeSuspended vcodes)
  then ErrLicenseSuspended
  else if String.eqb code (ValidationCodeTooManyMachines vcodes)
  then ErrLicenseTooManyMachines
  else if String.eqb code (ValidationCodeTooManyCores vcodes)
  then ErrLicenseTooManyCores
  else if String.eqb code (ValidationCodeFingerprintScopeRequired vcodes)
          || String.eqb code (ValidationCodeFingerprintScopeEmpty vcodes)
  then ErrValidationFingerprintMissing
  else if String.eqb code (ValidationCodeHeartbeatNotStarted vcodes)
  then ErrHeartbeatRequired
  else if String.eqb code (ValidationCodeHeartbeatDead vcodes)
  then ErrHeartbeatDead
  else if String.eqb code (ValidationCodeProductScopeRequired vcodes)
          || String.eqb code (ValidationCodeProductScopeEmpty vcodes)
  then ErrValidationProductMissing
  else ErrLicenseInvalid.

Definition Validate_posted_000 (l : License_000) (posted : Outcome validation_000)
    : License_000 * option error :=
  match out_err posted with
  | Some err =>
      match err with
      | NotFoundError _ => (l, Some ErrLicenseInvalid)
      | _ => (l, Some err)
      end
  | None =>
      let validation := out_model posted in
      let l := V0_License validation in
      if String.eqb (Result_Code (V0_Result validation)) (ValidationCodeValid vcodes)
      then (l, None)
      else (l, Some (validation_switch_000 (Result_Code (V0_Result validation))))
  end.

Definition Validate_request_000 (l : License_000) (fingerprints : list string)
    : Prog (Call Params validation_000) (Outcome validation_000) :=
  Post Params validation_000 is_querystring cfg codes package_client
    (validate_path (L0_ID l)) (Some (validate_params fingerprints))
    zero_validation_000.

Definition Validate_000 (l : License_000) (fingerprints : list string)
    : Prog (Call Params validation_000) (License_000 * option error) :=
  bind (Validate_request_000 l fingerprints)
       (fun posted => Ret (Validate_posted_000 l posted)).

Definition Verify_000 (l : License_000)
    : Prog (VerifierCall License_000) (option string * option error) :=
  if String.eqb (L0_Scheme l) ""
  then Ret (None, Some ErrLicenseNotSigned)
  else Bind (VerifyLicense (PublicKey package_client) l) Ret.

(** *** Relating the two revisions

    A license of the license source seen through the fields the other
    revision has. *)
Definition shared_fields (l : License) : License_000 :=
  {| L0_ID := L_ID l; L0_Type := L_Type l; L0_Name := L_Name l; L0_Key := L_Key l;
     L0_Expiry := L_Expiry l; L0_Scheme := L_Scheme l;
     L0_RequireHeartbeat := L_RequireHeartbeat l;
     L0_LastValidated := L_LastValidated l; L0_Created := L_Created l;
     L0_Updated := L_Updated l; L0_Metadata := L_Metadata l;
     L0_PolicyId := L_PolicyId l |}.

(** The same outcome of the validation request, as the other revision
    receives it. *)
Definition shared_outcome (posted : Outcome validation) : Outcome validation_000 :=
  {| out_response := out_response posted;
     out_err := out_err posted;
     out_model := {| V0_License := shared_fields (V_License (out_model posted));
                     V0_Result := V_Result (out_model posted) |} |}.

End License.

Arguments L_ID {Metadata ValidationResult} l.
Arguments L_Type {Metadata ValidationResult} l.
Arguments L_Name {Metadata ValidationResult} l.
Arguments L_Key {Metadata ValidationResult} l.
Arguments L_Expiry {Metadata ValidationResult} l.
Arguments L_Scheme {Metadata ValidationResult} l.
Arguments L_RequireHeartbeat {Metadata ValidationResult} l.
Arguments L_LastValidated {Metadata ValidationResult} l.
Arguments L_Created {Metadata ValidationResult} l.
Arguments L_Updated {Metadata ValidationResult} l.
Arguments L_Metadata {Metadata ValidationResult} l.
Arguments L_PolicyId {Metadata ValidationResult} l.
Arguments L_LastValidation {Metadata ValidationResult} l.
Arguments L0_ID {Metadata} l.
Arguments L0_Type {Metadata} l.
Arguments L0_Name {Metadata} l.
Arguments L0_Key {Metadata} l.
Arguments L0_Expiry {Metadata} l.
Arguments L0_Scheme {Metadata} l.
Arguments L0_RequireHeartbeat {Metadata} l.
Arguments L0_LastValidated {Metadata} l.
Arguments L0_Created {Metadata} l.
Arguments L0_Updated {Metadata} l.
Arguments L0_Metadata {Metadata} l.
Arguments L0_PolicyId {Metadata} l.
Arguments V_License {Metadata ValidationResult} v.
Arguments V_Result {Metadata ValidationResult} v.
Arguments V0_License {Metadata ValidationResult} v.
Arguments V0_Result {Metadata ValidationResult} v.

(** ** The stages of classification, as the specification lists them

    A stage either ends the classification with an outcome or hands the
    response and the model on to the next stage; the stages run in the
    order of the list and the first outcome wins. *)

Section Stages.

Variables Params Model : Type.
Variable codes : ErrorCodes.

Local Abbreviation E := (Call Params Model).

Definition Stage : Type :=
  Response -> Model -> Prog E (Outcome Model + Response * Model).

Definition stop (response : Response) (err : option error) (model : Model)
    : Prog E (Outcome Model + Response * Model) :=
  Ret (inl {| out_response := Some response; out_err := err; out_model := model |}).

Definition continue (response : Response) (model : Model)
    : Prog E (Outcome Model + Response * Model) :=
  Ret (inr (response, model)).

(** Stage 1a: status 429. *)
Definition rate_limit_stage : Stage := fun response model =>
  if Status response =? 429
  then stop response (Some (rate_limit_error response)) model
  else continue response model.

(** Stage 1b: status 500 and above. *)
Definition server_fault_stage : Stage := fun response model =>
  if 500 <=? Status response
  then stop response (Some (server_error response)) model
  else continue response model.

(** Stage 2: the signature, when a public key is configured. *)
Definition authenticity_stage (c : Client) : Stage := fun response model =>
  if String.eqb (PublicKey c) "" then continue response model
  else
    Bind (VerifyResponse (PublicKey c) response) (fun verdict =>
      match verdict with
      | Some err => stop response (Some err) model
      | None => continue response model
      end).

(** Stage 3: nothing to decode. *)
Definition empty_body_stage : Stage := fun response model =>
  if (Status response =? 204) || (Size response =? 0)
  then stop response None model
  else continue response model.

(** Stage 4: decode the body into the model and the document. *)
Definition decode_stage : Stage := fun response model =>
  Bind (Unmarshal (Body response) model) (fun '(model, decoded) =>
    match decoded with
    | inr err => stop response (Some err) model
    | inl doc => continue (with_Document response doc) model
    end).

(** Stage 5: the first problem the document reports. *)
Definition problem_stage : Stage := fun response model =>
  match Document response with
  | Some doc =>
      match Errors doc with
      | first :: _ => stop response (Some (problem_error codes response first)) model
      | [] => continue response model
      end
  | None => continue response model
  end.

(** Stage 6 is the success that is left when no stage has stopped. *)
Fixpoint run_stages (stages : list Stage) (response : Response) (model : Model)
    : Prog E (Outcome Model) :=
  match stages with
  | [] => returns response None model
  | stage :: later =>
      bind (stage response model) (fun r =>
        match r with
        | inl outcome => Ret outcome
        | inr (response, model) => run_stages later response model
        end)
  end.

Definition Classify (c : Client) : Response -> Model -> Prog E (Outcome Model) :=
  run_stages [ rate_limit_stage; server_fault_stage; authenticity_stage c;
               empty_body_stage; decode_stage; problem_stage ].

End Stages.

(** ** Sample configuration and collaborators *)

Definition sample_config : Config :=
  {| APIURL := "https://api.keygen.sh"; APIPrefix := "v1"; APIVersion := "1.1";
     userAgent := "keygen/1.1 sdk/2.0.0 go/go1.19 linux/amd64";
     ContentType := "application/vnd.api+json" |}.

Definition sample_error_codes : ErrorCodes :=
  {| ErrorCodeMachineHeartbeatDead := "MACHINE_HEARTBEAT_DEAD";
     ErrorCodeProcessHeartbeatDead := "PROCESS_HEARTBEAT_DEAD";
     ErrorCodeFingerprintTaken := "FINGERPRINT_TAKEN";
     ErrorCodeMachineLimitExceeded := "MACHINE_LIMIT_EXCEEDED";
     ErrorCodeProcessLimitExceeded := "PROCESS_LIMIT_EXCEEDED";
     ErrorCodeTokenInvalid := "TOKEN_INVALID";
     ErrorCodeLicenseInvalid := "LICENSE_INVALID";
     ErrorCodeNotFound := "NOT_FOUND" |}.

Definition sample_validation_codes : ValidationCodes :=
  {| ValidationCodeValid := "VALID";
     ValidationCodeFingerprintScopeMismatch := "FINGERPRINT_SCOPE_MISMATCH";
     ValidationCodeNoMachines := "NO_MACHINES";
     ValidationCodeNoMachine := "NO_MACHINE";
     ValidationCodeExpired := "EXPIRED";
     ValidationCodeSuspended := "SUSPENDED";
     ValidationCodeTooManyMachines := "TOO_MANY_MACHINES";
     ValidationCodeTooManyCores := "TOO_MANY_CORES";
     ValidationCodeTooManyProcesses := "TOO_MANY_PROCESSES";
     ValidationCodeFingerprintScopeRequired := "FINGERPRINT_SCOPE_REQUIRED";
     ValidationCodeFingerprintScopeEmpty := "FINGERPRINT_SCOPE_EMPTY";
     ValidationCodeHeartbeatNotStarted := "HEARTBEAT_NOT_STARTED";
     ValidationCodeHeartbeatDead := "HEARTBEAT_DEAD";
     ValidationCodeProductScopeRequired := "PRODUCT_SCOPE_REQUIRED";
     ValidationCodeProductScopeEmpty := "PRODUCT_SCOPE_EMPTY" |}.

Definition sample_client : Client :=
  {| Account := "acme"; LicenseKey := "KEY-1"; Token := ""; PublicKey := "";
     UserAgent := "app/1.0" |}.

Definition sample_signed_client : Client :=
  {| Account := "acme"; LicenseKey := "KEY-1"; Token := "";
     PublicKey := "e8601e48b69383ba520245fd07971e983d06d22c4257cfd82304601479cee788";
     UserAgent := "app/1.0" |}.

Definition sample_request : http_Request :=
  {| Method := "POST"; URL := "https://api.keygen.sh/v1/accounts/acme/licenses";
     Request_Header := ∅; Request_Body := "" |}.

(** A response as [send] builds it from what the transport read. *)
Definition response_of (status : Z) (headers : Header) (body : string) : Response :=
  {| Request := sample_request; ID := Header_Get headers "x-request-id";
     Headers := headers; Document := None;
     Size := Z.of_nat (String.length body); Body := body; Status := status |}.

(** Collaborators that play a fixed script: the transport delivers
    [res], the verifier answers [verdict], the codec decodes to
    [decoded]. *)
Definition scripted {Params Model : Type} (res : http_Request -> http_Response)
    (verdict : option error) (decoded : Model * (jsonapi_Document + error))
    : Handler (Call Params Model) :=
  fun X call =>
    match call in Call _ _ X return X with
    | Marshal _ => inl "{}"%string
    | QueryValues _ => inl ""%string
    | NewRequest _ _ _ => None
    | ClientDo req => inl (res req)
    | VerifyResponse _ _ => verdict
    | Unmarshal _ _ => decoded
    end.

(** What the transport delivers for a status, headers and a body, in
    answer to the request [req]. *)
Definition delivered (status : Z) (headers : Header) (body : string)
    (req : http_Request) : http_Response :=
  {| StatusCode := status; Response_Header := headers;
     Response_Request := req; Response_Body := inl body |}.

(** [n] copies of the byte [c]. *)
Fixpoint repeat_byte (c : ascii) (n : nat) : string :=
  match n with
  | O => EmptyString
  | S k => String c (repeat_byte c k)
  end.

(** Headers of a throttled response. *)
Definition throttled_headers : Header :=
  Header_Add (Header_Add ∅ "Retry-After" "30") "X-RateLimit-Remaining" "0".

(** Reading of the rate-limit fields: a header value that parses as an
    integer populates the field, any other leaves it at zero. *)
Definition populated (value : string) (field : Z) : Prop :=
  match Atoi value with
  | Some i => field = i
  | None => field = 0
  end.

(** Headers of a throttled response with values that are no integers. *)
Definition garbled_headers : Header :=
  Header_Add (Header_Add (Header_Add ∅ "Retry-After" "soon")
                         "X-RateLimit-Limit" "1e3")
             "X-RateLimit-Reset" "99999999999999999999".

Definition throttled_response : Response := response_of 429 throttled_headers "".

Definition garbled_response : Response := response_of 429 garbled_headers "slow down".

(** A server fault with a body of 501 bytes, none of them a line feed. *)
Definition faulty_response : Response := response_of 503 ∅ (repeat_byte "a" 501).

(** A server fault with a body of 2000 line feeds. *)
Definition multiline_response : Response := response_of 502 ∅ (repeat_byte LF 2000).

Definition problem_body : string := "{errors:[{code:LICENSE_INVALID}]}".

Definition forbidden_response : Response := response_of 403 ∅ problem_body.

Definition reported_problem : ErrorObject :=
  {| EO_Title := "Access denied"; EO_Detail := "not allowed";
     EO_Code := "LICENSE_INVALID"; EO_Source_Pointer := "" |}.

(** Collaborators for a model that is a string: the body is signed and
    carries no problem. *)
Definition agreeable : Handler (Call unit string) :=
  scripted (delivered 200 ∅ "{}") None ("decoded"%string, inl {| Errors := [] |}).

(** The verifier objects. *)
Definition tampered : Handler (Call unit string) :=
  scripted (delivered 200 ∅ "{}") (Some (External "signature mismatch"))
           ("decoded"%string, inl {| Errors := [] |}).

(** The service answers 403 and reports a problem. *)
Definition forbidding : Handler (Call unit string) :=
  scripted (delivered 403 ∅ problem_body) None
           ("decoded"%string, inl {| Errors := [reported_problem] |}).

(** The codes that the switch of [Validate] names in the license source,
    and in the other revision. *)
Definition listed_codes (v : ValidationCodes) : list string :=
  [ ValidationCodeFingerprintScopeMismatch v; ValidationCodeNoMachines v;
    ValidationCodeNoMachine v; ValidationCodeExpired v; ValidationCodeSuspended v;
    ValidationCodeTooManyMachines v; ValidationCodeTooManyCores v;
    ValidationCodeTooManyProcesses v; ValidationCodeFingerprintScopeRequired v;
    ValidationCodeFingerprintScopeEmpty v; ValidationCodeHeartbeatNotStarted v;
    ValidationCodeHeartbeatDead v; ValidationCodeProductScopeRequired v;
    ValidationCodeProductScopeEmpty v ].

Definition listed_codes_000 (v : ValidationCodes) : list string :=
  [ ValidationCodeFingerprintScopeMismatch v; ValidationCodeNoMachines v;
    ValidationCodeNoMachine v; ValidationCodeExpired v; ValidationCodeSuspended v;
    ValidationCodeTooManyMachines v; ValidationCodeTooManyCores v;
    ValidationCodeFingerprintScopeRequired v;
    ValidationCodeFingerprintScopeEmpty v; ValidationCodeHeartbeatNotStarted v;
    ValidationCodeHeartbeatDead v; ValidationCodeProductScopeRequired v;
    ValidationCodeProductScopeEmpty v ].

(** The error kinds a validation result can be mapped to. *)
Definition validation_kinds : list error :=
  [ ErrLicenseNotActivated; ErrLicenseExpired; ErrLicenseSuspended;
    ErrLicenseTooManyMachines; ErrLicenseTooManyCores; ErrLicenseTooManyProcesses;
    ErrValidationFingerprintMissing; ErrHeartbeatRequired; ErrHeartbeatDead;
    ErrValidationProductMissing; ErrLicenseInvalid ].

(** *** A sample instance of the license functions

    Parameters are the list of fingerprints, there is no metadata, and a
    validation result is its code. *)

Definition sample_license : License unit string :=
  {| L_ID := "b18e3f3a"; L_Type := "licenses"; L_Name := "Demo"; L_Key := "KEY-1";
     L_Expiry := None; L_Scheme := ""; L_RequireHeartbeat := false;
     L_LastValidated := None; L_Created := Time_Unix 1600000000 0;
     L_Updated := Time_Unix 1600000000 0; L_Metadata := tt;
     L_PolicyId := "p-1"; L_LastValidation := None |}.

Definition sample_Validate
    : License unit string -> list string ->
      Prog (Call (list string) (validation unit string))
           (License unit string * option error) :=
  Validate (list string) unit string (fun code => code) tt ""
           (fun fingerprints => fingerprints) (fun _ => false)
           sample_config sample_error_codes sample_validation_codes sample_client.

Definition sample_Validate_000
    : License_000 unit -> list string ->
      Prog (Call (list string) (validation_000 unit string))
           (License_000 unit * option error) :=
  Validate_000 (list string) unit string (fun code => code) tt ""
               (fun fingerprints => fingerprints) (fun _ => false)
               sample_config sample_error_codes sample_validation_codes sample_client.

(** The service finds the license and reports [code] for it. *)
Definition validating (code : string)
    : Handler (Call (list string) (validation unit string)) :=
  scripted (delivered 200 ∅ "{meta:{},data:{}}") None
           ({| V_License := sample_license; V_Result := code |},
            inl {| Errors := [] |}).

Definition validating_000 (code : string)
    : Handler (Call (list string) (validation_000 unit string)) :=
  scripted (delivered 200 ∅ "{meta:{},data:{}}") None
           ({| V0_License := shared_fields unit string sample_license;
               V0_Result := code |},
            inl {| Errors := [] |}).

(** The outcome of a validation request that reports [code]. *)
Definition reported (code : string) : Outcome (validation unit string) :=
  {| out_response := Some (response_of 200 ∅ "{meta:{},data:{}}");
     out_err := None;
     out_model := {| V_License := sample_license; V_Result := code |} |}.

(** A verifier that would accept any license. *)
Definition accepting {Lic : Type} : Handler (VerifierCall Lic) :=
  fun X call =>
    match call in VerifierCall _ X return X with
    | VerifyLicense _ _ => (Some "dataset"%string, None)
    end.

(** ** Further notions for the properties of the client *)

(** Number of occurrences of the byte [c] in [s]. *)
Fixpoint count_byte (c : ascii) (s : string) : nat :=
  match s with
  | EmptyString => O
  | String a s' => (if Ascii.eqb a c then 1 else 0) + count_byte c s'
  end.

(** [strings.Replace(s, "\n", "\\n", -1)], the last step of [tldr]. *)
Definition escape_newlines (s : string) : string :=
  strings_Replace s newline escaped_newline (-1).

(** A body of 600 bytes whose every hundredth byte is a line feed. *)
Fixpoint lined_body (lines : nat) : string :=
  match lines with
  | O => EmptyString
  | S k => repeat_byte "x" 99 +:+ newline +:+ lined_body k
  end.

Definition lined_response : Response := response_of 500 ∅ (lined_body 6).

(** A short body on one line. *)
Definition brief_response : Response := response_of 502 ∅ "Bad Gateway".

(** The response passes the checks that precede the decoding: it is
    neither throttled nor a server fault, and the verifier, when a public
    key is configured, does not object. *)
Definition passes_checks {Params Model : Type} (h : Handler (Call Params Model))
    (c : Client) (response : Response) : Prop :=
  Status response <> 429 /\ Status response < 500
  /\ (PublicKey c = EmptyString
      \/ h _ (@VerifyResponse Params Model (PublicKey c) response) = None).

(** The [ErrorCode] constants, in the order of the record. *)
Definition all_error_codes (codes : ErrorCodes) : list string :=
  [ ErrorCodeMachineHeartbeatDead codes; ErrorCodeProcessHeartbeatDead codes;
    ErrorCodeFingerprintTaken codes; ErrorCodeMachineLimitExceeded codes;
    ErrorCodeProcessLimitExceeded codes; ErrorCodeTokenInvalid codes;
    ErrorCodeLicenseInvalid codes; ErrorCodeNotFound codes ].

(** The [Error] that [send] builds from a reported problem. *)
Definition Error_of (response : Response) (problem : ErrorObject) : Error :=
  {| Err_Response := response; Title := EO_Title problem;
     Detail := EO_Detail problem; Code := EO_Code problem;
     Source := EO_Source_Pointer problem |}.

(** Position of a call in the course of [send]. *)
Definition call_rank {Params Model : Type} (call : AnyCall (Call Params Model)) : nat :=
  match call with
  | called (Marshal _) => 0
  | called (QueryValues _) => 1
  | called (NewRequest _ _ _) => 2
  | called (ClientDo _) => 3
  | called (VerifyResponse _ _) => 4
  | called (Unmarshal _ _) => 5
  end.

Definition is_Marshal {Params Model : Type} (call : AnyCall (Call Params Model)) : bool :=
  match call with called (Marshal _) => true | _ => false end.

(** The arguments of a call to [http.NewRequest]. *)
Definition requested {Params Model : Type} (call : AnyCall (Call Params Model))
    : option (string * string * string) :=
  match call with
  | called (NewRequest method url body) => Some (method, url, body)
  | _ => None
  end.

(** The request handed to the transport. *)
Definition transported {Params Model : Type} (call : AnyCall (Call Params Model))
    : option http_Request :=
  match call with
  | called (ClientDo req) => Some req
  | _ => None
  end.

(** The URL of [send] before any query string. *)
Definition base_url (cfg : Config) (c : Client) (path : string) : string :=
  if String.eqb (APIURL cfg) "https://api.keygen.sh"
  then APIURL cfg +:+ "/" +:+ APIPrefix cfg +:+ "/accounts/" +:+ Account c +:+ "/" +:+ path
  else APIURL cfg +:+ "/" +:+ APIPrefix cfg +:+ "/" +:+ path.

(** ** Further notions for the properties of License *)

(** The codes of the switch of [Validate] with one error each, leaving
    out the three not-activated codes and the too-many-processes code. *)
Definition validation_table (v : ValidationCodes) : list (string * error) :=
  [ (ValidationCodeExpired v, ErrLicenseExpired);
    (ValidationCodeSuspended v, ErrLicenseSuspended);
    (ValidationCodeTooManyMachines v, ErrLicenseTooManyMachines);
    (ValidationCodeTooManyCores v, ErrLicenseTooManyCores);
    (ValidationCodeFingerprintScopeRequired v, ErrValidationFingerprintMissing);
    (ValidationCodeFingerprintScopeEmpty v, ErrValidationFingerprintMissing);
    (ValidationCodeHeartbeatNotStarted v, ErrHeartbeatRequired);
    (ValidationCodeHeartbeatDead v, ErrHeartbeatDead);
    (ValidationCodeProductScopeRequired v, ErrValidationProductMissing);
    (ValidationCodeProductScopeEmpty v, ErrValidationProductMissing) ].

(** What [Validate] makes of the error of its request. *)
Definition validation_failure (err : error) : error :=
  match err with
  | NotFoundError _ => ErrLicenseInvalid
  | _ => err
  end.

(** The license that the service describes in the samples: another key
    and policy than [sample_license]. *)
Definition served_license : License unit string :=
  {| L_ID := "b18e3f3a"; L_Type := "licenses"; L_Name := "Demo (renewed)";
     L_Key := "KEY-2"; L_Expiry := Some (Time_Unix 1700000000 0);
     L_Scheme := "ED25519_SIGN"; L_RequireHeartbeat := true;
     L_LastValidated := Some (Time_Unix 1650000000 0);
     L_Created := Time_Unix 1600000000 0; L_Updated := Time_Unix 1650000000 0;
     L_Metadata := tt; L_PolicyId := "p-2"; L_LastValidation := None |}.

(** The service finds the license, describes it as [served_license] and
    reports [code]. *)
Definition serving (code : string)
    : Handler (Call (list string) (validation unit string)) :=
  scripted (delivered 200 ∅ "{meta:{},data:{}}") None
           ({| V_License := served_license; V_Result := code |},
            inl {| Errors := [] |}).

Definition serving_000 (code : string)
    : Handler (Call (list string) (validation_000 unit string)) :=
  scripted (delivered 200 ∅ "{meta:{},data:{}}") None
           ({| V0_License := shared_fields unit string served_license;
               V0_Result := code |},
            inl {| Errors := [] |}).

Definition missing_problem : ErrorObject :=
  {| EO_Title := "Not found"; EO_Detail := "The requested license was not found";
     EO_Code := "NOT_FOUND"; EO_Source_Pointer := "" |}.

(** The service does not know the license: status 404 and a not-found
    problem. *)
Definition unknowing {Model : Type} (untouched : Model)
    : Handler (Call (list string) Model) :=
  scripted (delivered 404 ∅ "{errors:[{code:NOT_FOUND}]}") None
           (untouched, inl {| Errors := [missing_problem] |}).

(** ** The other methods of License

    [SetRelationships] and the methods that wrap one request each.  The
    types [Machine], [Machines], [Entitlements], [LicenseFile],
    [CheckoutOptions] and [querystring] are declared outside the files
    at hand; they are parameters here, together with the composite
    literals the methods build. *)

(** A value of the relationships map: a pointer to a
    [jsonapi.ResourceObjectIdentifier] with its [ID], a nil pointer of
    that type, or a value of another dynamic type. *)
Inductive relationship_value : Type :=
| identifier_ptr (id : string)
| nil_identifier_ptr
| other_value.

Section LicenseMethods.

Variables Metadata ValidationResult : Type.
Variables Machine Machines Entitlements LicenseFile CheckoutOptions querystring : Type.

(** [&Machine{Fingerprint: , Hostname: , Platform: , Cores: , LicenseID: }]. *)
Variable Machine_literal : string -> string -> string -> Z -> string -> Machine.

(** [querystring{Limit: }] and [querystring{Encrypt: , Include: }]. *)
Variable querystring_Limit : Z -> querystring.
Variable querystring_Encrypt_Include : bool -> string -> querystring.

(** [CheckoutOptions{Encrypt: , Include: }]. *)
Variable CheckoutOptions_literal : bool -> string -> CheckoutOptions.

(** [Machine{}], [Machines{}], [Entitlements{}] and [LicenseFile{}]. *)
Variable zero_Machine : Machine.
Variable empty_Machines : Machines.
Variable empty_Entitlements : Entitlements.
Variable zero_LicenseFile : LicenseFile.

(** The first result of [os.Hostname()] (its error is dropped),
    [runtime.GOOS], [runtime.GOARCH] and [runtime.NumCPU()]. *)
Variable os_Hostname : string.
Variables runtime_GOOS runtime_GOARCH : string.
Variable runtime_NumCPU : Z.

(** Whether a [CheckoutOptions] value passes the type assertion
    [params.(querystring)]: that depends on how the type is declared. *)
Variable CheckoutOptions_is_querystring : bool.

Variable cfg : Config.
Variable codes : ErrorCodes.

(** The client made from the package-level variables. *)
Variable package_client : Client.

Local Abbreviation License' := (License Metadata ValidationResult).
Local Abbreviation License_000' := (License_000 Metadata).

(** What the methods pass as [params], by dynamic type. *)
Inductive method_params : Type :=
| params_Machine (m : Machine)
| params_querystring (q : querystring)
| params_CheckoutOptions (o : CheckoutOptions).

(** The type assertion [params.(querystring)] on them: a pointer to a
    [Machine] is no [querystring]. *)
Definition method_is_querystring (p : method_params) : bool :=
  match p with
  | params_Machine _ => false
  | params_querystring _ => true
  | params_CheckoutOptions _ => CheckoutOptions_is_querystring
  end.

Definition with_PolicyId (l : License') (policy : string) : License' :=
  {| L_ID := L_ID l; L_Type := L_Type l; L_Name := L_Name l; L_Key := L_Key l;
     L_Expiry := L_Expiry l; L_Scheme := L_Scheme l;
     L_RequireHeartbeat := L_RequireHeartbeat l;
     L_LastValidated := L_LastValidated l; L_Created := L_Created l;
     L_Updated := L_Updated l; L_Metadata := L_Metadata l;
     L_PolicyId := policy; L_LastValidation := L_LastValidation l |}.

(** [SetRelationships]: the receiver as it is left and the error
    returned; [None] stands for a run-time panic (a failed type
    assertion or a nil pointer). *)
Definition SetRelationships (l : License')
    (relationships : gmap string relationship_value) : option (License' * option error) :=
  match relationships !! "policy"%string with
  | Some relationship =>
      match relationship with
      | identifier_ptr id => Some (with_PolicyId l id, None)
      | nil_identifier_ptr => None
      | other_value => None
      end
  | None => Some (l, None)
  end.

Definition with_PolicyId_000 (l : License_000') (policy : string) : License_000' :=
  {| L0_ID := L0_ID l; L0_Type := L0_Type l; L0_Name := L0_Name l; L0_Key := L0_Key l;
     L0_Expiry := L0_Expiry l; L0_Scheme := L0_Scheme l;
     L0_RequireHeartbeat := L0_RequireHeartbeat l;
     L0_LastValidated := L0_LastValidated l; L0_Created := L0_Created l;
     L0_Updated := L0_Updated l; L0_Metadata := L0_Metadata l;
     L0_PolicyId := policy |}.

Definition SetRelationships_000 (l : License_000')
    (relationships : gmap string relationship_value)
    : option (License_000' * option error) :=
  match relationships !! "policy"%string with
  | Some relationship =>
      match relationship with
      | identifier_ptr id => Some (with_PolicyId_000 l id, None)
      | nil_identifier_ptr => None
      | other_value => None
      end
  | None => Some (l, None)
  end.

(** The two results of a method that returns its decoded target, from
    the outcome of its request. *)
Definition target_or_error {Model : Type} (posted : Outcome Model)
    : option Model * option error :=
  match out_err posted with
  | Some err => (None, Some err)
  | None => (Some (out_model posted), None)
  end.

Definition Activate (l : License') (fingerprint : string)
    : Prog (Call method_params Machine) (option Machine * option error) :=
  let hostname := os_Hostname in
  let params :=
    Machine_literal fingerprint hostname (runtime_GOOS +:+ "/" +:+ runtime_GOARCH)
                    runtime_NumCPU (L_ID l) in
  bind (Post method_params Machine method_is_querystring cfg codes package_client
          "machines" (Some (params_Machine params)) zero_Machine)
       (fun posted => Ret (target_or_error posted)).

(** [Deactivate] passes nil for the parameters and for the model. *)
Definition Deactivate (l : License') (id : string)
    : Prog (Call method_params unit) (option error) :=
  bind (Delete method_params unit method_is_querystring cfg codes package_client
          ("machines/" +:+ id) None tt)
       (fun posted => Ret (out_err posted)).

(** The method [Machine]. *)
Definition License_Machine (l : License') (id : string)
    : Prog (Call method_params Machine) (option Machine * option error) :=
  bind (Get method_params Machine method_is_querystring cfg codes package_client
          ("machines/" +:+ id) None zero_Machine)
       (fun posted => Ret (target_or_error posted)).

(** The method [Machines]. *)
Definition License_Machines (l : License')
    : Prog (Call method_params Machines) (option Machines * option error) :=
  bind (Get method_params Machines method_is_querystring cfg codes package_client
          ("licenses/" +:+ L_ID l +:+ "/machines")
          (Some (params_querystring (querystring_Limit 100))) empty_Machines)
       (fun posted => Ret (target_or_error posted)).

(** The method [Entitlements]. *)
Definition License_Entitlements (l : License')
    : Prog (Call method_params Entitlements) (option Entitlements * option error) :=
  bind (Get method_params Entitlements method_is_querystring cfg codes package_client
          ("licenses/" +:+ L_ID l +:+ "/entitlements")
          (Some (params_querystring (querystring_Limit 100))) empty_Entitlements)
       (fun posted => Ret (target_or_error posted)).

(** A [CheckoutOption]: a function that may change the options it is
    given and may fail. *)
Definition CheckoutOption : Type := CheckoutOptions -> CheckoutOptions * option error.

(** The loop of [Checkout] over its options: the options as they are
    after the loop, or the error of the first option that fails. *)
Fixpoint apply_options (options : list CheckoutOption) (opts : CheckoutOptions)
    : CheckoutOptions + error :=
  match options with
  | [] => inl opts
  | opt :: later =>
      let '(opts, err) := opt opts in
      match err with
      | Some e => inr e
      | None => apply_options later opts
      end
  end.

Definition Checkout (l : License') (options : list CheckoutOption)
    : Prog (Call method_params LicenseFile) (option LicenseFile * option error) :=
  match apply_options options (CheckoutOptions_literal true "entitlements") with
  | inr err => Ret (None, Some err)
  | inl opts =>
      bind (Post method_params LicenseFile method_is_querystring cfg codes package_client
              ("licenses/" +:+ L_ID l +:+ "/actions/check-out")
              (Some (params_CheckoutOptions opts)) zero_LicenseFile)
           (fun posted => Ret (target_or_error posted))
  end.

(** [Checkout] of the other revision takes no options and passes a
    [querystring]. *)
Definition Checkout_000 (l : License_000')
    : Prog (Call method_params LicenseFile) (option LicenseFile * option error) :=
  bind (Post method_params LicenseFile method_is_querystring cfg codes package_client
          ("licenses/" +:+ L0_ID l +:+ "/actions/check-out")
          (Some (params_querystring (querystring_Encrypt_Include true "entitlements")))
          zero_LicenseFile)
       (fun posted => Ret (target_or_error posted)).

End LicenseMethods.

(** A service that answers every request alike: the request goes
    through, the response has the given status, headers and body, the
    verifier gives [verdict] and the decoder [decoded]. *)
Definition answering {Params Model : Type} (status : Z) (headers : Header)
    (body : string) (verdict : option error)
    (decoded : Model * (jsonapi_Document + error)) : Handler (Call Params Model) :=
  scripted (delivered status headers body) verdict decoded.

(** The request that [send] hands to the transport under [answering],
    where the body encodes to ["{}"] and the query to the empty string. *)
Definition request_sent {Params : Type} (cfg : Config) (c : Client)
    (method path : string) (params : option Params) : http_Request :=
  {| Method := method; URL := base_url cfg c path;
     Request_Header := request_headers cfg c;
     Request_Body := match params with
                     | Some _ => if sends_body method then "{}" else ""
                     | None => ""
                     end |}.

(** The response that [send] builds from the answer to that request. *)
Definition response_read {Params : Type} (cfg : Config) (c : Client)
    (method path : string) (params : option Params)
    (status : Z) (headers : Header) (body : string) : Response :=
  new_Response (delivered status headers body (request_sent cfg c method path params))
               (Header_Get headers "x-request-id") body.

(** ** Further sample inputs *)

(** A client with both a license key and a token. *)
Definition sample_both_client : Client :=
  {| Account := "acme"; LicenseKey := "KEY-1"; Token := "admin-token";
     PublicKey := ""; UserAgent := "app/1.0" |}.

(** A client with a token only. *)
Definition sample_token_client : Client :=
  {| Account := "acme"; LicenseKey := ""; Token := "admin-token";
     PublicKey := ""; UserAgent := "app/1.0" |}.

(** A configuration for a self-hosted API. *)
Definition custom_config : Config :=
  {| APIURL := "https://licensing.example.com"; APIPrefix := "v1";
     APIVersion := "1.1"; userAgent := "keygen/1.1 sdk/2.0.0 go/go1.19 linux/amd64";
     ContentType := "application/vnd.api+json" |}.

(** The decoder gives up on the body. *)
Definition garbling : Handler (Call unit string) :=
  scripted (delivered 200 ∅ "{") None
           ("partly decoded"%string, inr (External "unexpected end of JSON input")).

Definition taken_problem : ErrorObject :=
  {| EO_Title := "Unprocessable resource"; EO_Detail := "has already been taken";
     EO_Code := "FINGERPRINT_TAKEN"; EO_Source_Pointer := "/data/attributes/fingerprint" |}.

Definition odd_problem : ErrorObject :=
  {| EO_Title := "Payment required"; EO_Detail := "subscription has lapsed";
     EO_Code := "PAYMENT_REQUIRED"; EO_Source_Pointer := "" |}.

(** The service answers 422 and reports [problems]. *)
Definition rejecting (problems : list ErrorObject) : Handler (Call unit string) :=
  scripted (delivered 422 ∅ "{errors:[]}") None
           ("decoded"%string, inl {| Errors := problems |}).

Definition rejected_response : Response := response_of 422 ∅ "{errors:[]}".

(** The transport cannot reach the service. *)
Definition unreachable : Handler (Call unit string) :=
  fun X call =>
    match call in Call _ _ X return X with
    | Marshal _ => inl "{}"%string
    | QueryValues _ => inl ""%string
    | NewRequest _ _ _ => None
    | ClientDo _ => inr (External "dial tcp: connection refused")
    | VerifyResponse _ _ => None
    | Unmarshal _ m => (m, inl {| Errors := [] |})
    end.

(** The query of the parameters encodes to [limit=100]. *)
Definition querying : Handler (Call unit string) :=
  fun X call =>
    match call in Call _ _ X return X with
    | Marshal _ => inl "{}"%string
    | QueryValues _ => inl "limit=100"%string
    | NewRequest _ _ _ => None
    | ClientDo req => inl (delivered 200 ∅ "{}" req)
    | VerifyResponse _ _ => None
    | Unmarshal _ _ => ("decoded"%string, inl {| Errors := [] |})
    end.

(** The license source's methods for machines that are records of what
    [Activate] sends, options that are a pair and queries that are a
    triple. *)
Record sample_machine : Type := {
  SM_Fingerprint : string;
  SM_Hostname : string;
  SM_Platform : string;
  SM_Cores : Z;
  SM_LicenseID : string
}.

Definition sample_params : Type :=
  method_params sample_machine (bool * string) (Z * bool * string).

Definition sample_Machine_literal (fingerprint hostname platform : string)
    (cores : Z) (licenseID : string) : sample_machine :=
  {| SM_Fingerprint := fingerprint; SM_Hostname := hostname; SM_Platform := platform;
     SM_Cores := cores; SM_LicenseID := licenseID |}.

Definition blank_machine : sample_machine := sample_Machine_literal "" "" "" 0 "".

Definition activated_machine : sample_machine :=
  sample_Machine_literal "4d:Eq:UV:D3:XZ:tL" "build-7" "linux/amd64" 8 "b18e3f3a".

Definition sample_Activate
    : License unit string -> string ->
      Prog (Call sample_params sample_machine) (option sample_machine * option error) :=
  Activate unit string sample_machine (bool * string) (Z * bool * string)
           sample_Machine_literal blank_machine "build-7" "linux" "amd64" 8 false
           sample_config sample_error_codes sample_client.

Definition sample_Deactivate
    : License unit string -> string -> Prog (Call sample_params unit) (option error) :=
  Deactivate unit string sample_machine (bool * string) (Z * bool * string) false
             sample_config sample_error_codes sample_client.

Definition sample_License_Machine
    : License unit string -> string ->
      Prog (Call sample_params sample_machine) (option sample_machine * option error) :=
  License_Machine unit string sample_machine (bool * string) (Z * bool * string)
                  blank_machine false sample_config sample_error_codes sample_client.

Definition sample_License_Machines
    : License unit string ->
      Prog (Call sample_params (list sample_machine))
           (option (list sample_machine) * option error) :=
  License_Machines unit string sample_machine (list sample_machine) (bool * string)
                   (Z * bool * string) (fun limit => (limit, false, ""%string)) []
                   false sample_config sample_error_codes sample_client.

Definition sample_Checkout
    : License unit string -> list (CheckoutOption (bool * string)) ->
      Prog (Call sample_params string) (option string * option error) :=
  Checkout unit string sample_machine string (bool * string) (Z * bool * string)
           (fun encrypt include => (encrypt, include)) "" false
           sample_config sample_error_codes sample_client.

(** Options for [sample_Checkout]: one that turns encryption off, one
    that fails, one that includes the product. *)
Definition without_encryption : CheckoutOption (bool * string) :=
  fun opts => ((false, snd opts), None).

Definition refusing : CheckoutOption (bool * string) :=
  fun opts => (opts, Some (External "unsupported option")).

Definition with_product : CheckoutOption (bool * string) :=
  fun opts => ((fst opts, "product"%string), None).

(** The query of [Machines] encodes to [limit=100]. *)
Definition listing : Handler (Call sample_params (list sample_machine)) :=
  fun X call =>
    match call in Call _ _ X return X with
    | Marshal _ => inl "{}"%string
    | QueryValues _ => inl "limit=100"%string
    | NewRequest _ _ _ => None
    | ClientDo req => inl (delivered 200 ∅ "{data:[]}" req)
    | VerifyResponse _ _ => None
    | Unmarshal _ _ => ([activated_machine], inl {| Errors := [] |})
    end.

(** Relationships of a license as the decoder passes them. *)
Definition sample_relationships : gmap string relationship_value :=
  <["account" := identifier_ptr "acme"]>
    (<["policy" := identifier_ptr "p-9"]> ∅).

(** The problem reported for a machine that does not exist. *)
Definition missing_machine : ErrorObject :=
  {| EO_Title := "Not found"; EO_Detail := "The requested machine was not found";
     EO_Code := "NOT_FOUND"; EO_Source_Pointer := "" |}.

(** [Checkout] of the other revision for the sample types. *)
Definition sample_Checkout_000
    : License_000 unit -> Prog (Call sample_params string) (option string * option error) :=
  Checkout_000 unit sample_machine string (bool * string) (Z * bool * string)
               (fun encrypt include => (0, encrypt, include)) "" false
               sample_config sample_error_codes sample_client.

(** The query of the check-out encodes to its two settings. *)
Definition checking_out : Handler (Call sample_params string) :=
  fun X call =>
    match call in Call _ _ X return X with
    | Marshal _ => inl "{}"%string
    | QueryValues _ => inl "encrypt=true&include=entitlements"%string
    | NewRequest _ _ _ => None
    | ClientDo req => inl (delivered 200 ∅ "{data:{}}" req)
    | VerifyResponse _ _ => None
    | Unmarshal _ _ => ("file"%string, inl {| Errors := [] |})
    end.

(** * Properties *)

(** ** The library models on sample inputs *)

Example canonical_window :
  CanonicalMIMEHeaderKey "X-RateLimit-Window" = "X-Ratelimit-Window"%string.
Proof. reflexivity. Qed.

Example atoi_samples :
  Atoi "30" = Some 30 /\ Atoi "-7" = Some (-7) /\ Atoi "+0" = Some 0 /\
  Atoi "" = None /\ Atoi "-" = None /\ Atoi "3 0" = None /\ Atoi "1_000" = None /\
  Atoi "9223372036854775807" = Some 9223372036854775807 /\
  Atoi "9223372036854775808" = None /\
  Atoi "-9223372036854775808" = Some (-9223372036854775808).
Proof. repeat split; reflexivity. Qed.

Example replace_samples :
  strings_Replace "abcabc" "bc" "X" (-1) = "aXaX"%string /\
  strings_Replace "abcabc" "bc" "X" 1 = "aXabc"%string /\
  strings_Replace "aaa" "aa" "b" (-1) = "ba"%string /\
  strings_Replace "abc" "b" "" 0 = "abc"%string.
Proof. repeat split; reflexivity. Qed.


Example format_int_samples :
  format_int 0 = "0"%string /\ format_int 503 = "503"%string /\
  format_int (-12) = "-12"%string.
Proof. repeat split; reflexivity. Qed.

Example header_samples :
  Header_Get throttled_headers "retry-after" = "30"%string /\
  Header_Get throttled_headers "X-RateLimit-Remaining" = "0"%string /\
  Header_Get throttled_headers "X-RateLimit-Limit" = ""%string.
Proof. repeat split; vm_compute; reflexivity. Qed.

(** ** strconv.Atoi against the decimal printer *)

Lemma parse_digits_acc (d : Decimal.uint) (acc : positive) :
  parse_digits (Z.pos acc) (NilEmpty.string_of_uint d)
  = Some (Z.pos (Pos.of_uint_acc d acc)).
Proof.
  revert acc.
  induction d; intros acc;
    cbn [NilEmpty.string_of_uint parse_digits Pos.of_uint_acc];
    try reflexivity.
  all: match goal with
       | |- context [is_digit ?c] =>
           change (is_digit c) with true;
           let v := eval vm_compute in (digit_value c) in
           change (digit_value c) with v
       end.
  all: cbv iota; rewrite <- IHd; f_equal; lia.
Qed.

Lemma parse_digits_uint (d : Decimal.uint) :
  parse_digits 0 (NilEmpty.string_of_uint d) = Some (Z.of_N (Pos.of_uint d)).
Proof.
  induction d;
    cbn [NilEmpty.string_of_uint parse_digits Pos.of_uint];
    try reflexivity.
  all: match goal with
       | |- context [is_digit ?c] =>
           change (is_digit c) with true;
           let v := eval vm_compute in (10 * 0 + digit_value c) in
           change (10 * 0 + digit_value c) with v
       end.
  all: cbv iota; first [exact IHd | apply parse_digits_acc].
Qed.

Lemma string_of_uint_digit (d : Decimal.uint) :
  d <> Decimal.Nil ->
  exists c rest, NilEmpty.string_of_uint d = String c rest /\ is_digit c = true.
Proof. destruct d; intros H; try congruence; simpl; eexists _, _; split; reflexivity. Qed.

Lemma to_uint_not_Nil (p : positive) : Pos.to_uint p <> Decimal.Nil.
Proof.
  intros H. pose proof (DecimalPos.Unsigned.of_to p) as Hp. rewrite H in Hp.
  discriminate Hp.
Qed.

Lemma parse_magnitude_pos (p : positive) :
  exists c rest,
    NilZero.string_of_uint (Pos.to_uint p) = String c rest
    /\ is_digit c = true
    /\ parse_magnitude (String c rest) = Some (Z.pos p).
Proof.
  destruct (string_of_uint_digit _ (to_uint_not_Nil p)) as (c & rest & Hs & Hc).
  exists c, rest.
  assert (Hnz : NilZero.string_of_uint (Pos.to_uint p)
                = NilEmpty.string_of_uint (Pos.to_uint p)).
  { unfold NilZero.string_of_uint. destruct (Pos.to_uint p) eqn:E; try reflexivity.
    exfalso. exact (to_uint_not_Nil p E). }
  split; [rewrite Hnz; exact Hs|]. split; [exact Hc|].
  unfold parse_magnitude. rewrite <- Hs, parse_digits_uint.
  rewrite DecimalPos.Unsigned.of_to. reflexivity.
Qed.

Lemma digit_not_sign (c : ascii) :
  is_digit c = true -> Ascii.eqb c "+" = false /\ Ascii.eqb c "-" = false.
Proof.
  intros H. split; apply Ascii.eqb_neq; intros ->; discriminate H.
Qed.

(** [Atoi] reads back what [%d] prints, for every value of an [int]. *)
Lemma Atoi_format_int (z : Z) :
  - 2 ^ 63 <= z < 2 ^ 63 -> Atoi (format_int z) = Some z.
Proof.
  intros Hrange. unfold Atoi, format_int, intSize.
  destruct z as [|p|p].
  - reflexivity.
  - cbn [Z.to_int NilZero.string_of_int].
    destruct (parse_magnitude_pos p) as (c & rest & -> & Hc & Hmag).
    destruct (digit_not_sign c Hc) as [Hplus Hminus].
    unfold ParseInt. rewrite Hplus, Hminus. cbn [orb negb andb].
    rewrite Hmag.
    change (2 ^ (64 - 1)) with (2 ^ 63).
    destruct (2 ^ 63 <=? Z.pos p) eqn:E; [apply Z.leb_le in E; lia | reflexivity].
  - cbn [Z.to_int NilZero.string_of_int].
    destruct (parse_magnitude_pos p) as (c & rest & -> & Hc & Hmag).
    unfold ParseInt.
    change (Ascii.eqb "-" "-") with true. change (Ascii.eqb "-" "+") with false.
    cbn [orb negb andb]. rewrite Hmag.
    change (2 ^ (64 - 1)) with (2 ^ 63).
    destruct (2 ^ 63 <? Z.pos p) eqn:E; [apply Z.ltb_lt in E; lia | reflexivity].
Qed.

(** ** Running computations *)

Lemma run_bind {E : Type -> Type} {A B : Type} (h : Handler E)
    (p : Prog E A) (f : A -> Prog E B) :
  run h (bind p f) =
  (fst (run h p) ++ fst (run h (f (snd (run h p)))),
   snd (run h (f (snd (run h p))))).
Proof.
  induction p as [a | X c k IH]; simpl.
  - destruct (run h (f a)); reflexivity.
  - rewrite IH. destruct (run h (k (h X c))) as [t a]. simpl.
    reflexivity.
Qed.

Lemma result_bind {E : Type -> Type} {A B : Type} (h : Handler E)
    (p : Prog E A) (f : A -> Prog E B) :
  result h (bind p f) = result h (f (result h p)).
Proof. unfold result. rewrite run_bind. reflexivity. Qed.

Lemma trace_bind {E : Type -> Type} {A B : Type} (h : Handler E)
    (p : Prog E A) (f : A -> Prog E B) :
  trace h (bind p f) = trace h p ++ trace h (f (result h p)).
Proof. unfold trace, result. rewrite run_bind. reflexivity. Qed.

Lemma run_Bind {E : Type -> Type} {A X : Type} (h : Handler E)
    (c : E X) (k : X -> Prog E A) :
  run h (Bind c k) = (called c :: trace h (k (h X c)), result h (k (h X c))).
Proof.
  unfold trace, result. simpl. destruct (run h (k (h X c))); reflexivity.
Qed.

Lemma trace_Bind {E : Type -> Type} {A X : Type} (h : Handler E)
    (c : E X) (k : X -> Prog E A) :
  trace h (Bind c k) = called c :: trace h (k (h X c)).
Proof. unfold trace. rewrite run_Bind. reflexivity. Qed.

Lemma result_Bind {E : Type -> Type} {A X : Type} (h : Handler E)
    (c : E X) (k : X -> Prog E A) :
  result h (Bind c k) = result h (k (h X c)).
Proof. unfold result. rewrite run_Bind. reflexivity. Qed.

Lemma run_trace_result {E : Type -> Type} {A : Type} (h : Handler E) (p : Prog E A) :
  run h p = (trace h p, result h p).
Proof. unfold trace, result. destruct (run h p); reflexivity. Qed.

(** ** Client.send: from the request to the classification *)

Section SendFacts.

Variables Params Model : Type.
Variable is_querystring : Params -> bool.
Variable cfg : Config.
Variable codes : ErrorCodes.
Variable h : Handler (Call Params Model).

Local Abbreviation send' := (send Params Model is_querystring cfg codes).
Local Abbreviation send_classify' := (send_classify Params Model codes).
Local Abbreviation Classify' := (Classify Params Model codes).

(** [send] either fails before a response is read, with no response
    returned and the model untouched, or hands a response without a
    document to the classification; up to there neither the verifier
    nor the decoder is called. *)
Lemma run_send c method path params model :
  (exists t err,
      Forall before_response t /\
      run h (send' c method path params model) =
      (t, {| out_response := None; out_err := Some err; out_model := model |}))
  \/
  (exists t res out,
      Forall before_response t /\
      let response :=
        new_Response res (Header_Get (Response_Header res) "x-request-id") out in
      run h (send' c method path params model) =
      (t ++ trace h (send_classify' c response model),
       result h (send_classify' c response model))).
Proof.
  rewrite run_trace_result. unfold send, fails.
  repeat first
    [ rewrite trace_Bind | rewrite result_Bind
    | match goal with
      | |- context [match ?x with _ => _ end] =>
          lazymatch x with
          | context [send_classify] => fail
          | _ => destruct x eqn:?
          end
      end ].
  all: try (left; eexists; eexists; split; [|reflexivity]; repeat constructor).
  all: right.
  all: match goal with
       | |- context [send_classify _ _ _ _ (new_Response ?res _ ?out) _] =>
           eexists _, res, out
       end.
  all: split; revgoals.
  all: try (cbv zeta; f_equal;
            match goal with
            | |- ?rhs = ?t ++ ?X =>
                let rec go r :=
                  lazymatch r with
                  | X => constr:(@nil (AnyCall (Call Params Model)))
                  | ?a :: ?r' => let l := go r' in constr:(a :: l)
                  end in
                let l := go rhs in unify t l; reflexivity
            end).
  all: repeat constructor.
Qed.

(** The code of the classification and the staged pipeline of the
    specification make the same calls and reach the same outcome. *)
Lemma send_classify_Classify c response model :
  run h (send_classify' c response model) = run h (Classify' c response model).
Proof.
  unfold send_classify, Classify, run_stages, rate_limit_stage, server_fault_stage,
    authenticity_stage, empty_body_stage, decode_stage, problem_stage, send_decode,
    StatusTooManyRequests, StatusInternalServerError, StatusNoContent,
    stop, continue, returns.
  destruct (Status response =? 429); simpl; [reflexivity|].
  destruct (500 <=? Status response); simpl; [reflexivity|].
  destruct (String.eqb (PublicKey c) ""); simpl.
  - destruct ((Status response =? 204) || (Size response =? 0)); simpl; [reflexivity|].
    destruct (h _ (Unmarshal (Body response) model)) as [m' [doc|e]]; simpl;
      [|reflexivity].
    destruct (Errors doc); reflexivity.
  - destruct (h _ (VerifyResponse (PublicKey c) response)); simpl; [reflexivity|].
    destruct ((Status response =? 204) || (Size response =? 0)); simpl; [reflexivity|].
    destruct (h _ (Unmarshal (Body response) model)) as [m' [doc|e]]; simpl;
      [|reflexivity].
    destruct (Errors doc); reflexivity.
Qed.

(** The decoding part calls the decoder at most, never the verifier. *)
Lemma trace_send_decode response model :
  trace h (send_decode Params Model codes response model) =
  if (Status response =? 204) || (Size response =? 0) then []
  else [called (Unmarshal (Body response) model)].
Proof.
  unfold send_decode, StatusNoContent, returns.
  destruct ((Status response =? 204) || (Size response =? 0)); [reflexivity|].
  rewrite trace_Bind.
  destruct (h _ (Unmarshal (Body response) model)) as [m' [doc|e]]; [|reflexivity].
  destruct (Errors doc); reflexivity.
Qed.

(** The calls of the classification: the verifier first, when the
    transport tier lets the response through and a key is configured;
    then the decoder, when the verifier has not objected and there is a
    body to decode. *)
Lemma trace_send_classify c response model :
  trace h (send_classify' c response model) =
  (if negb (Status response =? 429) && negb (500 <=? Status response)
      && negb (String.eqb (PublicKey c) "")
   then [called (VerifyResponse (PublicKey c) response)] else [])
  ++
  (if negb (Status response =? 429) && negb (500 <=? Status response)
      && (String.eqb (PublicKey c) ""
          || bool_decide (h _ (@VerifyResponse Params Model (PublicKey c) response) = None))
      && negb ((Status response =? 204) || (Size response =? 0))
   then [called (Unmarshal (Body response) model)] else []).
Proof.
  unfold send_classify, StatusTooManyRequests, StatusInternalServerError, returns.
  destruct (Status response =? 429); [reflexivity|].
  destruct (500 <=? Status response); [reflexivity|].
  destruct (String.eqb (PublicKey c) ""); simpl.
  - rewrite trace_send_decode.
    destruct ((Status response =? 204) || (Size response =? 0)); reflexivity.
  - rewrite trace_Bind.
    destruct (h _ (VerifyResponse (PublicKey c) response)) as [e|]; simpl.
    + reflexivity.
    + rewrite trace_send_decode.
      destruct ((Status response =? 204) || (Size response =? 0)); reflexivity.
Qed.

End SendFacts.

(** ** Response.tldr *)

Lemma length_append (s t : string) :
  String.length (s +:+ t) = (String.length s + String.length t)%nat.
Proof. induction s as [|a s IH]; simpl; [reflexivity | rewrite IH; reflexivity]. Qed.

Lemma contains_byte_append (c : ascii) (s t : string) :
  contains_byte c (s +:+ t) = contains_byte c s || contains_byte c t.
Proof.
  induction s as [|a s IH]; simpl; [reflexivity|].
  destruct (Ascii.eqb a c); [reflexivity | exact IH].
Qed.

Lemma length_slice_to (n : nat) (s : string) :
  (String.length (slice_to n s) <= n)%nat.
Proof.
  unfold slice_to. revert s.
  induction n as [|n IH]; intros [|a s]; simpl; try lia.
  specialize (IH s). lia.
Qed.

Lemma prefix_newline (c : ascii) (s : string) :
  String.prefix newline (String c s) = Ascii.eqb c LF.
Proof.
  unfold newline.
  change (String.prefix (String LF "") (String c s))
    with (if ascii_dec LF c then String.prefix "" s else false).
  destruct (ascii_dec LF c) as [<-|Hne].
  - rewrite Ascii.eqb_refl. destruct s; reflexivity.
  - symmetry. apply Ascii.eqb_neq. congruence.
Qed.

Lemma replace_all_cons (old new : string) (c : ascii) (s : string) :
  replace_from old new None O (String c s) =
  if String.prefix old (String c s)
  then new +:+ replace_from old new None (Nat.pred (String.length old)) s
  else String c (replace_from old new None O s).
Proof. reflexivity. Qed.

(** One step of the replacement of line feeds. *)
Lemma escape_step (c : ascii) (s : string) :
  replace_from newline escaped_newline None O (String c s) =
  if Ascii.eqb c LF
  then escaped_newline +:+ replace_from newline escaped_newline None O s
  else String c (replace_from newline escaped_newline None O s).
Proof. rewrite replace_all_cons, prefix_newline. reflexivity. Qed.

Lemma escape_no_newline (s : string) :
  contains_byte LF (replace_from newline escaped_newline None O s) = false.
Proof.
  induction s as [|c s IH]; [reflexivity|].
  rewrite escape_step. destruct (Ascii.eqb c LF) eqn:E.
  - rewrite contains_byte_append, IH. reflexivity.
  - simpl. rewrite E. exact IH.
Qed.

Lemma escape_length (s : string) :
  (String.length (replace_from newline escaped_newline None O s)
   <= 2 * String.length s)%nat.
Proof.
  induction s as [|c s IH]; [simpl; lia|].
  rewrite escape_step. destruct (Ascii.eqb c LF).
  - rewrite length_append. simpl String.length. lia.
  - simpl String.length. lia.
Qed.

Lemma escape_id (s : string) :
  contains_byte LF s = false ->
  replace_from newline escaped_newline None O s = s.
Proof.
  induction s as [|c s IH]; [reflexivity|].
  intros H. rewrite escape_step. simpl in H.
  destruct (Ascii.eqb c LF); [discriminate|]. rewrite IH; auto.
Qed.

Lemma contains_byte_slice_to (c : ascii) (n : nat) (s : string) :
  contains_byte c s = false -> contains_byte c (slice_to n s) = false.
Proof.
  unfold slice_to. revert s.
  induction n as [|n IH]; intros [|a s]; simpl; try reflexivity.
  destruct (Ascii.eqb a c); [discriminate | apply IH].
Qed.

Lemma tldr_no_newline (r : Response) : contains_byte LF (tldr r) = false.
Proof. unfold tldr, strings_Replace. simpl. apply escape_no_newline. Qed.

Lemma escape_newlines_eq (s : string) :
  escape_newlines s = replace_from newline escaped_newline None O s.
Proof. reflexivity. Qed.

Lemma escape_append (a b : string) :
  escape_newlines (a +:+ b) = escape_newlines a +:+ escape_newlines b.
Proof.
  rewrite !escape_newlines_eq.
  induction a as [|c a IH]; [reflexivity|].
  change (String c a +:+ b) with (String c (a +:+ b)).
  rewrite !escape_step, IH. destruct (Ascii.eqb c LF); reflexivity.
Qed.

Lemma escape_exact_length (s : string) :
  String.length (escape_newlines s) = (String.length s + count_byte LF s)%nat.
Proof.
  rewrite escape_newlines_eq.
  induction s as [|c s IH]; [reflexivity|].
  rewrite escape_step. cbn [count_byte String.length].
  destruct (Ascii.eqb c LF).
  - rewrite length_append, IH. simpl String.length. lia.
  - cbn [String.length]. rewrite IH. lia.
Qed.

Lemma append_empty (s : string) : s +:+ "" = s.
Proof.
  induction s as [|a s IH]; [reflexivity|].
  change (String a s +:+ "") with (String a (s +:+ "")). rewrite IH. reflexivity.
Qed.

Lemma slice_to_all (n : nat) (s : string) :
  (String.length s <= n)%nat -> slice_to n s = s.
Proof.
  unfold slice_to. revert s.
  induction n as [|n IH]; intros [|a s] Hlen; simpl in *; try reflexivity; try lia.
  rewrite IH by lia. reflexivity.
Qed.

Lemma slice_to_exact_length (n : nat) (s : string) :
  String.length (slice_to n s) = Nat.min n (String.length s).
Proof.
  unfold slice_to. revert s.
  induction n as [|n IH]; intros [|a s]; simpl; try reflexivity.
  rewrite IH. reflexivity.
Qed.


Lemma count_byte_length (c : ascii) (s : string) :
  (count_byte c s <= String.length s)%nat.
Proof.
  induction s as [|a s IH]; [simpl; lia|].
  cbn [count_byte String.length]. destruct (Ascii.eqb a c); lia.
Qed.

(** The replacement of the source writes every line feed as a backslash
    and the letter n and keeps every other byte. *)
Lemma escape_single_line (s : string) : escape_newlines s = single_line s.
Proof.
  rewrite escape_newlines_eq.
  induction s as [|c s IH]; [reflexivity|].
  rewrite escape_step, IH. cbn [single_line].
  destruct (Ascii.eqb c LF); reflexivity.
Qed.

Lemma single_line_id (s : string) :
  contains_byte LF s = false -> single_line s = s.
Proof.
  induction s as [|c s IH]; [reflexivity|].
  cbn [single_line contains_byte]. destruct (Ascii.eqb c LF); [discriminate|].
  intros H. rewrite IH by exact H. reflexivity.
Qed.

(** [tldr] computes the preview of the body. *)
Lemma tldr_preview (r : Response) : tldr r = preview (Body r).
Proof.
  unfold tldr, preview.
  fold (escape_newlines
          (if (500 <? String.length (Body r))%nat
           then slice_to 500 (Body r) +:+ "..." else Body r)).
  rewrite <- escape_single_line.
  destruct (500 <? String.length (Body r))%nat eqn:E.
  - rewrite escape_append. reflexivity.
  - apply Nat.ltb_ge in E. rewrite slice_to_all by exact E.
    rewrite append_empty. reflexivity.
Qed.

Lemma preview_length (body : string) :
  String.length (preview body)
  = (Nat.min 500 (String.length body) + count_byte LF (slice_to 500 body)
     + (if (500 <? String.length body)%nat then 3 else 0))%nat.
Proof.
  unfold preview.
  rewrite <- escape_single_line, length_append, escape_exact_length,
    slice_to_exact_length.
  destruct (500 <? String.length body)%nat; simpl String.length; lia.
Qed.

Lemma tldr_length (r : Response) : (String.length (tldr r) <= 1003)%nat.
Proof.
  rewrite tldr_preview, preview_length.
  pose proof (count_byte_length LF (slice_to 500 (Body r))) as Hcount.
  pose proof (length_slice_to 500 (Body r)) as Hkept.
  destruct (500 <? String.length (Body r))%nat; lia.
Qed.

(** A body without a line feed is previewed as it stands, cut after 500
    bytes and marked with three dots when it is longer. *)
Lemma tldr_length_plain (r : Response) :
  contains_byte LF (Body r) = false -> (String.length (tldr r) <= 503)%nat.
Proof.
  intros Hplain. unfold tldr, strings_Replace. simpl (_ <? _).
  destruct (500 <? String.length (Body r))%nat eqn:E.
  - rewrite escape_id.
    + rewrite length_append. pose proof (length_slice_to 500 (Body r)).
      simpl String.length. lia.
    + rewrite contains_byte_append, contains_byte_slice_to by exact Hplain.
      reflexivity.
  - rewrite escape_id by exact Hplain. apply Nat.ltb_ge in E. lia.
Qed.

(** ** Properties of Client.send *)

Section SendProperties.

Variables Params Model : Type.
Variable is_querystring : Params -> bool.
Variable cfg : Config.
Variable codes : ErrorCodes.
Variable h : Handler (Call Params Model).

Local Abbreviation send' := (send Params Model is_querystring cfg codes).
Local Abbreviation send_classify' := (send_classify Params Model codes).
Local Abbreviation Classify' := (Classify Params Model codes).

(** C1.  The classification of a completed response runs the stages of
    the specification in their order, the first stage that stops
    deciding the outcome: it makes the calls and reaches the outcome of
    the staged pipeline [Classify]; the verifier is called before the
    decoder, each at most once; and for a status 429, or a status of
    500 and above, the outcome is the error of that stage and neither
    the verifier nor the decoder is called. *)
Theorem send_classify_staged c response model :
  run h (send_classify' c response model) = run h (Classify' c response model)
  /\ trace h (send_classify' c response model) =
     (if negb (Status response =? 429) && negb (500 <=? Status response)
         && negb (String.eqb (PublicKey c) "")
      then [called (VerifyResponse (PublicKey c) response)] else [])
     ++
     (if negb (Status response =? 429) && negb (500 <=? Status response)
         && (String.eqb (PublicKey c) ""
             || bool_decide
                  (h _ (@VerifyResponse Params Model (PublicKey c) response) = None))
         && negb ((Status response =? 204) || (Size response =? 0))
      then [called (Unmarshal (Body response) model)] else [])
  /\ (Status response = 429 ->
      run h (send_classify' c response model) =
      ([], {| out_response := Some response;
              out_err := Some (rate_limit_error response);
              out_model := model |}))
  /\ (500 <= Status response ->
      run h (send_classify' c response model) =
      ([], {| out_response := Some response;
              out_err := Some (server_error response);
              out_model := model |})).
Proof.
  split; [apply send_classify_Classify|].
  split; [apply trace_send_classify|].
  unfold send_classify, StatusTooManyRequests, StatusInternalServerError, returns.
  split.
  - intros ->. reflexivity.
  - intros Hfault.
    destruct (Status response =? 429) eqn:E429; [lia|].
    destruct (500 <=? Status response) eqn:E500; [reflexivity|lia].
Qed.

(** C2.  When [send] has called the response verifier and the verifier
    has answered an error, [send] returns that error with the response
    that was verified; that response has no document, the model is the
    one the caller passed in, and the decoder is not called. *)
Theorem send_unverified_not_decoded c method path params model
    call publicKey response err :
  In call (trace h (send' c method path params model)) ->
  verified call = Some (publicKey, response) ->
  h _ (VerifyResponse publicKey response) = Some err ->
  out_err (result h (send' c method path params model)) = Some err
  /\ out_response (result h (send' c method path params model)) = Some response
  /\ Document response = None
  /\ out_model (result h (send' c method path params model)) = model
  /\ Forall (fun call => is_Unmarshal call = false)
            (trace h (send' c method path params model)).
Proof.
  unfold trace, result.
  destruct (run_send Params Model is_querystring cfg codes h c method path params model)
    as [(t & e & Ht & ->) | (t & res & out & Ht & ->)]; cbn [fst snd].
  - intros Hin Hv _.
    destruct (proj1 (List.Forall_forall _ _) Ht _ Hin) as [Hnone _]. congruence.
  - set (fresh := new_Response res (Header_Get (Response_Header res) "x-request-id") out).
    intros Hin Hv Herr.
    assert (Hquiet : Forall (fun call : AnyCall (Call Params Model) =>
                               is_Unmarshal call = false) t).
    { eapply Forall_impl; [exact Ht|]. intros a [_ Ha]. exact Ha. }
    apply in_app_or in Hin. destruct Hin as [Hin | Hin].
    { destruct (proj1 (List.Forall_forall _ _) Ht _ Hin) as [Hnone _]. congruence. }
    revert Hin. rewrite Forall_app.
    unfold send_classify, StatusTooManyRequests, StatusInternalServerError, returns.
    destruct (Status fresh =? 429); [intros []|].
    destruct (500 <=? Status fresh); [intros []|].
    destruct (String.eqb (PublicKey c) ""); simpl negb; cbv iota.
    + rewrite trace_send_decode.
      destruct ((Status fresh =? 204) || (Size fresh =? 0)); [intros []|].
      intros [<- | []]. discriminate Hv.
    + rewrite trace_Bind, result_Bind.
      destruct (h _ (VerifyResponse (PublicKey c) fresh)) as [e|] eqn:Hverdict.
      * intros [<- | []]. simpl in Hv. injection Hv as <- <-.
        rewrite Hverdict in Herr. injection Herr as <-.
        repeat split; auto.
      * rewrite trace_send_decode.
        intros [<- | Hin].
        { simpl in Hv. injection Hv as <- <-. congruence. }
        destruct ((Status fresh =? 204) || (Size fresh =? 0)); [destruct Hin|].
        destruct Hin as [<- | []]. discriminate Hv.
Qed.

(** C3.  A response with status 429 is answered with a
    [RateLimitError], whatever its headers: the window is the header as
    it stands, each of the four counters is the integer its header
    parses to and zero when the header does not parse, the reset time
    is built from the integer of its header and is the zero time when
    that does not parse; a header that is missing reads as the empty
    string, which does not parse, and a header that holds the decimal
    form of an [int] parses to it.  No collaborator is called. *)
Theorem send_rate_limited c response model :
  Status response = 429 ->
  exists info,
    run h (send_classify' c response model) =
    ([], {| out_response := Some response;
            out_err := Some (RateLimitError info);
            out_model := model |})
    /\ Window info = Header_Get (Headers response) "X-RateLimit-Window"
    /\ populated (Header_Get (Headers response) "Retry-After") (RetryAfter info)
    /\ populated (Header_Get (Headers response) "X-RateLimit-Count") (Count info)
    /\ populated (Header_Get (Headers response) "X-RateLimit-Limit") (Limit info)
    /\ populated (Header_Get (Headers response) "X-RateLimit-Remaining")
                 (Remaining info)
    /\ match ParseInt (Header_Get (Headers response) "X-RateLimit-Reset") 64 with
       | Some i => Reset info = Time_Unix i 0
       | None => Reset info = Time_zero
       end
    /\ (forall key, Headers response !! CanonicalMIMEHeaderKey key = None ->
          Header_Get (Headers response) key = EmptyString)
    /\ Atoi EmptyString = None /\ ParseInt EmptyString 64 = None
    /\ (forall key z, - 2 ^ 63 <= z < 2 ^ 63 ->
          Header_Get (Headers response) key = format_int z ->
          Atoi (Header_Get (Headers response) key) = Some z).
Proof.
  intros H429.
  unfold send_classify, StatusTooManyRequests, returns. rewrite H429.
  change (429 =? 429) with true. cbv iota.
  unfold rate_limit_error, populated, assigned_or_zero.
  eexists. split; [reflexivity|]. cbn [Window RetryAfter Count Limit Remaining Reset].
  repeat split.
  - destruct (Atoi _); reflexivity.
  - destruct (Atoi _); reflexivity.
  - destruct (Atoi _); reflexivity.
  - destruct (Atoi _); reflexivity.
  - destruct (ParseInt _ 64); reflexivity.
  - intros key Hmiss. unfold Header_Get. rewrite Hmiss. reflexivity.
  - intros key z Hrange ->. apply Atoi_format_int. exact Hrange.
Qed.

(** C4, as the code has it.  A response with a status of 500 and above
    is answered, without a call to any collaborator, with an error whose
    message ends with the preview of the body.  The preview is the first
    500 bytes of the body with every line feed written as a backslash
    and the letter n, followed by three dots exactly when the body is
    longer than 500 bytes.  It holds no line feed; its length is the
    number of bytes kept, plus one for each line feed among them, plus
    three when the body was cut: at most 1003 bytes, and for a body
    without a line feed the bytes kept as they are and at most 503
    bytes. *)
Theorem send_server_fault c response model :
  500 <= Status response ->
  let body := Body response in
  let kept := slice_to 500 body in
  let cut := (500 <? String.length body)%nat in
  run h (send_classify' c response model) =
  ([], {| out_response := Some response;
          out_err := Some (ErrorString (server_error_prefix response
                                        +:+ preview body));
          out_model := model |})
  /\ tldr response = preview body
  /\ preview body = single_line kept +:+ (if cut then "..." else "")
  /\ contains_byte LF (preview body) = false
  /\ String.length (preview body)
     = (Nat.min 500 (String.length body) + count_byte LF kept
        + (if cut then 3 else 0))%nat
  /\ (String.length (preview body) <= 1003)%nat
  /\ (contains_byte LF body = false ->
      preview body = kept +:+ (if cut then "..." else "")
      /\ (String.length (preview body) <= 503)%nat).
Proof.
  intros Hfault body kept cut.
  pose proof (tldr_preview response) as Hpreview. fold body in Hpreview.
  split.
  { unfold send_classify, StatusTooManyRequests, StatusInternalServerError, returns.
    destruct (Status response =? 429) eqn:E429; [lia|].
    destruct (500 <=? Status response) eqn:E500; [|lia].
    unfold server_error. rewrite Hpreview. reflexivity. }
  split; [exact Hpreview|].
  split; [reflexivity|].
  split; [rewrite <- Hpreview; apply tldr_no_newline|].
  split; [apply preview_length|].
  split; [rewrite <- Hpreview; apply tldr_length|].
  intros Hplain. split.
  - unfold preview. fold kept cut.
    rewrite single_line_id; [reflexivity|].
    apply contains_byte_slice_to. exact Hplain.
  - rewrite <- Hpreview. apply tldr_length_plain. exact Hplain.
Qed.

(** C8.  A response with status 403 that reaches the inspection of the
    reported problems (no verifier configured or no objection from it,
    a body that decodes, at least one problem in the document) is
    answered with a [NotAuthorizedError] built from the first problem,
    whatever the code of that problem and whatever the code table. *)
Theorem send_forbidden c response model model' doc first rest :
  Status response = 403 ->
  PublicKey c = EmptyString
    \/ h _ (VerifyResponse (PublicKey c) response) = None ->
  Size response <> 0 ->
  h _ (Unmarshal (Body response) model) = (model', inl doc) ->
  Errors doc = first :: rest ->
  result h (send_classify' c response model) =
  {| out_response := Some (with_Document response doc);
     out_err := Some (NotAuthorizedError
                        {| Err_Response := with_Document response doc;
                           Title := EO_Title first; Detail := EO_Detail first;
                           Code := EO_Code first;
                           Source := EO_Source_Pointer first |});
     out_model := model' |}.
Proof.
  intros H403 Hpass Hsize Hdecode Herrors.
  assert (Hdec : result h (send_decode Params Model codes response model) =
                 {| out_response := Some (with_Document response doc);
                    out_err := Some (NotAuthorizedError
                        {| Err_Response := with_Document response doc;
                           Title := EO_Title first; Detail := EO_Detail first;
                           Code := EO_Code first;
                           Source := EO_Source_Pointer first |});
                    out_model := model' |}).
  { unfold send_decode, StatusNoContent. rewrite H403.
    change (403 =? 204) with false.
    destruct (Size response =? 0) eqn:E0; [lia|]. cbn [orb].
    rewrite result_Bind, Hdecode, Herrors.
    unfold returns, problem_error, result. cbn [run snd with_Document Status].
    rewrite H403. reflexivity. }
  unfold send_classify, StatusTooManyRequests, StatusInternalServerError.
  rewrite H403. change (403 =? 429) with false. change (500 <=? 403) with false.
  cbv iota.
  destruct (String.eqb (PublicKey c) "") eqn:Ekey; simpl negb; cbv iota.
  - exact Hdec.
  - rewrite result_Bind. destruct Hpass as [Hnokey | Hok].
    + rewrite Hnokey in Ekey. discriminate Ekey.
    + rewrite Hok. exact Hdec.
Qed.

End SendProperties.

(** ** Properties of License *)

Section LicenseProperties.

Variables Params Metadata ValidationResult : Type.
Variable Result_Code : ValidationResult -> string.
Variable nil_Metadata : Metadata.
Variable zero_ValidationResult : ValidationResult.
Variable validate_params : list string -> Params.
Variable is_querystring : Params -> bool.
Variable cfg : Config.
Variable codes : ErrorCodes.
Variable vcodes : ValidationCodes.
Variable package_client : Client.

Local Abbreviation License' := (License Metadata ValidationResult).
Local Abbreviation License_000' := (License_000 Metadata).
Local Abbreviation validation' := (validation Metadata ValidationResult).
Local Abbreviation validation_000' := (validation_000 Metadata ValidationResult).
Local Abbreviation Validate' :=
  (Validate Params Metadata ValidationResult Result_Code nil_Metadata
     zero_ValidationResult validate_params is_querystring cfg codes vcodes package_client).
Local Abbreviation Validate_request' :=
  (Validate_request Params Metadata ValidationResult nil_Metadata
     zero_ValidationResult validate_params is_querystring cfg codes package_client).
Local Abbreviation Validate_000' :=
  (Validate_000 Params Metadata ValidationResult Result_Code nil_Metadata
     zero_ValidationResult validate_params is_querystring cfg codes vcodes package_client).
Local Abbreviation Validate_request_000' :=
  (Validate_request_000 Params Metadata ValidationResult nil_Metadata
     zero_ValidationResult validate_params is_querystring cfg codes package_client).
Local Abbreviation Validate_posted' :=
  (Validate_posted Metadata ValidationResult Result_Code vcodes).
Local Abbreviation Validate_posted_000' :=
  (Validate_posted_000 Metadata ValidationResult Result_Code vcodes).

Lemma result_Validate (h : Handler (Call Params validation')) l fingerprints :
  result h (Validate' l fingerprints) =
  Validate_posted' l (result h (Validate_request' l fingerprints)).
Proof. unfold Validate. rewrite result_bind. reflexivity. Qed.

Lemma result_Validate_000 (h : Handler (Call Params validation_000')) l fingerprints :
  result h (Validate_000' l fingerprints) =
  Validate_posted_000' l (result h (Validate_request_000' l fingerprints)).
Proof. unfold Validate_000. rewrite result_bind. reflexivity. Qed.

Ltac decide_code :=
  repeat match goal with
         | |- context [String.eqb ?a ?b] =>
             first [ rewrite (String.eqb_refl a)
                   | rewrite (proj2 (String.eqb_neq a b)) by (simpl in *; intuition congruence) ]
         end.

Lemma validation_switch_kinds code :
  In (validation_switch vcodes code) validation_kinds.
Proof.
  unfold validation_switch, validation_kinds.
  repeat match goal with
         | |- context [if ?b then _ else _] => destruct b
         end; simpl; tauto.
Qed.

Lemma validation_switch_000_kinds code :
  In (validation_switch_000 vcodes code) validation_kinds.
Proof.
  unfold validation_switch_000, validation_kinds.
  repeat match goal with
         | |- context [if ?b then _ else _] => destruct b
         end; simpl; tauto.
Qed.

Lemma validation_switch_unlisted code :
  ~ In code (listed_codes vcodes) -> validation_switch vcodes code = ErrLicenseInvalid.
Proof.
  unfold listed_codes, validation_switch. intros Hnot.
  decide_code. reflexivity.
Qed.

Lemma validation_switch_000_unlisted code :
  ~ In code (listed_codes_000 vcodes) ->
  validation_switch_000 vcodes code = ErrLicenseInvalid.
Proof.
  unfold listed_codes_000, validation_switch_000. intros Hnot.
  decide_code. reflexivity.
Qed.


(** C5.  The mapping of validation result codes in [Validate] is total,
    in both revisions: when the request has succeeded, [Validate] returns
    no error exactly for the valid code, and for any other code one error
    of the fixed list of kinds, which is [ErrLicenseInvalid] for every
    code that the switch does not name. *)
Theorem Validate_table_total :
  (forall (h : Handler (Call Params validation')) l fingerprints,
      out_err (result h (Validate_request' l fingerprints)) = None ->
      let code :=
        Result_Code (V_Result (out_model (result h (Validate_request' l fingerprints)))) in
      match snd (result h (Validate' l fingerprints)) with
      | None => code = ValidationCodeValid vcodes
      | Some e =>
          code <> ValidationCodeValid vcodes
          /\ In e validation_kinds
          /\ (~ In code (listed_codes vcodes) -> e = ErrLicenseInvalid)
      end)
  /\
  (forall (h : Handler (Call Params validation_000')) l fingerprints,
      out_err (result h (Validate_request_000' l fingerprints)) = None ->
      let code :=
        Result_Code
          (V0_Result (out_model (result h (Validate_request_000' l fingerprints)))) in
      match snd (result h (Validate_000' l fingerprints)) with
      | None => code = ValidationCodeValid vcodes
      | Some e =>
          code <> ValidationCodeValid vcodes
          /\ In e validation_kinds
          /\ (~ In code (listed_codes_000 vcodes) -> e = ErrLicenseInvalid)
      end).
Proof.
  split; intros h l fingerprints Hposted code; subst code.
  - rewrite result_Validate. unfold Validate_posted. rewrite Hposted. cbv zeta.
    destruct (String.eqb _ (ValidationCodeValid vcodes)) eqn:Evalid; cbn [snd].
    + apply String.eqb_eq. exact Evalid.
    + split; [apply String.eqb_neq; exact Evalid|].
      split; [apply validation_switch_kinds | apply validation_switch_unlisted].
  - rewrite result_Validate_000. unfold Validate_posted_000. rewrite Hposted. cbv zeta.
    destruct (String.eqb _ (ValidationCodeValid vcodes)) eqn:Evalid; cbn [snd].
    + apply String.eqb_eq. exact Evalid.
    + split; [apply String.eqb_neq; exact Evalid|].
      split; [apply validation_switch_000_kinds | apply validation_switch_000_unlisted].
Qed.

(** What pairwise distinct constants give: the tests of a switch that
    compare two different constants fail. *)
Ltac use_distinct H :=
  unfold all_codes in H;
  repeat match type of H with
         | List.NoDup (_ :: _) =>
             let Hhead := fresh "Hhead" in
             let Htail := fresh "Htail" in
             pose proof (proj1 (List.NoDup_cons_iff _ _) H) as [Hhead Htail];
             clear H; rename Htail into H; simpl in Hhead;
             repeat match type of Hhead with
                    | ~ (_ \/ _) =>
                        let Hne := fresh "Hne" in
                        apply Decidable.not_or in Hhead as [Hne Hhead]
                    end
         end.

Ltac decide_distinct :=
  repeat match goal with
         | |- context [String.eqb ?a ?b] =>
             first [ rewrite (String.eqb_refl a)
                   | rewrite (proj2 (String.eqb_neq a b))
                       by first [assumption | apply not_eq_sym; assumption] ]
         end.

(** With pairwise distinct code constants, a validation whose request has
    succeeded and whose result code is [ValidationCodeTooManyProcesses]
    makes [Validate] of the license source return
    [ErrLicenseTooManyProcesses]. *)
Lemma Validate_too_many_processes (h : Handler (Call Params validation')) l fingerprints :
  List.NoDup (all_codes vcodes) ->
  out_err (result h (Validate_request' l fingerprints)) = None ->
  Result_Code (V_Result (out_model (result h (Validate_request' l fingerprints)))) =
    ValidationCodeTooManyProcesses vcodes ->
  snd (result h (Validate' l fingerprints)) = Some ErrLicenseTooManyProcesses.
Proof.
  intros Hdistinct Hposted Hcode.
  rewrite result_Validate. unfold Validate_posted.
  rewrite Hposted. cbv zeta. rewrite Hcode.
  use_distinct Hdistinct.
  unfold validation_switch.
  decide_distinct. reflexivity.
Qed.


(** The other revision has no case for that code: the same validation
    makes its [Validate] return the fallback [ErrLicenseInvalid]. *)
Lemma Validate_000_too_many_processes (h : Handler (Call Params validation_000'))
    l fingerprints :
  List.NoDup (all_codes vcodes) ->
  out_err (result h (Validate_request_000' l fingerprints)) = None ->
  Result_Code (V0_Result (out_model (result h (Validate_request_000' l fingerprints)))) =
    ValidationCodeTooManyProcesses vcodes ->
  snd (result h (Validate_000' l fingerprints)) = Some ErrLicenseInvalid.
Proof.
  intros Hdistinct Hposted Hcode.
  rewrite result_Validate_000. unfold Validate_posted_000.
  rewrite Hposted. cbv zeta. rewrite Hcode.
  use_distinct Hdistinct.
  unfold validation_switch_000.
  decide_distinct. reflexivity.
Qed.

(** C7.  With pairwise distinct code constants, a validation whose
    request has succeeded and whose result code is one of
    [ValidationCodeNoMachines], [ValidationCodeNoMachine] and
    [ValidationCodeFingerprintScopeMismatch] makes [Validate] return
    [ErrLicenseNotActivated], in both revisions. *)
Theorem Validate_not_activated (code : string) :
  List.NoDup (all_codes vcodes) ->
  code = ValidationCodeNoMachines vcodes
    \/ code = ValidationCodeNoMachine vcodes
    \/ code = ValidationCodeFingerprintScopeMismatch vcodes ->
  (forall (h : Handler (Call Params validation')) l fingerprints,
      out_err (result h (Validate_request' l fingerprints)) = None ->
      Result_Code (V_Result (out_model (result h (Validate_request' l fingerprints))))
        = code ->
      snd (result h (Validate' l fingerprints)) = Some ErrLicenseNotActivated)
  /\
  (forall (h : Handler (Call Params validation_000')) l fingerprints,
      out_err (result h (Validate_request_000' l fingerprints)) = None ->
      Result_Code
        (V0_Result (out_model (result h (Validate_request_000' l fingerprints))))
        = code ->
      snd (result h (Validate_000' l fingerprints)) = Some ErrLicenseNotActivated).
Proof.
  intros Hdistinct Hcode.
  use_distinct Hdistinct.
  split; intros h l fingerprints Hposted Hresult.
  - rewrite result_Validate. unfold Validate_posted.
    rewrite Hposted. cbv zeta. rewrite Hresult. unfold validation_switch.
    destruct Hcode as [-> | [-> | ->]]; decide_distinct; reflexivity.
  - rewrite result_Validate_000. unfold Validate_posted_000.
    rewrite Hposted. cbv zeta. rewrite Hresult. unfold validation_switch_000.
    destruct Hcode as [-> | [-> | ->]]; decide_distinct; reflexivity.
Qed.

(** C9, as the code has it.  On the same outcome of the validation
    request the two revisions leave the receiver with the same contents
    in every field that both have, the license source recording the
    result in [LastValidation] in addition when the request has
    succeeded; and they return the same error whenever the request has
    failed or the result code is not [ValidationCodeTooManyProcesses]. *)
Theorem Validate_revisions_agree (l : License') (posted : Outcome validation') :
  fst (Validate_posted_000' (shared_fields Metadata ValidationResult l)
         (shared_outcome Metadata ValidationResult posted))
    = shared_fields Metadata ValidationResult (fst (Validate_posted' l posted))
  /\ (out_err posted = None ->
      L_LastValidation (fst (Validate_posted' l posted))
        = Some (V_Result (out_model posted)))
  /\ (out_err posted <> None
        \/ Result_Code (V_Result (out_model posted))
             <> ValidationCodeTooManyProcesses vcodes ->
      snd (Validate_posted_000' (shared_fields Metadata ValidationResult l)
             (shared_outcome Metadata ValidationResult posted))
        = snd (Validate_posted' l posted)).
Proof.
  unfold Validate_posted, Validate_posted_000, shared_outcome.
  cbn [out_err out_model V0_License V0_Result].
  destruct (out_err posted) as [err|].
  - split; [destruct err; reflexivity|].
    split; [discriminate|]. intros _. destruct err; reflexivity.
  - cbv zeta.
    destruct (String.eqb _ (ValidationCodeValid vcodes)); cbn [fst snd].
    + repeat split.
    + split; [reflexivity|]. split; [reflexivity|].
      intros [Hfailed | Hcode]; [congruence|].
      unfold validation_switch, validation_switch_000.
      rewrite (proj2 (String.eqb_neq _ _) Hcode). reflexivity.
Qed.

(** C10.  [Verify] on a license whose scheme is the empty string returns
    a nil dataset and [ErrLicenseNotSigned] without a call to the
    verifier, whatever the configured public key, in both revisions. *)
Theorem Verify_unsigned :
  (forall (h : Handler (VerifierCall License')) (l : License'),
      L_Scheme l = EmptyString ->
      run h (Verify Metadata ValidationResult package_client l)
        = ([], (None, Some ErrLicenseNotSigned)))
  /\
  (forall (h : Handler (VerifierCall License_000')) (l : License_000'),
      L0_Scheme l = EmptyString ->
      run h (Verify_000 Metadata package_client l)
        = ([], (None, Some ErrLicenseNotSigned))).
Proof.
  split; intros h l Hscheme.
  - unfold Verify. rewrite Hscheme. reflexivity.
  - unfold Verify_000. rewrite Hscheme. reflexivity.
Qed.

End LicenseProperties.

(** ** The properties at sample inputs *)

(** A throttled response under a client with a public key: the outcome
    is that of the first stage and nothing is called. *)
Lemma send_classify_staged_witness :
  Status throttled_response = 429
  /\ run tampered (send_classify unit string sample_error_codes sample_signed_client
                     throttled_response "initial")
     = ([], {| out_response := Some throttled_response;
               out_err := Some (rate_limit_error throttled_response);
               out_model := "initial"%string |}).
Proof.
  assert (H429 : Status throttled_response = 429) by reflexivity.
  split; [exact H429|].
  exact (proj1 (proj2 (proj2
           (send_classify_staged unit string sample_error_codes tampered
              sample_signed_client throttled_response "initial"%string))) H429).
Defined.

(** A request whose response the verifier rejects. *)
Lemma send_unverified_not_decoded_witness :
  let sent := send unit string (fun _ => false) sample_config sample_error_codes
                   sample_signed_client "GET" "licenses" None "initial"%string in
  exists call publicKey response,
    In call (trace tampered sent)
    /\ verified call = Some (publicKey, response)
    /\ tampered _ (VerifyResponse publicKey response)
       = Some (External "signature mismatch")
    /\ out_err (result tampered sent) = Some (External "signature mismatch")
    /\ out_response (result tampered sent) = Some response
    /\ Document response = None
    /\ out_model (result tampered sent) = "initial"%string
    /\ Forall (fun call => is_Unmarshal call = false) (trace tampered sent).
Proof.
  intros sent.
  assert (Hcall : { call : AnyCall (Call unit string) &
                    { key : string & { response : Response |
                      In call (trace tampered sent)
                      /\ verified call = Some (key, response) } } }).
  { vm_compute. eexists. eexists. eexists. split.
    - right. right. left. reflexivity.
    - reflexivity. }
  destruct Hcall as (call & key & response & Hin & Hverified).
  exists call, key, response.
  assert (Herr : tampered _ (VerifyResponse key response)
                 = Some (External "signature mismatch")) by reflexivity.
  split; [exact Hin|]. split; [exact Hverified|]. split; [exact Herr|].
  exact (send_unverified_not_decoded unit string (fun _ => false) sample_config
           sample_error_codes tampered sample_signed_client "GET" "licenses" None
           "initial"%string call key response (External "signature mismatch")
           Hin Hverified Herr).
Defined.

(** The throttling scenario: [Retry-After: 30] and
    [X-RateLimit-Remaining: 0]. *)
Lemma send_rate_limited_witness :
  Status throttled_response = 429
  /\ exists info,
       out_err (result agreeable
                  (send_classify unit string sample_error_codes sample_client
                     throttled_response "initial"))
       = Some (RateLimitError info)
       /\ RetryAfter info = 30 /\ Remaining info = 0
       /\ Count info = 0 /\ Limit info = 0 /\ Reset info = Time_zero
       /\ Window info = EmptyString.
Proof.
  assert (H429 : Status throttled_response = 429) by reflexivity.
  split; [exact H429|].
  destruct (send_rate_limited unit string sample_error_codes agreeable sample_client
              throttled_response "initial"%string H429)
    as (info & Hrun & Hwindow & Hretry & Hcount & Hlimit & Hremaining & Hreset & _).
  exists info.
  split; [unfold result; rewrite Hrun; reflexivity|].
  split; [exact Hretry|]. split; [exact Hremaining|].
  split; [exact Hcount|]. split; [exact Hlimit|].
  split; [exact Hreset | exact Hwindow].
Defined.

(** Headers that are no integers leave their fields at zero. *)
Example send_rate_limited_garbled :
  exists info,
    out_err (result agreeable
               (send_classify unit string sample_error_codes sample_client
                  garbled_response "initial"))
    = Some (RateLimitError info)
    /\ RetryAfter info = 0 /\ Limit info = 0 /\ Reset info = Time_zero.
Proof. eexists. split; [reflexivity|]. repeat split; vm_compute; reflexivity. Qed.

(** A server fault with a body of 501 bytes. *)
Lemma send_server_fault_witness :
  500 <= Status faulty_response
  /\ contains_byte LF (Body faulty_response) = false
  /\ run agreeable (send_classify unit string sample_error_codes sample_client
                      faulty_response "initial")
     = ([], {| out_response := Some faulty_response;
               out_err := Some (ErrorString (server_error_prefix faulty_response
                                             +:+ preview (Body faulty_response)));
               out_model := "initial"%string |})
  /\ tldr faulty_response = preview (Body faulty_response)
  /\ preview (Body faulty_response) = repeat_byte "a" 500 +:+ "..."
  /\ (String.length (preview (Body faulty_response)) <= 503)%nat.
Proof.
  assert (Hfault : 500 <= Status faulty_response) by (vm_compute; discriminate).
  assert (Hplain : contains_byte LF (Body faulty_response) = false)
    by (vm_compute; reflexivity).
  split; [exact Hfault|]. split; [exact Hplain|].
  destruct (send_server_fault unit string sample_error_codes agreeable sample_client
              faulty_response "initial"%string Hfault)
    as (Hrun & Htldr & _ & _ & _ & _ & Hshort).
  destruct (Hshort Hplain) as [Hkept Hlength].
  split; [exact Hrun|]. split; [exact Htldr|].
  split; [rewrite Hkept; vm_compute; reflexivity | exact Hlength].
Defined.

(** The preview of a server fault can be longer than 500 bytes: 503 for
    a body of 501 bytes without a line feed, 1003 for a body of 2000 line
    feeds. *)
Lemma server_fault_preview_exceeds_500 :
  500 <= Status faulty_response
  /\ out_err (result agreeable
                (send_classify unit string sample_error_codes sample_client
                   faulty_response "initial"))
     = Some (ErrorString (server_error_prefix faulty_response +:+ tldr faulty_response))
  /\ String.length (tldr faulty_response) = 503%nat
  /\ ~ (String.length (tldr faulty_response) <= 500)%nat
  /\ 500 <= Status multiline_response
  /\ String.length (Body multiline_response) = 2000%nat
  /\ String.length (tldr multiline_response) = 1003%nat.
Proof.
  assert (Hlen : String.length (tldr faulty_response) = 503%nat)
    by (vm_compute; reflexivity).
  split; [vm_compute; discriminate|].
  split; [reflexivity|].
  split; [exact Hlen|].
  split; [rewrite Hlen; lia|].
  split; [vm_compute; discriminate|].
  split; vm_compute; reflexivity.
Qed.

(** A 403 with a reported problem whose code is in the code table. *)
Lemma send_forbidden_witness :
  Status forbidden_response = 403
  /\ Size forbidden_response <> 0
  /\ EO_Code reported_problem = ErrorCodeLicenseInvalid sample_error_codes
  /\ out_err (result forbidding
                (send_classify unit string sample_error_codes sample_client
                   forbidden_response "initial"))
     = Some (NotAuthorizedError
               {| Err_Response :=
                    with_Document forbidden_response {| Errors := [reported_problem] |};
                  Title := "Access denied"; Detail := "not allowed";
                  Code := "LICENSE_INVALID"; Source := "" |}).
Proof.
  assert (H403 : Status forbidden_response = 403) by reflexivity.
  assert (Hsize : Size forbidden_response <> 0) by (vm_compute; discriminate).
  split; [exact H403|]. split; [exact Hsize|]. split; [reflexivity|].
  rewrite (send_forbidden unit string sample_error_codes forbidding sample_client
             forbidden_response "initial"%string "decoded"%string
             {| Errors := [reported_problem] |} reported_problem []
             H403 (or_introl eq_refl) Hsize eq_refl eq_refl).
  reflexivity.
Defined.

(** The sample code constants are pairwise distinct. *)
Lemma sample_codes_distinct : List.NoDup (all_codes sample_validation_codes).
Proof.
  unfold all_codes, sample_validation_codes; cbn.
  repeat (apply List.NoDup_cons; [cbn; intuition discriminate|]).
  apply List.NoDup_nil.
Defined.

(** A code that the switch does not name. *)
Lemma Validate_table_total_witness :
  out_err (result (validating "BANNED") (Validate_request (list string) unit string
             tt "" (fun f => f) (fun _ => false) sample_config sample_error_codes
             sample_client sample_license ["fp"])) = None
  /\ ~ In "BANNED"%string (listed_codes sample_validation_codes)
  /\ snd (result (validating "BANNED") (sample_Validate sample_license ["fp"]))
     = Some ErrLicenseInvalid.
Proof.
  assert (Hposted :
    out_err (result (validating "BANNED") (Validate_request (list string) unit string
               tt "" (fun f => f) (fun _ => false) sample_config sample_error_codes
               sample_client sample_license ["fp"])) = None)
    by (vm_compute; reflexivity).
  assert (Hunlisted : ~ In "BANNED"%string (listed_codes sample_validation_codes))
    by (cbn; intuition discriminate).
  split; [exact Hposted|]. split; [exact Hunlisted|].
  pose proof (proj1 (Validate_table_total (list string) unit string (fun code => code)
                       tt ""%string (fun f => f) (fun _ => false) sample_config
                       sample_error_codes sample_validation_codes sample_client)
                (validating "BANNED") sample_license ["fp"%string] Hposted) as Htotal.
  cbv zeta in Htotal. unfold sample_Validate.
  destruct (snd (result (validating "BANNED") _)) as [e|].
  - destruct Htotal as (_ & _ & Hfallback). f_equal. apply Hfallback.
    exact Hunlisted.
  - exfalso. revert Htotal. vm_compute. discriminate.
Defined.

(** The service reports too many processes, to the license source. *)
Example Validate_too_many_processes_sample :
  List.NoDup (all_codes sample_validation_codes)
  /\ snd (result (validating "TOO_MANY_PROCESSES")
            (sample_Validate sample_license ["fp"]))
     = Some ErrLicenseTooManyProcesses.
Proof.
  split; [exact sample_codes_distinct|].
  apply (Validate_too_many_processes (list string) unit string (fun code => code)
           tt ""%string (fun f => f) (fun _ => false) sample_config
           sample_error_codes sample_validation_codes sample_client
           (validating "TOO_MANY_PROCESSES") sample_license ["fp"%string]
           sample_codes_distinct).
  - vm_compute; reflexivity.
  - vm_compute; reflexivity.
Qed.

(** C6, where the code departs from it.  The service answers the
    validation request of the other revision with the result code
    [TOO_MANY_PROCESSES]: the request succeeds, and [Validate] of that
    revision returns the fallback [ErrLicenseInvalid], where [Validate] of
    the license source returns [ErrLicenseTooManyProcesses] for the same
    answer. *)
Theorem Validate_000_misses_too_many_processes :
  let l := shared_fields unit string sample_license in
  let posted :=
    result (validating_000 "TOO_MANY_PROCESSES")
           (Validate_request_000 (list string) unit string tt "" (fun f => f)
              (fun _ => false) sample_config sample_error_codes sample_client
              l ["fp"]) in
  out_err posted = None
  /\ V0_Result (out_model posted)
     = ValidationCodeTooManyProcesses sample_validation_codes
  /\ snd (result (validating_000 "TOO_MANY_PROCESSES") (sample_Validate_000 l ["fp"]))
     = Some ErrLicenseInvalid
  /\ snd (result (validating "TOO_MANY_PROCESSES")
            (sample_Validate sample_license ["fp"]))
     = Some ErrLicenseTooManyProcesses.
Proof. repeat split; vm_compute; reflexivity. Qed.

(** The service reports that no machine matches. *)
Lemma Validate_not_activated_witness :
  List.NoDup (all_codes sample_validation_codes)
  /\ snd (result (validating "NO_MACHINE") (sample_Validate sample_license ["fp"]))
     = Some ErrLicenseNotActivated
  /\ snd (result (validating_000 "NO_MACHINE")
            (sample_Validate_000 (shared_fields unit string sample_license) ["fp"]))
     = Some ErrLicenseNotActivated.
Proof.
  split; [exact sample_codes_distinct|].
  destruct (Validate_not_activated (list string) unit string (fun code => code)
              tt ""%string (fun f => f) (fun _ => false) sample_config
              sample_error_codes sample_validation_codes sample_client
              "NO_MACHINE"%string sample_codes_distinct
              (or_intror (or_introl eq_refl)))
    as [Hsource Hother].
  split.
  - apply Hsource; vm_compute; reflexivity.
  - apply Hother; vm_compute; reflexivity.
Defined.

(** On the same outcome of the validation request, with the result code
    [TOO_MANY_PROCESSES], the two revisions return different errors; and
    the license source leaves the result in [LastValidation], a field the
    other revision does not have. *)
Lemma Validate_revisions_differ :
  snd (Validate_posted unit string (fun code => code) sample_validation_codes
         sample_license (reported "TOO_MANY_PROCESSES"))
    = Some ErrLicenseTooManyProcesses
  /\ snd (Validate_posted_000 unit string (fun code => code) sample_validation_codes
            (shared_fields unit string sample_license)
            (shared_outcome unit string (reported "TOO_MANY_PROCESSES")))
    = Some ErrLicenseInvalid
  /\ snd (Validate_posted_000 unit string (fun code => code) sample_validation_codes
            (shared_fields unit string sample_license)
            (shared_outcome unit string (reported "TOO_MANY_PROCESSES")))
    <> snd (Validate_posted unit string (fun code => code) sample_validation_codes
              sample_license (reported "TOO_MANY_PROCESSES"))
  /\ L_LastValidation
       (fst (Validate_posted unit string (fun code => code) sample_validation_codes
               sample_license (reported "TOO_MANY_PROCESSES")))
    = Some "TOO_MANY_PROCESSES"%string.
Proof.
  split; [vm_compute; reflexivity|].
  split; [vm_compute; reflexivity|].
  split; [vm_compute; discriminate|].
  vm_compute; reflexivity.
Qed.

(** The two revisions on an expired license. *)
Lemma Validate_revisions_agree_witness :
  (out_err (reported "EXPIRED") <> None
   \/ V_Result (out_model (reported "EXPIRED"))
        <> ValidationCodeTooManyProcesses sample_validation_codes)
  /\ snd (Validate_posted_000 unit string (fun code => code) sample_validation_codes
            (shared_fields unit string sample_license)
            (shared_outcome unit string (reported "EXPIRED")))
     = snd (Validate_posted unit string (fun code => code) sample_validation_codes
              sample_license (reported "EXPIRED"))
  /\ L_LastValidation
       (fst (Validate_posted unit string (fun code => code) sample_validation_codes
               sample_license (reported "EXPIRED")))
     = Some "EXPIRED"%string.
Proof.
  assert (Hcode : out_err (reported "EXPIRED") <> None
                  \/ V_Result (out_model (reported "EXPIRED"))
                       <> ValidationCodeTooManyProcesses sample_validation_codes)
    by (right; cbn; discriminate).
  destruct (Validate_revisions_agree unit string (fun code => code)
              sample_validation_codes sample_license (reported "EXPIRED"))
    as (_ & Hlast & Herr).
  split; [exact Hcode|].
  split; [exact (Herr Hcode) | exact (Hlast eq_refl)].
Defined.

(** An unsigned license, with and without a public key configured. *)
Lemma Verify_unsigned_witness :
  L_Scheme sample_license = EmptyString
  /\ run accepting (Verify unit string sample_signed_client sample_license)
     = ([], (None, Some ErrLicenseNotSigned))
  /\ run accepting (Verify unit string sample_client sample_license)
     = ([], (None, Some ErrLicenseNotSigned))
  /\ run accepting (Verify_000 unit sample_signed_client
                      (shared_fields unit string sample_license))
     = ([], (None, Some ErrLicenseNotSigned)).
Proof.
  assert (Hscheme : L_Scheme sample_license = EmptyString) by reflexivity.
  split; [exact Hscheme|].
  split; [exact (proj1 (Verify_unsigned unit string sample_signed_client)
                   accepting sample_license Hscheme)|].
  split; [exact (proj1 (Verify_unsigned unit string sample_client)
                   accepting sample_license Hscheme)|].
  exact (proj2 (Verify_unsigned unit string sample_signed_client)
           accepting (shared_fields unit string sample_license) Hscheme).
Defined.

(** * Further properties *)

(** ** Response.tldr *)

(** X1.  [tldr] leaves a body of at most 500 bytes that holds no line
    feed as it is. *)
Theorem tldr_short_plain (r : Response) :
  (String.length (Body r) <= 500)%nat ->
  contains_byte LF (Body r) = false ->
  tldr r = Body r.
Proof.
  intros Hshort Hplain. unfold tldr, strings_Replace. simpl (_ <? _).
  destruct (500 <? String.length (Body r))%nat eqn:E.
  - apply Nat.ltb_lt in E. lia.
  - apply escape_id. exact Hplain.
Qed.

(** X2.  The preview is the first 500 bytes of the body with their line
    feeds escaped, followed by three dots exactly when the body is longer
    than 500 bytes; so its length is the number of bytes kept, plus one
    for each line feed among them, plus three when the body was cut. *)
Theorem tldr_shape (r : Response) :
  let kept := slice_to 500 (Body r) in
  let cut := (500 <? String.length (Body r))%nat in
  tldr r = escape_newlines kept +:+ (if cut then "..." else "")
  /\ String.length (tldr r)
     = (Nat.min 500 (String.length (Body r)) + count_byte LF kept
        + (if cut then 3 else 0))%nat.
Proof.
  intros kept cut.
  assert (Hshape : tldr r = escape_newlines kept +:+ (if cut then "..." else "")).
  { unfold tldr, kept, cut. fold (escape_newlines
      (if (500 <? String.length (Body r))%nat
       then slice_to 500 (Body r) +:+ "..." else Body r)).
    destruct (500 <? String.length (Body r))%nat eqn:E.
    - rewrite escape_append. reflexivity.
    - apply Nat.ltb_ge in E. rewrite slice_to_all by exact E.
      rewrite append_empty. reflexivity. }
  split; [exact Hshape|].
  rewrite Hshape, length_append, escape_exact_length.
  unfold kept. rewrite slice_to_exact_length.
  destruct cut; simpl String.length; lia.
Qed.

(** ** Client.send: the stages after the checks *)

Section ClassifyFurther.

Variables Params Model : Type.
Variable codes : ErrorCodes.
Variable h : Handler (Call Params Model).

Local Abbreviation send_classify' := (send_classify Params Model codes).

Lemma send_classify_passes c response model :
  passes_checks h c response ->
  run h (send_classify' c response model) =
  ((if String.eqb (PublicKey c) "" then []
    else [called (VerifyResponse (PublicKey c) response)])
   ++ trace h (send_decode Params Model codes response model),
   result h (send_decode Params Model codes response model)).
Proof.
  intros (H429 & H500 & Hverdict).
  rewrite run_trace_result.
  unfold send_classify, StatusTooManyRequests, StatusInternalServerError.
  destruct (Status response =? 429) eqn:E429; [lia|].
  destruct (500 <=? Status response) eqn:E500; [lia|].
  destruct (String.eqb (PublicKey c) "") eqn:Ekey; simpl negb; cbv iota.
  - reflexivity.
  - rewrite trace_Bind, result_Bind.
    destruct Hverdict as [Hnokey | ->]; [|reflexivity].
    rewrite Hnokey in Ekey. discriminate Ekey.
Qed.

(** A response that passes the checks with nothing to decode. *)
Lemma send_classify_nothing c response model :
  passes_checks h c response ->
  Status response = 204 \/ Size response = 0 ->
  result h (send_classify' c response model)
    = {| out_response := Some response; out_err := None; out_model := model |}.
Proof.
  intros Hpass Hempty. unfold result.
  rewrite (send_classify_passes _ _ _ Hpass). cbn [snd].
  unfold send_decode, StatusNoContent.
  assert (E : (Status response =? 204) || (Size response =? 0) = true).
  { destruct Hempty as [-> | ->]; [reflexivity|]. apply orb_true_r. }
  rewrite E. reflexivity.
Qed.

(** X3.  A response that passes the checks and has status 204 or an
    empty body is a success, whatever its status otherwise: [send]
    returns it with a nil error, the model is untouched and the decoder
    is not called. *)
Theorem send_classify_empty c response model :
  passes_checks h c response ->
  Status response = 204 \/ Size response = 0 ->
  result h (send_classify' c response model)
    = {| out_response := Some response; out_err := None; out_model := model |}
  /\ Forall (fun call => is_Unmarshal call = false)
            (trace h (send_classify' c response model)).
Proof.
  intros Hpass Hempty. split; [apply send_classify_nothing; assumption|].
  unfold trace. rewrite (send_classify_passes _ _ _ Hpass). cbn [fst].
  rewrite trace_send_decode.
  unfold StatusNoContent.
  assert (E : (Status response =? 204) || (Size response =? 0) = true).
  { destruct Hempty as [-> | ->]; [reflexivity|]. apply orb_true_r. }
  rewrite E, app_nil_r.
  destruct (String.eqb (PublicKey c) ""); repeat constructor.
Qed.

Lemma nonempty_test response :
  Status response <> 204 -> Size response <> 0 ->
  (Status response =? 204) || (Size response =? 0) = false.
Proof.
  intros H204 Hsize.
  destruct (Status response =? 204) eqn:E1; [lia|].
  destruct (Size response =? 0) eqn:E2; [lia|]. reflexivity.
Qed.

(** X4.  When the decoder fails on a response that passes the checks,
    [send] returns the decoder's error as it is, with the response as it
    was read (no document is attached) and the model in the state the
    decoder left it. *)
Theorem send_classify_undecodable c response model model' err :
  passes_checks h c response ->
  Status response <> 204 -> Size response <> 0 ->
  h _ (Unmarshal (Body response) model) = (model', inr err) ->
  result h (send_classify' c response model)
    = {| out_response := Some response; out_err := Some err; out_model := model' |}.
Proof.
  intros Hpass H204 Hsize Hdecode. unfold result.
  rewrite (send_classify_passes _ _ _ Hpass). cbn [snd].
  unfold send_decode, StatusNoContent.
  rewrite (nonempty_test _ H204 Hsize), result_Bind, Hdecode. reflexivity.
Qed.

(** The outcome when the body decodes. *)
Lemma send_classify_decoded c response model model' doc :
  passes_checks h c response ->
  Status response <> 204 -> Size response <> 0 ->
  h _ (Unmarshal (Body response) model) = (model', inl doc) ->
  result h (send_classify' c response model)
    = {| out_response := Some (with_Document response doc);
         out_err := match Errors doc with
                    | first :: _ =>
                        Some (problem_error codes (with_Document response doc) first)
                    | [] => None
                    end;
         out_model := model' |}.
Proof.
  intros Hpass H204 Hsize Hdecode. unfold result.
  rewrite (send_classify_passes _ _ _ Hpass). cbn [snd].
  unfold send_decode, StatusNoContent.
  rewrite (nonempty_test _ H204 Hsize), result_Bind, Hdecode.
  destruct (Errors doc); reflexivity.
Qed.

(** X5.  When the body of a response that passes the checks decodes to a
    document without reported problems, [send] returns a nil error, the
    response with that document attached and the model as decoded;
    status codes between 400 and 499 are no exception. *)
Theorem send_classify_clean c response model model' doc :
  passes_checks h c response ->
  Status response <> 204 -> Size response <> 0 ->
  h _ (Unmarshal (Body response) model) = (model', inl doc) ->
  Errors doc = [] ->
  result h (send_classify' c response model)
    = {| out_response := Some (with_Document response doc);
         out_err := None; out_model := model' |}.
Proof.
  intros Hpass H204 Hsize Hdecode Hclean.
  rewrite (send_classify_decoded _ _ _ _ _ Hpass H204 Hsize Hdecode), Hclean.
  reflexivity.
Qed.

Ltac use_distinct_codes H :=
  unfold all_error_codes in H;
  repeat match type of H with
         | List.NoDup (_ :: _) =>
             let Hhead := fresh "Hhead" in
             let Htail := fresh "Htail" in
             pose proof (proj1 (List.NoDup_cons_iff _ _) H) as [Hhead Htail];
             clear H; rename Htail into H; simpl in Hhead;
             repeat match type of Hhead with
                    | ~ (_ \/ _) =>
                        let Hne := fresh "Hne" in
                        apply Decidable.not_or in Hhead as [Hne Hhead]
                    end
         end.

Ltac decide_codes :=
  repeat match goal with
         | |- context [String.eqb ?a ?b] =>
             first [ rewrite (String.eqb_refl a)
                   | rewrite (proj2 (String.eqb_neq a b))
                       by first [assumption | apply not_eq_sym; assumption] ]
         end.

(** The error made from a reported problem, by its code. *)
Lemma problem_error_table response first :
  Status response <> 403 ->
  List.NoDup (all_error_codes codes) ->
  let err := problem_error codes response first in
  let problem := Error_of response first in
  (EO_Code first = ErrorCodeMachineHeartbeatDead codes
     \/ EO_Code first = ErrorCodeProcessHeartbeatDead codes ->
   err = ErrHeartbeatDead)
  /\ (EO_Code first = ErrorCodeFingerprintTaken codes ->
      err = ErrMachineAlreadyActivated)
  /\ (EO_Code first = ErrorCodeMachineLimitExceeded codes ->
      err = ErrMachineLimitExceeded)
  /\ (EO_Code first = ErrorCodeProcessLimitExceeded codes ->
      err = ErrProcessLimitExceeded)
  /\ (EO_Code first = ErrorCodeTokenInvalid codes ->
      err = LicenseTokenError problem)
  /\ (EO_Code first = ErrorCodeLicenseInvalid codes ->
      err = LicenseKeyError problem)
  /\ (EO_Code first = ErrorCodeNotFound codes ->
      err = NotFoundError problem).
Proof.
  intros H403 Hdistinct err problem. subst err problem.
  unfold problem_error, Error_of, StatusForbidden.
  destruct (Status response =? 403) eqn:E403; [lia|].
  use_distinct_codes Hdistinct.
  repeat split.
  - intros [-> | ->]; decide_codes; cbn [orb]; reflexivity.
  - intros ->; decide_codes; reflexivity.
  - intros ->; decide_codes; reflexivity.
  - intros ->; decide_codes; reflexivity.
  - intros ->; decide_codes; reflexivity.
  - intros ->; decide_codes; reflexivity.
  - intros ->; decide_codes; reflexivity.
Qed.

(** X6.  For a status other than 403 and pairwise distinct code
    constants, the first reported problem decides the error by its code:
    the two heartbeat codes give [ErrHeartbeatDead], a taken fingerprint
    [ErrMachineAlreadyActivated], the two limits their limit errors, and
    the token, license and not-found codes the errors that wrap the
    problem; the problems after the first play no part. *)
Theorem send_classify_code_table c response model model' doc first rest :
  passes_checks h c response ->
  Status response <> 204 -> Size response <> 0 ->
  h _ (Unmarshal (Body response) model) = (model', inl doc) ->
  Errors doc = first :: rest ->
  Status response <> 403 ->
  List.NoDup (all_error_codes codes) ->
  let err := out_err (result h (send_classify' c response model)) in
  let problem := Error_of (with_Document response doc) first in
  (EO_Code first = ErrorCodeMachineHeartbeatDead codes
     \/ EO_Code first = ErrorCodeProcessHeartbeatDead codes ->
   err = Some ErrHeartbeatDead)
  /\ (EO_Code first = ErrorCodeFingerprintTaken codes ->
      err = Some ErrMachineAlreadyActivated)
  /\ (EO_Code first = ErrorCodeMachineLimitExceeded codes ->
      err = Some ErrMachineLimitExceeded)
  /\ (EO_Code first = ErrorCodeProcessLimitExceeded codes ->
      err = Some ErrProcessLimitExceeded)
  /\ (EO_Code first = ErrorCodeTokenInvalid codes ->
      err = Some (LicenseTokenError problem))
  /\ (EO_Code first = ErrorCodeLicenseInvalid codes ->
      err = Some (LicenseKeyError problem))
  /\ (EO_Code first = ErrorCodeNotFound codes ->
      err = Some (NotFoundError problem)).
Proof.
  intros Hpass H204 Hsize Hdecode Hproblems H403 Hdistinct err problem.
  subst err problem.
  rewrite (send_classify_decoded _ _ _ _ _ Hpass H204 Hsize Hdecode), Hproblems.
  cbn [out_err].
  pose proof (problem_error_table (with_Document response doc) first H403 Hdistinct)
    as Htable.
  cbv zeta in Htable.
  destruct Htable as (Hdead & Htaken & Hmachines & Hprocesses & Htoken & Hkey & Hmissing).
  repeat split; intros Hcode; f_equal; auto.
Qed.

(** X7.  For a status other than 403, a first reported problem whose
    code is none of the known constants comes back as the plain [Error]
    that carries the response and the title, detail, code and source
    pointer of the problem. *)
Theorem send_classify_unknown_code c response model model' doc first rest :
  passes_checks h c response ->
  Status response <> 204 -> Size response <> 0 ->
  h _ (Unmarshal (Body response) model) = (model', inl doc) ->
  Errors doc = first :: rest ->
  Status response <> 403 ->
  ~ In (EO_Code first) (all_error_codes codes) ->
  out_err (result h (send_classify' c response model))
    = Some (GenericError
              {| Err_Response := with_Document response doc;
                 Title := EO_Title first; Detail := EO_Detail first;
                 Code := EO_Code first; Source := EO_Source_Pointer first |}).
Proof.
  intros Hpass H204 Hsize Hdecode Hproblems H403 Hunknown.
  rewrite (send_classify_decoded _ _ _ _ _ Hpass H204 Hsize Hdecode), Hproblems.
  cbn [out_err]. unfold problem_error, StatusForbidden.
  cbn [with_Document Status].
  destruct (Status response =? 403) eqn:E403; [lia|].
  unfold all_error_codes in Hunknown.
  repeat match goal with
         | |- context [String.eqb ?a ?b] =>
             rewrite (proj2 (String.eqb_neq a b))
               by (simpl in Hunknown; intuition congruence)
         end.
  reflexivity.
Qed.

End ClassifyFurther.

(** ** Client.send: the request *)

Section SendFurther.

Variables Params Model : Type.
Variable is_querystring : Params -> bool.
Variable cfg : Config.
Variable codes : ErrorCodes.
Variable h : Handler (Call Params Model).

Local Abbreviation send' := (send Params Model is_querystring cfg codes).
Local Abbreviation send_classify' := (send_classify Params Model codes).

(** Case analysis on the course of [send] up to the classification. *)
Ltac send_cases :=
  unfold send, fails;
  repeat first
    [ rewrite trace_Bind | rewrite result_Bind
    | match goal with
      | |- context [match ?x with _ => _ end] =>
          lazymatch x with
          | context [send_classify] => fail
          | _ => destruct x eqn:?
          end
      end ].

Lemma rank_send_classify c response model :
  StronglySorted lt (map call_rank (trace h (send_classify' c response model)))
  /\ Forall (fun call => 4 <= call_rank call)%nat
            (trace h (send_classify' c response model)).
Proof.
  rewrite trace_send_classify.
  repeat match goal with
         | |- context [if ?b then _ else _] => destruct b
         end; cbn; split; repeat constructor; lia.
Qed.

(** X8.  [send] calls its collaborators in one fixed order and each at
    most once: the encoder of the body, the encoder of the query, the
    request constructor, the transport, the verifier, the decoder.  In
    particular there is one exchange at most and no retry. *)
Theorem send_calls_in_order c method path params model :
  StronglySorted lt (map call_rank (trace h (send' c method path params model))).
Proof.
  send_cases.
  all: try (cbn; repeat constructor; lia).
  all: match goal with
       | |- context [trace h (send_classify _ _ _ ?c ?r ?m)] =>
           destruct (rank_send_classify c r m) as [Hsorted Hhigh];
           revert Hsorted Hhigh;
           generalize (trace h (send_classify Params Model codes c r m))
       end.
  all: intros t Hsorted Hhigh; cbn.
  all: assert (Hranks : Forall (fun r => 4 <= r)%nat (map call_rank t))
         by (apply Forall_map; exact Hhigh).
  all: repeat first
         [ exact Hsorted
         | lia
         | eapply Forall_impl; [exact Hranks | intros; simpl in *; lia]
         | constructor ].
Qed.


Lemma trace_Ret {A : Type} (a : A) : trace h (Ret a) = [].
Proof. reflexivity. Qed.

Lemma classify_calls c response model :
  Forall (fun call => is_Marshal call = false /\ requested call = None
                      /\ transported call = None)
         (trace h (send_classify' c response model)).
Proof.
  rewrite trace_send_classify.
  repeat match goal with
         | |- context [if ?b then _ else _] => destruct b
         end; cbn; repeat constructor.
Qed.

(** X9.  When [send] returns a nil response it returns a non-nil error
    with it, the model is untouched, and neither the verifier nor the
    decoder has been called. *)
Theorem send_nil_response c method path params model :
  out_response (result h (send' c method path params model)) = None ->
  exists err,
    out_err (result h (send' c method path params model)) = Some err
    /\ out_model (result h (send' c method path params model)) = model
    /\ Forall before_response (trace h (send' c method path params model)).
Proof.
  unfold trace, result.
  destruct (run_send Params Model is_querystring cfg codes h c method path params model)
    as [(t & e & Ht & ->) | (t & res & out & Ht & ->)]; cbn [fst snd].
  - intros _. exists e. repeat split. exact Ht.
  - intros Hnone. exfalso. revert Hnone.
    unfold send_classify, send_decode, returns.
    repeat first
      [ rewrite result_Bind
      | match goal with
        | |- context [match ?x with _ => _ end] => destruct x
        end ]; discriminate.
Qed.

(** X10.  [send] encodes a request body exactly when it is given
    parameters and the method is POST, PATCH or PUT, and then does so
    first; otherwise the encoder is never called and the request is built
    with an empty body. *)
Theorem send_encodes_body c method path params model :
  (forall p, params = Some p -> sends_body method = true ->
     exists later,
       trace h (send' c method path params model) = called (Marshal p) :: later)
  /\ (params = None \/ sends_body method = false ->
      Forall (fun call => is_Marshal call = false
                          /\ forall m u b, requested call = Some (m, u, b) ->
                                           b = EmptyString)
             (trace h (send' c method path params model))).
Proof.
  split.
  - intros p -> Hbody. unfold send. rewrite Hbody, trace_Bind. eexists. reflexivity.
  - intros Hnone.
    assert (Hlater : forall c r m,
              Forall (fun call : AnyCall (Call Params Model) =>
                        is_Marshal call = false
                        /\ forall m u b, requested call = Some (m, u, b) ->
                                         b = EmptyString)
                     (trace h (send_classify' c r m))).
    { intros c0 r m. eapply Forall_impl; [apply classify_calls|].
      intros call (Hm & Hr & _). split; [exact Hm|]. intros ? ? ?. congruence. }
    send_cases.
    all: try (destruct Hnone; congruence).
    all: repeat first
           [ apply Hlater
           | constructor
           | progress cbn
           | intros ? ? ? [= <- <- <-] ].
    all: try discriminate.
Qed.

(** X11.  The URL that [send] requests is the API URL, the API prefix
    and the path, with the segment of the account between them only for
    the URL of the hosted API; the encoded query is appended after a
    question mark only when the parameters are a query string whose
    encoding is not empty.  The method is passed on as it is. *)
Theorem send_request_url c method path params model call m u b :
  In call (trace h (send' c method path params model)) ->
  requested call = Some (m, u, b) ->
  m = method
  /\ (u = base_url cfg c path
      \/ exists p enc,
           params = Some p /\ is_querystring p = true
           /\ h _ (QueryValues p) = inl enc /\ enc <> EmptyString
           /\ u = base_url cfg c path +:+ "?" +:+ enc).
Proof.
  assert (Hlater : forall c r mo, In call (trace h (send_classify' c r mo)) ->
                                  requested call = Some (m, u, b) -> False).
  { intros c0 r m0 Hin Hreq.
    pose proof (classify_calls c0 r m0) as Hall.
    destruct (proj1 (List.Forall_forall _ _) Hall _ Hin) as (_ & Hnone & _).
    congruence. }
  unfold base_url. send_cases.
  all: rewrite ?trace_Ret; cbn [In].
  all: intros Hin Hreq.
  all: repeat match goal with
              | H : _ \/ _ |- _ => destruct H as [<- | H]
              | H : False |- _ => destruct H
              end.
  all: try (exfalso; eapply Hlater; eassumption).
  all: cbn in Hreq; try discriminate Hreq.
  all: injection Hreq as <- <- <-.

  all: split; [reflexivity|].
  all: first
         [ left; reflexivity
         | right; eexists _, _;
           repeat split; try eassumption; try reflexivity;
           apply String.eqb_neq; assumption ].
Qed.


(** The request that reaches the transport is the one [send] builds. *)
Lemma send_transported c method path params model call req :
  In call (trace h (send' c method path params model)) ->
  transported call = Some req ->
  Method req = method /\ Request_Header req = request_headers cfg c.
Proof.
  assert (Hlater : forall c r mo, In call (trace h (send_classify' c r mo)) ->
                                  transported call = Some req -> False).
  { intros c0 r m0 Hin Hreq.
    pose proof (classify_calls c0 r m0) as Hall.
    destruct (proj1 (List.Forall_forall _ _) Hall _ Hin) as (_ & _ & Hnone).
    congruence. }
  send_cases.
  all: rewrite ?trace_Ret; cbn [In].
  all: intros Hin Hreq.
  all: repeat match goal with
              | H : _ \/ _ |- _ => destruct H as [<- | H]
              | H : False |- _ => destruct H
              end.
  all: try (exfalso; eapply Hlater; eassumption).
  all: cbn in Hreq; try discriminate Hreq.
  all: injection Hreq as <-.
  all: split; reflexivity.
Qed.

Lemma request_headers_Authorization c :
  request_headers cfg c !! "Authorization"%string =
  if negb (String.eqb (LicenseKey c) "") then Some ["License " +:+ LicenseKey c]
  else if negb (String.eqb (Token c) "") then Some ["Bearer " +:+ Token c]
  else None.
Proof.
  unfold request_headers, Header_Add.
  change (CanonicalMIMEHeaderKey "Authorization") with "Authorization"%string.
  change (CanonicalMIMEHeaderKey "Keygen-Version") with "Keygen-Version"%string.
  change (CanonicalMIMEHeaderKey "Content-Type") with "Content-Type"%string.
  change (CanonicalMIMEHeaderKey "Accept") with "Accept"%string.
  change (CanonicalMIMEHeaderKey "User-Agent") with "User-Agent"%string.
  rewrite !lookup_insert_ne by discriminate.
  destruct (negb (String.eqb (LicenseKey c) "")).
  - rewrite lookup_insert_eq, lookup_empty. reflexivity.
  - destruct (negb (String.eqb (Token c) "")).
    + rewrite lookup_insert_eq, lookup_empty. reflexivity.
    + apply lookup_empty.
Qed.

Lemma request_headers_fixed c (key : string) :
  request_headers cfg c !! key =
  if String.eqb key "User-Agent" then Some [userAgent cfg +:+ " " +:+ UserAgent c]
  else if String.eqb key "Accept" then Some [ContentType cfg]
  else if String.eqb key "Content-Type" then Some [ContentType cfg]
  else if String.eqb key "Keygen-Version" then Some [APIVersion cfg]
  else if String.eqb key "Authorization"
       then request_headers cfg c !! "Authorization"%string
  else None.
Proof.
  destruct (String.eqb key "User-Agent") eqn:E1;
    [apply String.eqb_eq in E1; subst key | apply String.eqb_neq in E1].
  { unfold request_headers, Header_Add.
    change (CanonicalMIMEHeaderKey "User-Agent") with "User-Agent"%string.
    rewrite lookup_insert_eq.
    change (CanonicalMIMEHeaderKey "Accept") with "Accept"%string.
    change (CanonicalMIMEHeaderKey "Content-Type") with "Content-Type"%string.
    change (CanonicalMIMEHeaderKey "Keygen-Version") with "Keygen-Version"%string.
    change (CanonicalMIMEHeaderKey "Authorization") with "Authorization"%string.
    rewrite !lookup_insert_ne by discriminate.
    destruct (negb (String.eqb (LicenseKey c) ""));
      [rewrite lookup_insert_ne by discriminate; rewrite lookup_empty; reflexivity|].
    destruct (negb (String.eqb (Token c) ""));
      [rewrite lookup_insert_ne by discriminate|]; rewrite lookup_empty; reflexivity. }
  destruct (String.eqb key "Accept") eqn:E2;
    [apply String.eqb_eq in E2; subst key | apply String.eqb_neq in E2].
  { unfold request_headers, Header_Add.
    change (CanonicalMIMEHeaderKey "User-Agent") with "User-Agent"%string.
    change (CanonicalMIMEHeaderKey "Accept") with "Accept"%string.
    change (CanonicalMIMEHeaderKey "Content-Type") with "Content-Type"%string.
    change (CanonicalMIMEHeaderKey "Keygen-Version") with "Keygen-Version"%string.
    change (CanonicalMIMEHeaderKey "Authorization") with "Authorization"%string.
    rewrite lookup_insert_ne by discriminate. rewrite lookup_insert_eq.
    rewrite !lookup_insert_ne by discriminate.
    destruct (negb (String.eqb (LicenseKey c) ""));
      [rewrite lookup_insert_ne by discriminate; rewrite lookup_empty; reflexivity|].
    destruct (negb (String.eqb (Token c) ""));
      [rewrite lookup_insert_ne by discriminate|]; rewrite lookup_empty; reflexivity. }
  destruct (String.eqb key "Content-Type") eqn:E3;
    [apply String.eqb_eq in E3; subst key | apply String.eqb_neq in E3].
  { unfold request_headers, Header_Add.
    change (CanonicalMIMEHeaderKey "User-Agent") with "User-Agent"%string.
    change (CanonicalMIMEHeaderKey "Accept") with "Accept"%string.
    change (CanonicalMIMEHeaderKey "Content-Type") with "Content-Type"%string.
    change (CanonicalMIMEHeaderKey "Keygen-Version") with "Keygen-Version"%string.
    change (CanonicalMIMEHeaderKey "Authorization") with "Authorization"%string.
    rewrite !lookup_insert_ne by discriminate. rewrite lookup_insert_eq.
    rewrite !lookup_insert_ne by discriminate.
    destruct (negb (String.eqb (LicenseKey c) ""));
      [rewrite lookup_insert_ne by discriminate; rewrite lookup_empty; reflexivity|].
    destruct (negb (String.eqb (Token c) ""));
      [rewrite lookup_insert_ne by discriminate|]; rewrite lookup_empty; reflexivity. }
  destruct (String.eqb key "Keygen-Version") eqn:E4;
    [apply String.eqb_eq in E4; subst key | apply String.eqb_neq in E4].
  { unfold request_headers, Header_Add.
    change (CanonicalMIMEHeaderKey "User-Agent") with "User-Agent"%string.
    change (CanonicalMIMEHeaderKey "Accept") with "Accept"%string.
    change (CanonicalMIMEHeaderKey "Content-Type") with "Content-Type"%string.
    change (CanonicalMIMEHeaderKey "Keygen-Version") with "Keygen-Version"%string.
    change (CanonicalMIMEHeaderKey "Authorization") with "Authorization"%string.
    rewrite !lookup_insert_ne by discriminate. rewrite lookup_insert_eq.
    destruct (negb (String.eqb (LicenseKey c) ""));
      [rewrite lookup_insert_ne by discriminate; rewrite lookup_empty; reflexivity|].
    destruct (negb (String.eqb (Token c) ""));
      [rewrite lookup_insert_ne by discriminate|]; rewrite lookup_empty; reflexivity. }
  destruct (String.eqb key "Authorization") eqn:E5;
    [apply String.eqb_eq in E5; subst key; reflexivity | apply String.eqb_neq in E5].
  unfold request_headers, Header_Add.
  change (CanonicalMIMEHeaderKey "User-Agent") with "User-Agent"%string.
  change (CanonicalMIMEHeaderKey "Accept") with "Accept"%string.
  change (CanonicalMIMEHeaderKey "Content-Type") with "Content-Type"%string.
  change (CanonicalMIMEHeaderKey "Keygen-Version") with "Keygen-Version"%string.
  change (CanonicalMIMEHeaderKey "Authorization") with "Authorization"%string.
  rewrite !lookup_insert_ne by congruence.
  destruct (negb (String.eqb (LicenseKey c) ""));
    [rewrite lookup_insert_ne by congruence; apply lookup_empty|].
  destruct (negb (String.eqb (Token c) ""));
    [rewrite lookup_insert_ne by congruence|]; apply lookup_empty.
Qed.


(** X12.  The request that reaches the transport carries the method
    given to [send] and at most one [Authorization] value: the license
    key, as [License <key>], when the client has one, whether or not it
    has a token as well; else the token, as [Bearer <token>]; and none
    when the client has neither. *)
Theorem send_authorization c method path params model call req :
  In call (trace h (send' c method path params model)) ->
  transported call = Some req ->
  Method req = method
  /\ Request_Header req !! "Authorization"%string
     = if negb (String.eqb (LicenseKey c) "") then Some ["License " +:+ LicenseKey c]
       else if negb (String.eqb (Token c) "") then Some ["Bearer " +:+ Token c]
       else None.
Proof.
  intros Hin Hreq.
  destruct (send_transported _ _ _ _ _ _ _ Hin Hreq) as [Hmethod ->].
  split; [exact Hmethod | apply request_headers_Authorization].
Qed.

(** X13.  Besides the authorization, the request that reaches the
    transport carries exactly four headers, each with one value: the API
    version, the content type of the codec both as [Content-Type] and as
    [Accept], and the user agent of the package followed by a space and
    the user agent of the client. *)
Theorem send_fixed_headers c method path params model call req :
  In call (trace h (send' c method path params model)) ->
  transported call = Some req ->
  Request_Header req !! "Keygen-Version"%string = Some [APIVersion cfg]
  /\ Request_Header req !! "Content-Type"%string = Some [ContentType cfg]
  /\ Request_Header req !! "Accept"%string = Some [ContentType cfg]
  /\ Request_Header req !! "User-Agent"%string
     = Some [userAgent cfg +:+ " " +:+ UserAgent c]
  /\ (forall key : string,
        ~ In key ["Authorization"; "Keygen-Version"; "Content-Type"; "Accept";
                  "User-Agent"]%string ->
        Request_Header req !! key = None).
Proof.
  intros Hin Hreq.
  destruct (send_transported _ _ _ _ _ _ _ Hin Hreq) as [_ ->].
  repeat split; try (rewrite request_headers_fixed; reflexivity).
  intros key Hother. rewrite request_headers_fixed.
  repeat match goal with
         | |- context [String.eqb key ?k] =>
             rewrite (proj2 (String.eqb_neq key k))
               by (intros ->; apply Hother; simpl; tauto)
         end.
  reflexivity.
Qed.

(** The response that the classification returns is the response it was
    given, with a document attached at most; a nil error comes with a
    response that is neither throttled nor a server fault and has no
    problem to report. *)
Lemma send_classify_outcome c r m :
  Document r = None ->
  exists r',
    out_response (result h (send_classify' c r m)) = Some r'
    /\ Request r' = Request r /\ ID r' = ID r /\ Headers r' = Headers r
    /\ Size r' = Size r /\ Body r' = Body r /\ Status r' = Status r
    /\ (out_err (result h (send_classify' c r m)) = None ->
        Status r <> 429 /\ Status r < 500
        /\ match Document r' with
           | Some doc => Errors doc = []
           | None => Status r = 204 \/ Size r = 0
           end).
Proof.
  intros Hfresh.
  unfold send_classify, send_decode, returns, StatusTooManyRequests,
    StatusInternalServerError, StatusNoContent.
  destruct (Status r =? 429) eqn:E429;
    [eexists; repeat split; discriminate|].
  destruct (500 <=? Status r) eqn:E500;
    [eexists; repeat split; discriminate|].
  assert (Hdec :
    exists r',
      out_response (result h (send_decode Params Model codes r m)) = Some r'
      /\ Request r' = Request r /\ ID r' = ID r /\ Headers r' = Headers r
      /\ Size r' = Size r /\ Body r' = Body r /\ Status r' = Status r
      /\ (out_err (result h (send_decode Params Model codes r m)) = None ->
          Status r <> 429 /\ Status r < 500
          /\ match Document r' with
             | Some doc => Errors doc = []
             | None => Status r = 204 \/ Size r = 0
             end)).
  { unfold send_decode, returns, StatusNoContent.
    destruct ((Status r =? 204) || (Size r =? 0)) eqn:Eempty.
    - exists r. repeat split; try lia. rewrite Hfresh.
      apply orb_true_iff in Eempty. destruct Eempty; [left | right]; lia.
    - rewrite result_Bind.
      destruct (h _ (Unmarshal (Body r) m)) as [m' [doc | e]].
      + destruct (Errors doc) eqn:Eerrors.
        * eexists. repeat split; try lia. exact Eerrors.
        * eexists. repeat split; discriminate.
      + eexists. repeat split; discriminate. }
  unfold send_decode, returns, StatusNoContent in Hdec.
  destruct (String.eqb (PublicKey c) ""); simpl negb; cbv iota.
  - exact Hdec.
  - rewrite result_Bind.
    destruct (h _ (VerifyResponse (PublicKey c) r)) as [e|].
    + eexists. repeat split; discriminate.
    + exact Hdec.
Qed.

(** [send] with a response in hand: the transport delivered it. *)
Lemma run_send_read c method path params model :
  (exists t err,
      run h (send' c method path params model) =
      (t, {| out_response := None; out_err := Some err; out_model := model |}))
  \/
  (exists t req res out,
      In (called (ClientDo req)) t
      /\ h _ (ClientDo req) = inl res
      /\ Response_Body res = inl out
      /\ let response :=
           new_Response res (Header_Get (Response_Header res) "x-request-id") out in
         result h (send' c method path params model)
         = result h (send_classify' c response model)
         /\ trace h (send' c method path params model)
            = t ++ trace h (send_classify' c response model)).
Proof.
  rewrite run_trace_result. send_cases.
  all: try (left; eexists; eexists; reflexivity).
  all: right.
  all: match goal with
       | Hdo : h _ (ClientDo ?req) = inl ?res, Hbody : Response_Body ?res = inl ?out
         |- _ =>
           match goal with
           | |- context [called (Marshal ?p) :: called (QueryValues ?q) :: ?n :: ?d :: _] =>
               exists [called (Marshal p); called (QueryValues q); n; d], req, res, out
           | |- context [called (Marshal ?p) :: ?n :: ?d :: _] =>
               exists [called (Marshal p); n; d], req, res, out
           | |- context [called (QueryValues ?q) :: ?n :: ?d :: _] =>
               exists [called (QueryValues q); n; d], req, res, out
           | |- context [called (NewRequest ?a ?b ?c) :: ?d :: _] =>
               exists [called (NewRequest a b c); d], req, res, out
           end;
           split; [cbn; tauto|]; split; [exact Hdo|]; split; [exact Hbody|];
           cbv zeta; split; reflexivity
       end.
Qed.

(** X14.  A response returned by [send] is what the transport delivered
    in its single exchange: status, headers, request and body are those
    of the delivery, the size is the length of the body and the id is
    the [x-request-id] header. *)
Theorem send_response_as_delivered c method path params model r :
  out_response (result h (send' c method path params model)) = Some r ->
  exists req res,
    In (called (ClientDo req)) (trace h (send' c method path params model))
    /\ h _ (ClientDo req) = inl res
    /\ Status r = StatusCode res
    /\ Headers r = Response_Header res
    /\ Request r = Response_Request res
    /\ Response_Body res = inl (Body r)
    /\ Size r = Z.of_nat (String.length (Body r))
    /\ ID r = Header_Get (Headers r) "x-request-id".
Proof.
  destruct (run_send_read c method path params model)
    as [(t & e & Hrun) | (t & req & res & out & Hin & Hdo & Hbody & Hresult & Htrace)].
  - unfold result. rewrite Hrun. discriminate.
  - cbv zeta in Hresult, Htrace. rewrite Hresult, Htrace.
    set (fresh := new_Response res (Header_Get (Response_Header res) "x-request-id") out).
    destruct (send_classify_outcome c fresh model eq_refl)
      as (r' & Hsome & Hreq & Hid & Hheaders & Hsize & Hbodyeq & Hstatus & _).
    rewrite Hsome. intros [= <-].
    exists req, res. split; [apply in_or_app; left; exact Hin|].
    split; [exact Hdo|].
    rewrite Hstatus, Hheaders, Hreq, Hbodyeq, Hsize, Hid.
    repeat split. exact Hbody.
Qed.

(** X15.  A nil error from [send] always comes with a response, and that
    response is neither throttled (429) nor a server fault (500 and
    above); it either had nothing to decode (status 204 or an empty
    body) and carries no document, or carries a document that reports no
    problem. *)
Theorem send_nil_error c method path params model :
  out_err (result h (send' c method path params model)) = None ->
  exists r,
    out_response (result h (send' c method path params model)) = Some r
    /\ Status r <> 429 /\ Status r < 500
    /\ match Document r with
       | Some doc => Errors doc = []
       | None => Status r = 204 \/ Size r = 0
       end.
Proof.
  destruct (run_send_read c method path params model)
    as [(t & e & Hrun) | (t & req & res & out & Hin & Hdo & Hbody & Hresult & Htrace)].
  - unfold result. rewrite Hrun. discriminate.
  - cbv zeta in Hresult. rewrite Hresult.
    set (fresh := new_Response res (Header_Get (Response_Header res) "x-request-id") out).
    destruct (send_classify_outcome c fresh model eq_refl)
      as (r' & Hsome & _ & _ & _ & Hsize & _ & Hstatus & Hnil).
    intros Herr. destruct (Hnil Herr) as (H429 & H500 & Hdoc).
    exists r'. rewrite Hstatus, Hsize. repeat split; assumption.
Qed.

End SendFurther.

(** ** License.Validate *)

Section LicenseFurther.

Variables Params Metadata ValidationResult : Type.
Variable Result_Code : ValidationResult -> string.
Variable nil_Metadata : Metadata.
Variable zero_ValidationResult : ValidationResult.
Variable validate_params : list string -> Params.
Variable is_querystring : Params -> bool.
Variable cfg : Config.
Variable codes : ErrorCodes.
Variable vcodes : ValidationCodes.
Variable package_client : Client.

Local Abbreviation License' := (License Metadata ValidationResult).
Local Abbreviation License_000' := (License_000 Metadata).
Local Abbreviation validation' := (validation Metadata ValidationResult).
Local Abbreviation validation_000' := (validation_000 Metadata ValidationResult).
Local Abbreviation Validate' :=
  (Validate Params Metadata ValidationResult Result_Code nil_Metadata
     zero_ValidationResult validate_params is_querystring cfg codes vcodes package_client).
Local Abbreviation Validate_request' :=
  (Validate_request Params Metadata ValidationResult nil_Metadata
     zero_ValidationResult validate_params is_querystring cfg codes package_client).
Local Abbreviation Validate_000' :=
  (Validate_000 Params Metadata ValidationResult Result_Code nil_Metadata
     zero_ValidationResult validate_params is_querystring cfg codes vcodes package_client).
Local Abbreviation Validate_request_000' :=
  (Validate_request_000 Params Metadata ValidationResult nil_Metadata
     zero_ValidationResult validate_params is_querystring cfg codes package_client).

Local Abbreviation result_Validate' :=
  (result_Validate Params Metadata ValidationResult Result_Code nil_Metadata
     zero_ValidationResult validate_params is_querystring cfg codes vcodes package_client).
Local Abbreviation result_Validate_000' :=
  (result_Validate_000 Params Metadata ValidationResult Result_Code nil_Metadata
     zero_ValidationResult validate_params is_querystring cfg codes vcodes package_client).

(** X16.  When the request of [Validate] fails, the receiver is left as
    it was and the error of the request is returned as it is, except
    that a [NotFoundError] is returned as [ErrLicenseInvalid]; in both
    revisions. *)
Theorem Validate_request_failed (err : error) :
  (forall (h : Handler (Call Params validation')) l fingerprints,
      out_err (result h (Validate_request' l fingerprints)) = Some err ->
      result h (Validate' l fingerprints) = (l, Some (validation_failure err)))
  /\
  (forall (h : Handler (Call Params validation_000')) l fingerprints,
      out_err (result h (Validate_request_000' l fingerprints)) = Some err ->
      result h (Validate_000' l fingerprints) = (l, Some (validation_failure err))).
Proof.
  split; intros h l fingerprints Hfailed.
  - rewrite result_Validate'. unfold Validate_posted. rewrite Hfailed.
    destruct err; reflexivity.
  - rewrite result_Validate_000'. unfold Validate_posted_000. rewrite Hfailed.
    destruct err; reflexivity.
Qed.

(** X17.  When the request of [Validate] succeeds, the receiver is
    overwritten with the license that the response describes, whatever
    the result code and whether or not an error is returned; the license
    source stores the result in [LastValidation] on top.  Nothing of the
    receiver's former contents is kept. *)
Theorem Validate_overwrites_receiver :
  (forall (h : Handler (Call Params validation')) l fingerprints,
      out_err (result h (Validate_request' l fingerprints)) = None ->
      fst (result h (Validate' l fingerprints))
      = with_LastValidation Metadata ValidationResult
          (V_License (out_model (result h (Validate_request' l fingerprints))))
          (Some (V_Result (out_model (result h (Validate_request' l fingerprints))))))
  /\
  (forall (h : Handler (Call Params validation_000')) l fingerprints,
      out_err (result h (Validate_request_000' l fingerprints)) = None ->
      fst (result h (Validate_000' l fingerprints))
      = V0_License (out_model (result h (Validate_request_000' l fingerprints)))).
Proof.
  split; intros h l fingerprints Hposted.
  - rewrite result_Validate'. unfold Validate_posted. rewrite Hposted. cbv zeta.
    destruct (String.eqb _ _); reflexivity.
  - rewrite result_Validate_000'. unfold Validate_posted_000. rewrite Hposted. cbv zeta.
    destruct (String.eqb _ _); reflexivity.
Qed.

Ltac use_distinct' H :=
  unfold all_codes in H;
  repeat match type of H with
         | List.NoDup (_ :: _) =>
             let Hhead := fresh "Hhead" in
             let Htail := fresh "Htail" in
             pose proof (proj1 (List.NoDup_cons_iff _ _) H) as [Hhead Htail];
             clear H; rename Htail into H; simpl in Hhead;
             repeat match type of Hhead with
                    | ~ (_ \/ _) =>
                        let Hne := fresh "Hne" in
                        apply Decidable.not_or in Hhead as [Hne Hhead]
                    end
         end.

Ltac decide_distinct' :=
  repeat match goal with
         | |- context [String.eqb ?a ?b] =>
             first [ rewrite (String.eqb_refl a)
                   | rewrite (proj2 (String.eqb_neq a b))
                       by first [assumption | apply not_eq_sym; assumption] ]
         end.

Lemma validation_switch_table code kind :
  List.NoDup (all_codes vcodes) ->
  In (code, kind) (validation_table vcodes) ->
  code <> ValidationCodeValid vcodes
  /\ validation_switch vcodes code = kind
  /\ validation_switch_000 vcodes code = kind.
Proof.
  intros Hdistinct Hin. use_distinct' Hdistinct.
  unfold validation_table in Hin. cbn [In] in Hin.
  unfold validation_switch, validation_switch_000.
  repeat match goal with
         | H : _ \/ _ |- _ => destruct H as [[= <- <-] | H]
         | H : False |- _ => destruct H
         end.
  all: split; [first [assumption | apply not_eq_sym; assumption]|].
  all: split; decide_distinct'; cbn [orb]; reflexivity.
Qed.

(** X18.  With pairwise distinct code constants and a request that
    succeeded, [Validate] maps the expired, suspended, too-many-machines,
    too-many-cores, heartbeat-not-started and heartbeat-dead codes each
    to the error of that name, both fingerprint-scope codes to
    [ErrValidationFingerprintMissing] and both product-scope codes to
    [ErrValidationProductMissing]; in both revisions. *)
Theorem Validate_code_table (code : string) (kind : error) :
  List.NoDup (all_codes vcodes) ->
  In (code, kind) (validation_table vcodes) ->
  (forall (h : Handler (Call Params validation')) l fingerprints,
      out_err (result h (Validate_request' l fingerprints)) = None ->
      Result_Code (V_Result (out_model (result h (Validate_request' l fingerprints))))
        = code ->
      snd (result h (Validate' l fingerprints)) = Some kind)
  /\
  (forall (h : Handler (Call Params validation_000')) l fingerprints,
      out_err (result h (Validate_request_000' l fingerprints)) = None ->
      Result_Code
        (V0_Result (out_model (result h (Validate_request_000' l fingerprints))))
        = code ->
      snd (result h (Validate_000' l fingerprints)) = Some kind).
Proof.
  intros Hdistinct Hin.
  destruct (validation_switch_table code kind Hdistinct Hin)
    as (Hinvalid & Hswitch & Hswitch0).
  split; intros h l fingerprints Hposted Hcode.
  - rewrite result_Validate'. unfold Validate_posted. rewrite Hposted. cbv zeta.
    rewrite Hcode, (proj2 (String.eqb_neq _ _) Hinvalid), Hswitch. reflexivity.
  - rewrite result_Validate_000'. unfold Validate_posted_000. rewrite Hposted. cbv zeta.
    rewrite Hcode, (proj2 (String.eqb_neq _ _) Hinvalid), Hswitch0. reflexivity.
Qed.

(** X19.  [Validate] returns a nil error exactly when its request
    succeeded and the result code is the valid code; in both
    revisions. *)
Theorem Validate_nil_iff_valid :
  (forall (h : Handler (Call Params validation')) l fingerprints,
      snd (result h (Validate' l fingerprints)) = None
      <-> out_err (result h (Validate_request' l fingerprints)) = None
          /\ Result_Code
               (V_Result (out_model (result h (Validate_request' l fingerprints))))
             = ValidationCodeValid vcodes)
  /\
  (forall (h : Handler (Call Params validation_000')) l fingerprints,
      snd (result h (Validate_000' l fingerprints)) = None
      <-> out_err (result h (Validate_request_000' l fingerprints)) = None
          /\ Result_Code
               (V0_Result (out_model (result h (Validate_request_000' l fingerprints))))
             = ValidationCodeValid vcodes).
Proof.
  split; intros h l fingerprints.
  - rewrite result_Validate'. unfold Validate_posted.
    destruct (out_err (result h (Validate_request' l fingerprints))) as [err|].
    + split; [destruct err; discriminate | intros [Hnone _]; discriminate Hnone].
    + cbv zeta. destruct (String.eqb _ (ValidationCodeValid vcodes)) eqn:Evalid.
      * apply String.eqb_eq in Evalid. split; auto.
      * apply String.eqb_neq in Evalid. split; [discriminate | tauto].
  - rewrite result_Validate_000'. unfold Validate_posted_000.
    destruct (out_err (result h (Validate_request_000' l fingerprints))) as [err|].
    + split; [destruct err; discriminate | intros [Hnone _]; discriminate Hnone].
    + cbv zeta. destruct (String.eqb _ (ValidationCodeValid vcodes)) eqn:Evalid.
      * apply String.eqb_eq in Evalid. split; auto.
      * apply String.eqb_neq in Evalid. split; [discriminate | tauto].
Qed.


(** X20.  [Validate] posts the fingerprints to
    [licenses/<id>/actions/validate] of the receiver: it encodes them
    first and, when they are no query string, requests that URL with the
    encoding as body; when the encoding fails, nothing is requested, the
    receiver is left as it was and the error is returned. *)
Theorem Validate_request_sent (h : Handler (Call Params validation')) (l : License')
    (fingerprints : list string) :
  (forall body,
      h _ (Marshal (validate_params fingerprints)) = inl body ->
      is_querystring (validate_params fingerprints) = false ->
      exists later,
        trace h (Validate' l fingerprints)
        = called (Marshal (validate_params fingerprints))
          :: called (NewRequest "POST"
                       (base_url cfg package_client
                          ("licenses/" +:+ L_ID l +:+ "/actions/validate")) body)
          :: later)
  /\ (forall err,
        h _ (Marshal (validate_params fingerprints)) = inr err ->
        run h (Validate' l fingerprints)
        = ([called (Marshal (validate_params fingerprints))],
           (l, Some (validation_failure err)))).
Proof.
  split.
  - intros body Hbody Hquery. unfold Validate. rewrite trace_bind.
    unfold Validate_request, Post, send, validate_path.
    change (sends_body "POST") with true. cbv iota.
    rewrite trace_Bind, Hbody, Hquery. rewrite trace_Bind.
    eexists. rewrite <- app_comm_cons. rewrite <- app_comm_cons. reflexivity.
  - intros err Herr. rewrite run_trace_result.
    unfold Validate. rewrite trace_bind, result_bind.
    unfold Validate_request, Post, send.
    change (sends_body "POST") with true. cbv iota.
    rewrite !trace_Bind, !result_Bind, Herr.
    unfold Validate_posted, fails, result, trace. cbn.
    destruct err; reflexivity.
Qed.

End LicenseFurther.

(** ** A service that answers every request alike *)

Section Answering.

Variables Params Model : Type.
Variable is_querystring : Params -> bool.
Variable cfg : Config.
Variable codes : ErrorCodes.
Variable status : Z.
Variable headers : Header.
Variable body : string.
Variable verdict : option error.
Variable decoded : Model * (jsonapi_Document + error).

Local Abbreviation h := (@answering Params Model status headers body verdict decoded).

Lemma send_answering c method path params model :
  result h (send Params Model is_querystring cfg codes c method path params model)
  = result h (send_classify Params Model codes c
                (response_read cfg c method path params status headers body) model).
Proof.
  unfold send, response_read, request_sent, base_url.
  destruct params as [p|].
  - destruct (sends_body method); destruct (is_querystring p);
      repeat (rewrite result_Bind; cbn [answering scripted delivered Response_Header
                                          Response_Body String.eqb]);
      reflexivity.
  - repeat (rewrite result_Bind; cbn [answering scripted delivered Response_Header
                                        Response_Body String.eqb]);
      reflexivity.
Qed.

Lemma answering_passes c response :
  Status response <> 429 -> Status response < 500 ->
  PublicKey c = EmptyString \/ verdict = None ->
  passes_checks h c response.
Proof. intros H429 H500 Hverdict. repeat split; try assumption. Qed.

End Answering.

(** ** The other methods of License *)

Lemma trace_bind_Ret {E : Type -> Type} {A B : Type} (h : Handler E)
    (p : Prog E A) (f : A -> B) :
  trace h (bind p (fun a => Ret (f a))) = trace h p.
Proof. rewrite trace_bind. apply app_nil_r. Qed.

Lemma result_bind_Ret {E : Type -> Type} {A B : Type} (h : Handler E)
    (p : Prog E A) (f : A -> B) :
  result h (bind p (fun a => Ret (f a))) = f (result h p).
Proof. rewrite result_bind. reflexivity. Qed.

Section MethodsFurther.

Variables Metadata ValidationResult : Type.
Variables Machine Machines Entitlements LicenseFile CheckoutOptions querystring : Type.
Variable Machine_literal : string -> string -> string -> Z -> string -> Machine.
Variable querystring_Limit : Z -> querystring.
Variable querystring_Encrypt_Include : bool -> string -> querystring.
Variable CheckoutOptions_literal : bool -> string -> CheckoutOptions.
Variable zero_Machine : Machine.
Variable empty_Machines : Machines.
Variable empty_Entitlements : Entitlements.
Variable zero_LicenseFile : LicenseFile.
Variable os_Hostname : string.
Variables runtime_GOOS runtime_GOARCH : string.
Variable runtime_NumCPU : Z.
Variable CheckoutOptions_is_querystring : bool.
Variable cfg : Config.
Variable codes : ErrorCodes.
Variable package_client : Client.

Local Abbreviation License' := (License Metadata ValidationResult).
Local Abbreviation License_000' := (License_000 Metadata).
Local Abbreviation params' := (method_params Machine CheckoutOptions querystring).
Local Abbreviation is_qs := (method_is_querystring Machine CheckoutOptions querystring
                               CheckoutOptions_is_querystring).
Local Abbreviation SetRelationships' := (SetRelationships Metadata ValidationResult).
Local Abbreviation SetRelationships_000' := (SetRelationships_000 Metadata).
Local Abbreviation Activate' :=
  (Activate Metadata ValidationResult Machine CheckoutOptions querystring Machine_literal
     zero_Machine os_Hostname runtime_GOOS runtime_GOARCH runtime_NumCPU
     CheckoutOptions_is_querystring cfg codes package_client).
Local Abbreviation Deactivate' :=
  (Deactivate Metadata ValidationResult Machine CheckoutOptions querystring
     CheckoutOptions_is_querystring cfg codes package_client).
Local Abbreviation License_Machine' :=
  (License_Machine Metadata ValidationResult Machine CheckoutOptions querystring
     zero_Machine CheckoutOptions_is_querystring cfg codes package_client).
Local Abbreviation License_Machines' :=
  (License_Machines Metadata ValidationResult Machine Machines CheckoutOptions querystring
     querystring_Limit empty_Machines CheckoutOptions_is_querystring cfg codes
     package_client).
Local Abbreviation License_Entitlements' :=
  (License_Entitlements Metadata ValidationResult Machine Entitlements CheckoutOptions
     querystring querystring_Limit empty_Entitlements CheckoutOptions_is_querystring
     cfg codes package_client).
Local Abbreviation Checkout' :=
  (Checkout Metadata ValidationResult Machine LicenseFile CheckoutOptions querystring
     CheckoutOptions_literal zero_LicenseFile CheckoutOptions_is_querystring cfg codes
     package_client).
Local Abbreviation apply_options' := (apply_options CheckoutOptions).
Local Abbreviation Checkout_000' :=
  (Checkout_000 Metadata Machine LicenseFile CheckoutOptions querystring
     querystring_Encrypt_Include zero_LicenseFile CheckoutOptions_is_querystring cfg codes
     package_client).

(** X21.  [SetRelationships] looks at the entry [policy] only: without
    it the license is left as it is; with a resource identifier it sets
    [PolicyId] to the identifier's id and changes no other field; any
    other entry of the map is ignored; no error is ever returned; and
    the method panics exactly when [policy] is bound to something else
    than a resource identifier.  In both revisions. *)
Theorem SetRelationships_policy (relationships : gmap string relationship_value) :
  (forall l : License',
      (relationships !! "policy"%string = None ->
       SetRelationships' l relationships = Some (l, None))
      /\ (forall id, relationships !! "policy"%string = Some (identifier_ptr id) ->
          exists l', SetRelationships' l relationships = Some (l', None)
                     /\ L_PolicyId l' = id
                     /\ with_PolicyId Metadata ValidationResult l' (L_PolicyId l) = l)
      /\ (forall (key : string) v, key <> "policy"%string ->
          SetRelationships' l (<[key := v]> relationships)
          = SetRelationships' l relationships)
      /\ (forall l' err, SetRelationships' l relationships = Some (l', err) -> err = None)
      /\ (SetRelationships' l relationships = None
          <-> relationships !! "policy"%string = Some nil_identifier_ptr
              \/ relationships !! "policy"%string = Some other_value))
  /\
  (forall l : License_000',
      (relationships !! "policy"%string = None ->
       SetRelationships_000' l relationships = Some (l, None))
      /\ (forall id, relationships !! "policy"%string = Some (identifier_ptr id) ->
          exists l', SetRelationships_000' l relationships = Some (l', None)
                     /\ L0_PolicyId l' = id
                     /\ with_PolicyId_000 Metadata l' (L0_PolicyId l) = l)
      /\ (forall (key : string) v, key <> "policy"%string ->
          SetRelationships_000' l (<[key := v]> relationships)
          = SetRelationships_000' l relationships)
      /\ (forall l' err, SetRelationships_000' l relationships = Some (l', err) ->
          err = None)
      /\ (SetRelationships_000' l relationships = None
          <-> relationships !! "policy"%string = Some nil_identifier_ptr
              \/ relationships !! "policy"%string = Some other_value)).
Proof.
  split; intros l.
  - unfold SetRelationships. repeat split.
    + intros ->. reflexivity.
    + intros id ->. eexists. split; [reflexivity|]. split; [reflexivity|].
      destruct l; reflexivity.
    + intros key v Hkey. rewrite lookup_insert_ne by exact Hkey. reflexivity.
    + intros l' err. destruct (relationships !! "policy"%string) as [[id| |]|];
        intros [= <- <-]; reflexivity.
    + destruct (relationships !! "policy"%string) as [[id| |]|];
        intros H; try discriminate H; auto.
    + intros [-> | ->]; reflexivity.
  - unfold SetRelationships_000. repeat split.
    + intros ->. reflexivity.
    + intros id ->. eexists. split; [reflexivity|]. split; [reflexivity|].
      destruct l; reflexivity.
    + intros key v Hkey. rewrite lookup_insert_ne by exact Hkey. reflexivity.
    + intros l' err. destruct (relationships !! "policy"%string) as [[id| |]|];
        intros [= <- <-]; reflexivity.
    + destruct (relationships !! "policy"%string) as [[id| |]|];
        intros H; try discriminate H; auto.
    + intros [-> | ->]; reflexivity.
Qed.

Lemma apply_options_app (before after : list (CheckoutOption CheckoutOptions))
    (opts : CheckoutOptions) :
  apply_options' (before ++ after) opts =
  match apply_options' before opts with
  | inl opts' => apply_options' after opts'
  | inr err => inr err
  end.
Proof.
  revert opts. induction before as [|opt before IH]; intros opts; [reflexivity|].
  cbn [app apply_options]. destruct (opt opts) as [opts' [e|]]; [reflexivity|].
  apply IH.
Qed.

(** X22.  [Checkout] applies its options in order, each to the options
    as the earlier ones left them, starting from encryption with the
    entitlements included.  When an option fails, [Checkout] returns nil
    and the error of that option, the later options are not applied and
    no request is made. *)
Theorem Checkout_failing_option (h : Handler (Call params' LicenseFile))
    (l : License') before bad after opts opts' err :
  apply_options' before (CheckoutOptions_literal true "entitlements") = inl opts ->
  bad opts = (opts', Some err) ->
  run h (Checkout' l (before ++ bad :: after)) = ([], (None, Some err)).
Proof.
  intros Hbefore Hbad. unfold Checkout.
  rewrite apply_options_app, Hbefore. cbn [apply_options]. rewrite Hbad.
  reflexivity.
Qed.

Lemma apply_options_succeed (options : list (CheckoutOption CheckoutOptions))
    (opts : CheckoutOptions) :
  (forall opt o, In opt options -> snd (opt o) = None) ->
  apply_options' options opts = inl (fold_left (fun o opt => fst (opt o)) options opts).
Proof.
  revert opts. induction options as [|opt options IH]; intros opts Hok; [reflexivity|].
  cbn [apply_options fold_left].
  pose proof (Hok opt opts (or_introl eq_refl)) as Hopt.
  destruct (opt opts) as [opts' e]. cbn [snd] in Hopt. subst e. cbn [fst].
  apply IH. intros opt' o Hin. apply Hok. right. exact Hin.
Qed.

(** X23.  When none of its options fails, [Checkout] first encodes, as
    the body of its request, the options obtained by applying them from
    left to right to the defaults; with no option at all, the defaults
    themselves. *)
Theorem Checkout_posts_options (h : Handler (Call params' LicenseFile))
    (l : License') options :
  (forall opt o, In opt options -> snd (opt o) = None) ->
  exists later,
    trace h (Checkout' l options)
    = called (Marshal (params_CheckoutOptions Machine CheckoutOptions querystring
                         (fold_left (fun o opt => fst (opt o)) options
                                    (CheckoutOptions_literal true "entitlements"))))
      :: later.
Proof.
  intros Hok. unfold Checkout. rewrite (apply_options_succeed _ _ Hok).
  rewrite trace_bind_Ret. unfold Post, send.
  change (sends_body "POST") with true. cbv iota.
  rewrite trace_Bind. eexists. reflexivity.
Qed.


(** X24.  [Checkout] of the other revision passes a [querystring] to a
    POST, so its settings travel twice: they are encoded as the body of
    the request, then encoded as a query, and a non-empty query is
    appended to the URL of the check-out after a question mark. *)
Theorem Checkout_000_request (h : Handler (Call params' LicenseFile))
    (l : License_000') body enc :
  let q := params_querystring Machine CheckoutOptions querystring
             (querystring_Encrypt_Include true "entitlements") in
  h _ (Marshal q) = inl body ->
  h _ (QueryValues q) = inl enc ->
  enc <> EmptyString ->
  exists later,
    trace h (Checkout_000' l)
    = called (Marshal q)
      :: called (QueryValues q)
      :: called (NewRequest "POST"
                   (base_url cfg package_client
                      ("licenses/" +:+ L0_ID l +:+ "/actions/check-out")
                    +:+ "?" +:+ enc) body)
      :: later.
Proof.
  intros q Hbody Henc Hnonempty.
  unfold Checkout_000. rewrite trace_bind_Ret.
  unfold Post, send, base_url. change (sends_body "POST") with true. cbv iota.
  fold q. rewrite trace_Bind, Hbody.
  change (method_is_querystring Machine CheckoutOptions querystring
            CheckoutOptions_is_querystring q) with true. cbv iota.
  rewrite trace_Bind, Henc.
  rewrite (proj2 (String.eqb_neq _ _) Hnonempty).
  destruct (String.eqb (APIURL cfg) "https://api.keygen.sh");
    rewrite trace_Bind; eexists; reflexivity.
Qed.

(** X25.  [Activate] posts to [machines] a machine made of the
    fingerprint, the host name, the platform as [GOOS/GOARCH], the
    number of CPUs and the id of the license: it encodes that machine
    first and then requests the URL of [machines] with the encoding as
    body, without a query string; when the encoding fails nothing is
    requested and the error is returned with a nil machine. *)
Theorem Activate_request (h : Handler (Call params' Machine)) (l : License')
    (fingerprint : string) :
  let machine :=
    params_Machine Machine CheckoutOptions querystring
      (Machine_literal fingerprint os_Hostname (runtime_GOOS +:+ "/" +:+ runtime_GOARCH)
                       runtime_NumCPU (L_ID l)) in
  (forall body, h _ (Marshal machine) = inl body ->
     exists later,
       trace h (Activate' l fingerprint)
       = called (Marshal machine)
         :: called (NewRequest "POST" (base_url cfg package_client "machines") body)
         :: later)
  /\ (forall err, h _ (Marshal machine) = inr err ->
      run h (Activate' l fingerprint) = ([called (Marshal machine)], (None, Some err))).
Proof.
  intros machine. split.
  - intros body Hbody. unfold Activate. rewrite trace_bind_Ret.
    unfold Post, send. change (sends_body "POST") with true. cbv iota.
    fold machine. rewrite trace_Bind, Hbody.
    change (is_qs machine) with false. cbv iota.
    rewrite trace_Bind. eexists. reflexivity.
  - intros err Herr. rewrite run_trace_result.
    unfold Activate. rewrite trace_bind_Ret, result_bind_Ret.
    unfold Post, send. change (sends_body "POST") with true. cbv iota.
    fold machine. rewrite trace_Bind, result_Bind, Herr. reflexivity.
Qed.

Lemma size_response_read {Params : Type} c method path (params : option Params)
    status headers body :
  body <> EmptyString ->
  Size (response_read cfg c method path params status headers body) <> 0.
Proof. intros Hbody. destruct body; [congruence|]. cbn. lia. Qed.

(** X26.  When the request goes through and the service answers with a
    status other than 204, 403, 429 and below 500, with a body that
    decodes and a signature that is accepted or not asked for,
    [Activate] returns the decoded machine and a nil error if the
    document reports no problem, a nil machine and
    [ErrMachineAlreadyActivated] if the first problem has the
    fingerprint-taken code, and a nil machine and
    [ErrMachineLimitExceeded] if it has the machine-limit code. *)
Theorem Activate_outcomes (l : License') (fingerprint : string)
    (status : Z) (headers : Header) (body : string) (verdict : option error)
    (machine : Machine) (doc : jsonapi_Document) :
  status <> 429 -> status < 500 -> status <> 204 -> status <> 403 ->
  body <> EmptyString ->
  PublicKey package_client = EmptyString \/ verdict = None ->
  List.NoDup (all_error_codes codes) ->
  let h := @answering params' Machine status headers body verdict (machine, inl doc) in
  (Errors doc = [] -> result h (Activate' l fingerprint) = (Some machine, None))
  /\ (forall first rest, Errors doc = first :: rest ->
        (EO_Code first = ErrorCodeFingerprintTaken codes ->
         result h (Activate' l fingerprint) = (None, Some ErrMachineAlreadyActivated))
        /\ (EO_Code first = ErrorCodeMachineLimitExceeded codes ->
            result h (Activate' l fingerprint) = (None, Some ErrMachineLimitExceeded))).
Proof.
  intros H429 H500 H204 H403 Hbody Hverdict Hdistinct h.
  assert (Hresult : forall l fingerprint,
            result h (Activate' l fingerprint)
            = target_or_error
                (result h (send_classify params' Machine codes package_client
                             (response_read cfg package_client "POST" "machines"
                                (Some (params_Machine Machine CheckoutOptions querystring
                                         (Machine_literal fingerprint os_Hostname
                                            (runtime_GOOS +:+ "/" +:+ runtime_GOARCH)
                                            runtime_NumCPU (L_ID l))))
                                status headers body)
                             zero_Machine))).
  { intros l0 fp. unfold Activate. rewrite result_bind_Ret. unfold Post.
    unfold h. rewrite send_answering. reflexivity. }
  rewrite !Hresult.
  set (response := response_read cfg package_client "POST" "machines" _ status headers body).
  assert (Hpass : passes_checks h package_client response)
    by (apply answering_passes; assumption).
  assert (Hsize : Size response <> 0) by (apply size_response_read; exact Hbody).
  split.
  - intros Hclean.
    rewrite (send_classify_decoded params' Machine codes h package_client response
               zero_Machine machine doc Hpass H204 Hsize eq_refl), Hclean.
    reflexivity.
  - intros first rest Hproblems.
    rewrite (send_classify_decoded params' Machine codes h package_client response
               zero_Machine machine doc Hpass H204 Hsize eq_refl), Hproblems.
    pose proof (problem_error_table codes (with_Document response doc) first
                  H403 Hdistinct) as Htable.
    cbv zeta in Htable.
    destruct Htable as (_ & Htaken & Hlimit & _).
    unfold target_or_error. cbn [out_err]. split; intros Hcode.
    + rewrite (Htaken Hcode). reflexivity.
    + rewrite (Hlimit Hcode). reflexivity.
Qed.

(** X27.  [Deactivate] sends a DELETE for [machines/<id>] with an empty
    body straight away, encoding neither a body nor a query; and when
    the request goes through and the answer is neither a 429 nor a
    status of 500 and above, has status 204 or an empty body, and its
    signature is accepted or not asked for, [Deactivate] returns nil,
    whatever the status otherwise. *)
Theorem Deactivate_request (l : License') (id : string) :
  (forall h : Handler (Call params' unit),
      exists later,
        trace h (Deactivate' l id)
        = called (NewRequest "DELETE"
                    (base_url cfg package_client ("machines/" +:+ id)) "")
          :: later)
  /\ (forall status headers body verdict decoded,
        status <> 429 -> status < 500 ->
        status = 204 \/ body = EmptyString ->
        PublicKey package_client = EmptyString \/ verdict = None ->
        result (@answering params' unit status headers body verdict decoded)
               (Deactivate' l id) = None).
Proof.
  split.
  - intros h. unfold Deactivate. rewrite trace_bind_Ret.
    unfold Delete, send, base_url.
    destruct (String.eqb (APIURL cfg) "https://api.keygen.sh");
      rewrite trace_Bind; eexists; reflexivity.
  - intros status headers body verdict decoded H429 H500 Hempty Hverdict.
    unfold Deactivate. rewrite result_bind_Ret. unfold Delete.
    rewrite send_answering.
    set (response := response_read cfg package_client "DELETE" _ _ status headers body).
    assert (Hpass : passes_checks
                      (@answering params' unit status headers body verdict decoded)
                      package_client response)
      by (apply answering_passes; assumption).
    assert (Hnothing : Status response = 204 \/ Size response = 0).
    { destruct Hempty as [-> | ->]; [left | right]; reflexivity. }
    rewrite (send_classify_nothing params' unit codes _ package_client response tt
               Hpass Hnothing).
    reflexivity.
Qed.

(** X28.  [Machines] and [Entitlements] send a GET for the machines and
    the entitlements of the license with the query of a limit of 100:
    the query encoder is called first, on [querystring{Limit: 100}], no
    body is encoded, and a non-empty encoding is appended to the URL
    after a question mark. *)
Theorem Machines_Entitlements_request (l : License') :
  let q := params_querystring Machine CheckoutOptions querystring
             (querystring_Limit 100) in
  (forall (h : Handler (Call params' Machines)) enc,
      h _ (QueryValues q) = inl enc -> enc <> EmptyString ->
      exists later,
        trace h (License_Machines' l)
        = called (QueryValues q)
          :: called (NewRequest "GET"
                       (base_url cfg package_client
                          ("licenses/" +:+ L_ID l +:+ "/machines") +:+ "?" +:+ enc) "")
          :: later)
  /\
  (forall (h : Handler (Call params' Entitlements)) enc,
      h _ (QueryValues q) = inl enc -> enc <> EmptyString ->
      exists later,
        trace h (License_Entitlements' l)
        = called (QueryValues q)
          :: called (NewRequest "GET"
                       (base_url cfg package_client
                          ("licenses/" +:+ L_ID l +:+ "/entitlements") +:+ "?" +:+ enc) "")
          :: later).
Proof.
  intros q. split; intros h enc Henc Hnonempty.
  - unfold License_Machines. rewrite trace_bind_Ret.
    unfold Get, send, base_url. change (sends_body "GET") with false. cbv iota.
    cbn [method_is_querystring]. fold q. rewrite trace_Bind, Henc.
    rewrite (proj2 (String.eqb_neq _ _) Hnonempty).
    destruct (String.eqb (APIURL cfg) "https://api.keygen.sh");
      rewrite trace_Bind; eexists; reflexivity.
  - unfold License_Entitlements. rewrite trace_bind_Ret.
    unfold Get, send, base_url. change (sends_body "GET") with false. cbv iota.
    cbn [method_is_querystring]. fold q. rewrite trace_Bind, Henc.
    rewrite (proj2 (String.eqb_neq _ _) Hnonempty).
    destruct (String.eqb (APIURL cfg) "https://api.keygen.sh");
      rewrite trace_Bind; eexists; reflexivity.
Qed.

(** X29.  When the request of the method [Machine] goes through and the
    service answers, with a status other than 204, 403, 429 and below
    500 and a signature that is accepted or not asked for, a document
    whose first problem has the not-found code, the method returns a nil
    machine and a [NotFoundError] that carries that problem and the
    response. *)
Theorem License_Machine_not_found (l : License') (id : string)
    (status : Z) (headers : Header) (body : string) (verdict : option error)
    (machine : Machine) (doc : jsonapi_Document) first rest :
  status <> 429 -> status < 500 -> status <> 204 -> status <> 403 ->
  body <> EmptyString ->
  PublicKey package_client = EmptyString \/ verdict = None ->
  List.NoDup (all_error_codes codes) ->
  Errors doc = first :: rest ->
  EO_Code first = ErrorCodeNotFound codes ->
  result (@answering params' Machine status headers body verdict (machine, inl doc))
         (License_Machine' l id)
  = (None,
     Some (NotFoundError
             (Error_of
                (with_Document
                   (response_read cfg package_client "GET" ("machines/" +:+ id)
                      (@None params') status headers body) doc)
                first))).
Proof.
  intros H429 H500 H204 H403 Hbody Hverdict Hdistinct Hproblems Hcode.
  unfold License_Machine. rewrite result_bind_Ret. unfold Get.
  rewrite send_answering.
  set (response := response_read cfg package_client "GET" _ _ status headers body).
  set (h := @answering params' Machine status headers body verdict (machine, inl doc)).
  assert (Hpass : passes_checks h package_client response)
    by (apply answering_passes; assumption).
  assert (Hsize : Size response <> 0) by (apply size_response_read; exact Hbody).
  rewrite (send_classify_decoded params' Machine codes h package_client response
             zero_Machine machine doc Hpass H204 Hsize eq_refl), Hproblems.
  pose proof (problem_error_table codes (with_Document response doc) first
                H403 Hdistinct) as Htable.
  cbv zeta in Htable.
  destruct Htable as (_ & _ & _ & _ & _ & _ & Hnotfound).
  unfold target_or_error. cbn [out_err]. rewrite (Hnotfound Hcode). reflexivity.
Qed.

End MethodsFurther.

(** ** The further properties at sample inputs *)

Lemma sample_error_codes_distinct : List.NoDup (all_error_codes sample_error_codes).
Proof.
  unfold all_error_codes, sample_error_codes; cbn.
  repeat (apply List.NoDup_cons; [cbn; intuition discriminate|]).
  apply List.NoDup_nil.
Defined.

(** A short answer of a gateway. *)
Lemma tldr_short_plain_witness :
  (String.length (Body brief_response) <= 500)%nat
  /\ contains_byte LF (Body brief_response) = false
  /\ tldr brief_response = "Bad Gateway"%string.
Proof.
  assert (Hshort : (String.length (Body brief_response) <= 500)%nat)
    by (vm_compute; lia).
  assert (Hplain : contains_byte LF (Body brief_response) = false) by reflexivity.
  split; [exact Hshort|]. split; [exact Hplain|].
  exact (tldr_short_plain brief_response Hshort Hplain).
Defined.

(** A body of 600 bytes with a line feed after every 99 bytes: 500 bytes
    are kept, five of them line feeds, and the dots are added. *)
Lemma tldr_shape_witness :
  String.length (Body lined_response) = 600%nat
  /\ String.length (tldr lined_response) = 508%nat.
Proof.
  split; [vm_compute; reflexivity|].
  rewrite (proj2 (tldr_shape lined_response)). vm_compute. reflexivity.
Defined.

(** A 404 without a body is a success. *)
Lemma send_classify_empty_witness :
  passes_checks agreeable sample_client (response_of 404 ∅ "")
  /\ result agreeable
       (send_classify unit string sample_error_codes sample_client
          (response_of 404 ∅ "") "initial")
     = {| out_response := Some (response_of 404 ∅ ""); out_err := None;
          out_model := "initial"%string |}.
Proof.
  assert (Hpass : passes_checks agreeable sample_client (response_of 404 ∅ "")).
  { split; [vm_compute; discriminate|]. split; [vm_compute; reflexivity|].
    left. reflexivity. }
  split; [exact Hpass|].
  exact (proj1 (send_classify_empty unit string sample_error_codes agreeable
                  sample_client (response_of 404 ∅ "") "initial"%string Hpass
                  (or_intror eq_refl))).
Defined.

(** A body that breaks off. *)
Lemma send_classify_undecodable_witness :
  passes_checks garbling sample_client (response_of 200 ∅ "{")
  /\ result garbling
       (send_classify unit string sample_error_codes sample_client
          (response_of 200 ∅ "{") "initial")
     = {| out_response := Some (response_of 200 ∅ "{");
          out_err := Some (External "unexpected end of JSON input");
          out_model := "partly decoded"%string |}.
Proof.
  assert (Hpass : passes_checks garbling sample_client (response_of 200 ∅ "{")).
  { split; [vm_compute; discriminate|]. split; [vm_compute; reflexivity|].
    left. reflexivity. }
  split; [exact Hpass|].
  apply (send_classify_undecodable unit string sample_error_codes garbling
           sample_client (response_of 200 ∅ "{") "initial"%string
           "partly decoded"%string (External "unexpected end of JSON input") Hpass).
  - vm_compute; discriminate.
  - vm_compute; discriminate.
  - reflexivity.
Defined.

(** A 404 whose body decodes and reports nothing. *)
Lemma send_classify_clean_witness :
  passes_checks agreeable sample_client (response_of 404 ∅ "{}")
  /\ result agreeable
       (send_classify unit string sample_error_codes sample_client
          (response_of 404 ∅ "{}") "initial")
     = {| out_response :=
            Some (with_Document (response_of 404 ∅ "{}") {| Errors := [] |});
          out_err := None; out_model := "decoded"%string |}.
Proof.
  assert (Hpass : passes_checks agreeable sample_client (response_of 404 ∅ "{}")).
  { split; [vm_compute; discriminate|]. split; [vm_compute; reflexivity|].
    left. reflexivity. }
  split; [exact Hpass|].
  apply (send_classify_clean unit string sample_error_codes agreeable
           sample_client (response_of 404 ∅ "{}") "initial"%string
           "decoded"%string {| Errors := [] |} Hpass).
  - vm_compute; discriminate.
  - vm_compute; discriminate.
  - reflexivity.
  - reflexivity.
Defined.

Lemma rejected_passes problems :
  passes_checks (rejecting problems) sample_client rejected_response.
Proof.
  split; [vm_compute; discriminate|]. split; [vm_compute; reflexivity|].
  left. reflexivity.
Defined.

(** The fingerprint is taken; a second problem changes nothing. *)
Lemma send_classify_code_table_witness :
  List.NoDup (all_error_codes sample_error_codes)
  /\ out_err (result (rejecting [taken_problem; odd_problem])
                (send_classify unit string sample_error_codes sample_client
                   rejected_response "initial"))
     = Some ErrMachineAlreadyActivated.
Proof.
  split; [exact sample_error_codes_distinct|].
  assert (H204 : Status rejected_response <> 204) by (vm_compute; discriminate).
  assert (Hsize : Size rejected_response <> 0) by (vm_compute; discriminate).
  assert (H403 : Status rejected_response <> 403) by (vm_compute; discriminate).
  exact (proj1 (proj2
           (send_classify_code_table unit string sample_error_codes
              (rejecting [taken_problem; odd_problem]) sample_client rejected_response
              "initial"%string "decoded"%string
              {| Errors := [taken_problem; odd_problem] |} taken_problem [odd_problem]
              (rejected_passes _) H204 Hsize eq_refl eq_refl H403
              sample_error_codes_distinct))
           eq_refl).
Defined.

(** A code that the client does not know. *)
Lemma send_classify_unknown_code_witness :
  ~ In (EO_Code odd_problem) (all_error_codes sample_error_codes)
  /\ out_err (result (rejecting [odd_problem])
                (send_classify unit string sample_error_codes sample_client
                   rejected_response "initial"))
     = Some (GenericError
               {| Err_Response :=
                    with_Document rejected_response {| Errors := [odd_problem] |};
                  Title := "Payment required"; Detail := "subscription has lapsed";
                  Code := "PAYMENT_REQUIRED"; Source := "" |}).
Proof.
  assert (Hunknown : ~ In (EO_Code odd_problem) (all_error_codes sample_error_codes))
    by (cbn; intuition discriminate).
  split; [exact Hunknown|].
  assert (H204 : Status rejected_response <> 204) by (vm_compute; discriminate).
  assert (Hsize : Size rejected_response <> 0) by (vm_compute; discriminate).
  assert (H403 : Status rejected_response <> 403) by (vm_compute; discriminate).
  exact (send_classify_unknown_code unit string sample_error_codes
           (rejecting [odd_problem]) sample_client rejected_response
           "initial"%string "decoded"%string {| Errors := [odd_problem] |}
           odd_problem [] (rejected_passes _) H204 Hsize eq_refl eq_refl H403 Hunknown).
Defined.

(** The service cannot be reached. *)
Lemma send_nil_response_witness :
  let sent := send unit string (fun _ => false) sample_config sample_error_codes
                   sample_signed_client "POST" "machines" (Some tt) "initial"%string in
  out_response (result unreachable sent) = None
  /\ exists err,
       out_err (result unreachable sent) = Some err
       /\ out_model (result unreachable sent) = "initial"%string
       /\ Forall before_response (trace unreachable sent).
Proof.
  intros sent.
  assert (Hnone : out_response (result unreachable sent) = None)
    by (vm_compute; reflexivity).
  split; [exact Hnone|].
  exact (send_nil_response unit string (fun _ => false) sample_config
           sample_error_codes unreachable sample_signed_client "POST" "machines"
           (Some tt) "initial"%string Hnone).
Defined.

(** A GET with parameters encodes no body. *)
Lemma send_encodes_body_witness :
  let sent := send unit string (fun _ => true) sample_config sample_error_codes
                   sample_client "GET" "machines" (Some tt) "initial"%string in
  sends_body "GET" = false
  /\ Forall (fun call => is_Marshal call = false
                         /\ forall m u b, requested call = Some (m, u, b) ->
                                          b = EmptyString)
            (trace querying sent).
Proof.
  intros sent.
  assert (Hget : sends_body "GET" = false) by reflexivity.
  split; [exact Hget|].
  exact (proj2 (send_encodes_body unit string (fun _ => true) sample_config
                  sample_error_codes querying sample_client "GET" "machines"
                  (Some tt) "initial"%string) (or_intror Hget)).
Defined.

(** A client with a key and a token authorizes with the key. *)
Lemma send_authorization_witness :
  let sent := send unit string (fun _ => false) sample_config sample_error_codes
                   sample_both_client "GET" "machines" None "initial"%string in
  exists call req,
    In call (trace agreeable sent)
    /\ transported call = Some req
    /\ Method req = "GET"%string
    /\ Request_Header req !! "Authorization"%string = Some ["License KEY-1"%string].
Proof.
  intros sent.
  assert (Hcall : { call : AnyCall (Call unit string) &
                    { req : http_Request |
                      In call (trace agreeable sent)
                      /\ transported call = Some req } }).
  { vm_compute. eexists. eexists. split.
    - right. left. reflexivity.
    - reflexivity. }
  destruct Hcall as (call & req & Hin & Hreq).
  exists call, req. split; [exact Hin|]. split; [exact Hreq|].
  exact (send_authorization unit string (fun _ => false) sample_config
           sample_error_codes agreeable sample_both_client "GET" "machines" None
           "initial"%string call req Hin Hreq).
Defined.

(** The fixed headers of a request of the sample client. *)
Lemma send_fixed_headers_witness :
  let sent := send unit string (fun _ => false) sample_config sample_error_codes
                   sample_token_client "GET" "machines" None "initial"%string in
  exists call req,
    In call (trace agreeable sent)
    /\ transported call = Some req
    /\ Request_Header req !! "Keygen-Version"%string = Some ["1.1"%string]
    /\ Request_Header req !! "Accept"%string = Some ["application/vnd.api+json"%string]
    /\ Request_Header req !! "User-Agent"%string
       = Some ["keygen/1.1 sdk/2.0.0 go/go1.19 linux/amd64 app/1.0"%string]
    /\ Request_Header req !! "X-Api-Key"%string = None.
Proof.
  intros sent.
  assert (Hcall : { call : AnyCall (Call unit string) &
                    { req : http_Request |
                      In call (trace agreeable sent)
                      /\ transported call = Some req } }).
  { vm_compute. eexists. eexists. split.
    - right. left. reflexivity.
    - reflexivity. }
  destruct Hcall as (call & req & Hin & Hreq).
  exists call, req. split; [exact Hin|]. split; [exact Hreq|].
  destruct (send_fixed_headers unit string (fun _ => false) sample_config
              sample_error_codes agreeable sample_token_client "GET" "machines" None
              "initial"%string call req Hin Hreq)
    as (Hversion & _ & Haccept & Hagent & Hother).
  split; [exact Hversion|]. split; [exact Haccept|]. split; [exact Hagent|].
  apply Hother. cbn. intuition discriminate.
Defined.

(** A self-hosted API and a query: no account in the URL, the query
    after a question mark. *)
Lemma send_request_url_witness :
  let sent := send unit string (fun _ => true) custom_config sample_error_codes
                   sample_client "GET" "licenses/b18e3f3a/machines" (Some tt)
                   "initial"%string in
  exists call,
    In call (trace querying sent)
    /\ requested call
       = Some ("GET"%string,
               "https://licensing.example.com/v1/licenses/b18e3f3a/machines?limit=100"%string,
               ""%string)
    /\ base_url custom_config sample_client "licenses/b18e3f3a/machines"
       = "https://licensing.example.com/v1/licenses/b18e3f3a/machines"%string
    /\ base_url sample_config sample_client "licenses/b18e3f3a/machines"
       = "https://api.keygen.sh/v1/accounts/acme/licenses/b18e3f3a/machines"%string.
Proof.
  intros sent.
  assert (Hcall : { call : AnyCall (Call unit string) |
                    In call (trace querying sent)
                    /\ requested call
                       = Some ("GET"%string,
                               "https://licensing.example.com/v1/licenses/b18e3f3a/machines?limit=100"%string,
                               ""%string) }).
  { vm_compute. eexists. split.
    - right. left. reflexivity.
    - reflexivity. }
  destruct Hcall as (call & Hin & Hreq).
  exists call. split; [exact Hin|]. split; [exact Hreq|].
  destruct (send_request_url unit string (fun _ => true) custom_config
              sample_error_codes querying sample_client "GET"
              "licenses/b18e3f3a/machines" (Some tt) "initial"%string call _ _ _
              Hin Hreq) as [_ Hurl].
  split; vm_compute; reflexivity.
Defined.

(** The response of a request that went through. *)
Lemma send_response_as_delivered_witness :
  let sent := send unit string (fun _ => false) sample_config sample_error_codes
                   sample_client "GET" "machines" None "initial"%string in
  exists r,
    out_response (result agreeable sent) = Some r
    /\ Status r = 200 /\ Body r = "{}"%string /\ Size r = 2.
Proof.
  intros sent.
  assert (Hr : { r : Response | out_response (result agreeable sent) = Some r }).
  { vm_compute. eexists. reflexivity. }
  destruct Hr as [r Hr]. exists r. split; [exact Hr|].
  destruct (send_response_as_delivered unit string (fun _ => false) sample_config
              sample_error_codes agreeable sample_client "GET" "machines" None
              "initial"%string r Hr)
    as (req & res & _ & Hdo & Hstatus & _ & _ & Hbody & Hsize & _).
  cbn in Hdo. injection Hdo as <-. cbn in Hbody. injection Hbody as Hbody.
  rewrite Hsize, Hstatus, <- Hbody. repeat split.
Defined.

(** A request that ends with a nil error. *)
Lemma send_nil_error_witness :
  let sent := send unit string (fun _ => false) sample_config sample_error_codes
                   sample_client "GET" "machines" None "initial"%string in
  out_err (result agreeable sent) = None
  /\ exists r,
       out_response (result agreeable sent) = Some r
       /\ Status r <> 429 /\ Status r < 500
       /\ match Document r with
          | Some doc => Errors doc = []
          | None => Status r = 204 \/ Size r = 0
          end.
Proof.
  intros sent.
  assert (Hnil : out_err (result agreeable sent) = None) by (vm_compute; reflexivity).
  split; [exact Hnil|].
  exact (send_nil_error unit string (fun _ => false) sample_config
           sample_error_codes agreeable sample_client "GET" "machines" None
           "initial"%string Hnil).
Defined.

(** The service does not know the license: [Validate] answers that the
    license is invalid and leaves the receiver alone. *)
Lemma Validate_request_failed_witness :
  exists e,
    out_err (result (unknowing (zero_validation unit string tt ""))
               (Validate_request (list string) unit string tt "" (fun f => f)
                  (fun _ => false) sample_config sample_error_codes sample_client
                  sample_license ["fp"]))
    = Some (NotFoundError e)
    /\ result (unknowing (zero_validation unit string tt ""))
              (sample_Validate sample_license ["fp"])
       = (sample_license, Some ErrLicenseInvalid).
Proof.
  assert (He : { e : Error |
    out_err (result (unknowing (zero_validation unit string tt ""))
               (Validate_request (list string) unit string tt "" (fun f => f)
                  (fun _ => false) sample_config sample_error_codes sample_client
                  sample_license ["fp"]))
    = Some (NotFoundError e) }).
  { vm_compute. eexists. reflexivity. }
  destruct He as [e He]. exists e. split; [exact He|].
  exact (proj1 (Validate_request_failed (list string) unit string (fun code => code)
                  tt ""%string (fun f => f) (fun _ => false) sample_config
                  sample_error_codes sample_validation_codes sample_client
                  (NotFoundError e))
           (unknowing (zero_validation unit string tt "")) sample_license
           ["fp"%string] He).
Defined.

Lemma serving_succeeds code :
  out_err (result (serving code)
             (Validate_request (list string) unit string tt "" (fun f => f)
                (fun _ => false) sample_config sample_error_codes sample_client
                sample_license ["fp"])) = None.
Proof. vm_compute; reflexivity. Defined.

Lemma serving_000_succeeds code :
  out_err (result (serving_000 code)
             (Validate_request_000 (list string) unit string tt "" (fun f => f)
                (fun _ => false) sample_config sample_error_codes sample_client
                (shared_fields unit string sample_license) ["fp"])) = None.
Proof. vm_compute; reflexivity. Defined.

(** A suspended license: the receiver takes over the license that the
    service describes although an error is returned. *)
Lemma Validate_overwrites_receiver_witness :
  fst (result (serving "SUSPENDED") (sample_Validate sample_license ["fp"]))
  = with_LastValidation unit string served_license (Some "SUSPENDED"%string)
  /\ snd (result (serving "SUSPENDED") (sample_Validate sample_license ["fp"]))
     = Some ErrLicenseSuspended
  /\ fst (result (serving_000 "SUSPENDED")
            (sample_Validate_000 (shared_fields unit string sample_license) ["fp"]))
     = shared_fields unit string served_license.
Proof.
  destruct (Validate_overwrites_receiver (list string) unit string (fun code => code)
              tt ""%string (fun f => f) (fun _ => false) sample_config
              sample_error_codes sample_validation_codes sample_client)
    as [Hsource Hother].
  split; [exact (Hsource (serving "SUSPENDED") sample_license ["fp"%string]
                   (serving_succeeds _))|].
  split; [vm_compute; reflexivity|].
  exact (Hother (serving_000 "SUSPENDED") (shared_fields unit string sample_license)
           ["fp"%string] (serving_000_succeeds _)).
Defined.

(** An expired license, in both revisions. *)
Lemma Validate_code_table_witness :
  List.NoDup (all_codes sample_validation_codes)
  /\ In ("EXPIRED"%string, ErrLicenseExpired) (validation_table sample_validation_codes)
  /\ snd (result (serving "EXPIRED") (sample_Validate sample_license ["fp"]))
     = Some ErrLicenseExpired
  /\ snd (result (serving_000 "EXPIRED")
            (sample_Validate_000 (shared_fields unit string sample_license) ["fp"]))
     = Some ErrLicenseExpired.
Proof.
  assert (Hin : In ("EXPIRED"%string, ErrLicenseExpired)
                   (validation_table sample_validation_codes))
    by (left; reflexivity).
  split; [exact sample_codes_distinct|]. split; [exact Hin|].
  destruct (Validate_code_table (list string) unit string (fun code => code)
              tt ""%string (fun f => f) (fun _ => false) sample_config
              sample_error_codes sample_validation_codes sample_client
              "EXPIRED"%string ErrLicenseExpired sample_codes_distinct Hin)
    as [Hsource Hother].
  split.
  - apply Hsource; [apply serving_succeeds | vm_compute; reflexivity].
  - apply Hother; [apply serving_000_succeeds | vm_compute; reflexivity].
Defined.

(** A valid license. *)
Lemma Validate_nil_iff_valid_witness :
  snd (result (serving "VALID") (sample_Validate sample_license ["fp"])) = None
  /\ snd (result (serving_000 "VALID")
            (sample_Validate_000 (shared_fields unit string sample_license) ["fp"]))
     = None.
Proof.
  destruct (Validate_nil_iff_valid (list string) unit string (fun code => code)
              tt ""%string (fun f => f) (fun _ => false) sample_config
              sample_error_codes sample_validation_codes sample_client)
    as [Hsource Hother].
  split.
  - apply (proj2 (Hsource (serving "VALID") sample_license ["fp"%string])).
    split; [apply serving_succeeds | vm_compute; reflexivity].
  - apply (proj2 (Hother (serving_000 "VALID")
                    (shared_fields unit string sample_license) ["fp"%string])).
    split; [apply serving_000_succeeds | vm_compute; reflexivity].
Defined.

(** The request of a validation. *)
Lemma Validate_request_sent_witness :
  exists later,
    trace (serving "VALID") (sample_Validate sample_license ["fp"])
    = called (Marshal ["fp"%string])
      :: called (NewRequest "POST"
                   "https://api.keygen.sh/v1/accounts/acme/licenses/b18e3f3a/actions/validate"
                   "{}")
      :: later.
Proof.
  exact (proj1 (Validate_request_sent (list string) unit string (fun code => code)
                  tt ""%string (fun f => f) (fun _ => false) sample_config
                  sample_error_codes sample_validation_codes sample_client
                  (serving "VALID") sample_license ["fp"%string])
           "{}"%string eq_refl eq_refl).
Defined.

(** Relationships with a policy and an account. *)
Lemma SetRelationships_policy_witness :
  sample_relationships !! "policy"%string = Some (identifier_ptr "p-9")
  /\ exists l',
       SetRelationships unit string sample_license sample_relationships = Some (l', None)
       /\ L_PolicyId l' = "p-9"%string
       /\ L_ID l' = L_ID sample_license
       /\ SetRelationships unit string sample_license (<["policy" := other_value]> ∅)
          = None.
Proof.
  assert (Hpolicy : sample_relationships !! "policy"%string = Some (identifier_ptr "p-9"))
    by (vm_compute; reflexivity).
  split; [exact Hpolicy|].
  destruct (proj1 (SetRelationships_policy unit string sample_relationships)
              sample_license) as (_ & Hset & _).
  destruct (Hset "p-9"%string Hpolicy) as (l' & Hl' & Hid & Hrest).
  exists l'. split; [exact Hl'|]. split; [exact Hid|].
  split; [rewrite <- Hrest; reflexivity|].
  apply (proj2 (proj2 (proj2 (proj2
           (proj1 (SetRelationships_policy unit string (<["policy" := other_value]> ∅))
              sample_license))))).
  right. vm_compute. reflexivity.
Defined.

(** The second of three options fails: nothing is requested. *)
Lemma Checkout_failing_option_witness :
  run (@answering sample_params string 200 ∅ "{}" None ("file"%string, inl {| Errors := [] |}))
      (sample_Checkout sample_license [without_encryption; refusing; with_product])
  = ([], (None, Some (External "unsupported option"))).
Proof.
  exact (Checkout_failing_option unit string sample_machine string (bool * string)
           (Z * bool * string) (fun encrypt include => (encrypt, include)) ""%string
           false sample_config sample_error_codes sample_client
           (@answering sample_params string 200 ∅ "{}" None
              ("file"%string, inl {| Errors := [] |}))
           sample_license [without_encryption] refusing [with_product]
           (false, "entitlements"%string) (false, "entitlements"%string)
           (External "unsupported option") eq_refl eq_refl).
Defined.

(** Two options that succeed: the request carries what they leave. *)
Lemma Checkout_posts_options_witness :
  exists later,
    trace (@answering sample_params string 200 ∅ "{}" None
             ("file"%string, inl {| Errors := [] |}))
          (sample_Checkout sample_license [without_encryption; with_product])
    = called (Marshal (params_CheckoutOptions sample_machine (bool * string)
                         (Z * bool * string) (false, "product"%string)))
      :: later.
Proof.
  apply (Checkout_posts_options unit string sample_machine string (bool * string)
           (Z * bool * string) (fun encrypt include => (encrypt, include)) ""%string
           false sample_config sample_error_codes sample_client
           (@answering sample_params string 200 ∅ "{}" None
              ("file"%string, inl {| Errors := [] |}))
           sample_license [without_encryption; with_product]).
  intros opt o [<- | [<- | []]]; reflexivity.
Defined.

(** The check-out of the other revision on a sample license. *)
Lemma Checkout_000_request_witness :
  exists later,
    trace checking_out (sample_Checkout_000 (shared_fields unit string sample_license))
    = called (Marshal (params_querystring sample_machine (bool * string)
                         (Z * bool * string) (0, true, "entitlements"%string)))
      :: called (QueryValues (params_querystring sample_machine (bool * string)
                                (Z * bool * string) (0, true, "entitlements"%string)))
      :: called (NewRequest "POST"
                   "https://api.keygen.sh/v1/accounts/acme/licenses/b18e3f3a/actions/check-out?encrypt=true&include=entitlements"
                   "{}")
      :: later.
Proof.
  assert (Hnonempty : "encrypt=true&include=entitlements"%string <> EmptyString)
    by discriminate.
  exact (Checkout_000_request unit sample_machine string (bool * string)
           (Z * bool * string) (fun encrypt include => (0, encrypt, include))
           ""%string false sample_config sample_error_codes sample_client
           checking_out (shared_fields unit string sample_license)
           "{}"%string "encrypt=true&include=entitlements"%string
           eq_refl eq_refl Hnonempty).
Defined.

(** Activation of a sample license on a host named build-7. *)
Lemma Activate_request_witness :
  exists later,
    trace (@answering sample_params sample_machine 201 ∅ "{data:{}}" None
             (activated_machine, inl {| Errors := [] |}))
          (sample_Activate sample_license "4d:Eq:UV:D3:XZ:tL")
    = called (Marshal (params_Machine sample_machine (bool * string) (Z * bool * string)
                         (sample_Machine_literal "4d:Eq:UV:D3:XZ:tL" "build-7"
                            "linux/amd64" 8 (L_ID sample_license))))
      :: called (NewRequest "POST" "https://api.keygen.sh/v1/accounts/acme/machines" "{}")
      :: later.
Proof.
  exact (proj1 (Activate_request unit string sample_machine (bool * string)
                  (Z * bool * string) sample_Machine_literal blank_machine
                  "build-7"%string "linux"%string "amd64"%string 8 false
                  sample_config sample_error_codes sample_client
                  (@answering sample_params sample_machine 201 ∅ "{data:{}}" None
                     (activated_machine, inl {| Errors := [] |}))
                  sample_license "4d:Eq:UV:D3:XZ:tL"%string)
           "{}"%string eq_refl).
Defined.

(** The fingerprint is in use already. *)
Lemma Activate_outcomes_witness :
  result (@answering sample_params sample_machine 422 ∅ "{errors:[]}" None
            (blank_machine, inl {| Errors := [taken_problem] |}))
         (sample_Activate sample_license "4d:Eq:UV:D3:XZ:tL")
  = (None, Some ErrMachineAlreadyActivated).
Proof.
  assert (H429 : 422 <> 429) by lia.
  assert (H500 : 422 < 500) by lia.
  assert (H204 : 422 <> 204) by lia.
  assert (H403 : 422 <> 403) by lia.
  assert (Hbody : "{errors:[]}"%string <> EmptyString) by discriminate.
  exact (proj1 (proj2 (Activate_outcomes unit string sample_machine (bool * string)
                         (Z * bool * string) sample_Machine_literal blank_machine
                         "build-7"%string "linux"%string "amd64"%string 8 false
                         sample_config sample_error_codes sample_client
                         sample_license "4d:Eq:UV:D3:XZ:tL"%string 422 ∅
                         "{errors:[]}"%string None blank_machine
                         {| Errors := [taken_problem] |}
                         H429 H500 H204 H403 Hbody (or_introl eq_refl)
                         sample_error_codes_distinct)
                  taken_problem [] eq_refl) eq_refl).
Defined.

(** Deactivation of a machine, answered with 204. *)
Lemma Deactivate_request_witness :
  (exists later,
      trace (@answering sample_params unit 204 ∅ "" None (tt, inl {| Errors := [] |}))
            (sample_Deactivate sample_license "m-1")
      = called (NewRequest "DELETE"
                  "https://api.keygen.sh/v1/accounts/acme/machines/m-1" "")
        :: later)
  /\ result (@answering sample_params unit 204 ∅ "" None (tt, inl {| Errors := [] |}))
            (sample_Deactivate sample_license "m-1") = None.
Proof.
  destruct (Deactivate_request unit string sample_machine (bool * string)
              (Z * bool * string) false sample_config sample_error_codes
              sample_client sample_license "m-1"%string) as [Hsent Hnil].
  split.
  - exact (Hsent (@answering sample_params unit 204 ∅ "" None
                    (tt, inl {| Errors := [] |}))).
  - apply Hnil; [lia | lia | left; reflexivity | left; reflexivity].
Defined.

(** The machines of a sample license. *)
Lemma Machines_Entitlements_request_witness :
  exists later,
    trace listing (sample_License_Machines sample_license)
    = called (QueryValues (params_querystring sample_machine (bool * string)
                             (Z * bool * string) (100, false, ""%string)))
      :: called (NewRequest "GET"
                   "https://api.keygen.sh/v1/accounts/acme/licenses/b18e3f3a/machines?limit=100"
                   "")
      :: later.
Proof.
  assert (Hnonempty : "limit=100"%string <> EmptyString) by discriminate.
  exact (proj1 (Machines_Entitlements_request unit string sample_machine
                  (list sample_machine) (list string) (bool * string)
                  (Z * bool * string) (fun limit => (limit, false, ""%string))
                  [] [] false sample_config sample_error_codes sample_client
                  sample_license)
           listing "limit=100"%string eq_refl Hnonempty).
Defined.

(** The machine is not known to the service. *)
Lemma License_Machine_not_found_witness :
  exists e,
    result (@answering sample_params sample_machine 404 ∅ "{errors:[]}" None
              (blank_machine, inl {| Errors := [missing_machine] |}))
           (sample_License_Machine sample_license "m-1")
    = (None, Some (NotFoundError e))
    /\ Code e = "NOT_FOUND"%string.
Proof.
  assert (H429 : 404 <> 429) by lia.
  assert (H500 : 404 < 500) by lia.
  assert (H204 : 404 <> 204) by lia.
  assert (H403 : 404 <> 403) by lia.
  assert (Hbody : "{errors:[]}"%string <> EmptyString) by discriminate.
  eexists. split.
  - exact (License_Machine_not_found unit string sample_machine (bool * string)
             (Z * bool * string) blank_machine false sample_config
             sample_error_codes sample_client sample_license "m-1"%string 404 ∅
             "{errors:[]}"%string None blank_machine
             {| Errors := [missing_machine] |} missing_machine []
             H429 H500 H204 H403 Hbody (or_introl eq_refl)
             sample_error_codes_distinct eq_refl eq_refl).
  - reflexivity.
Defined.
